(** * Him-Learning backend: authorization and ownership model

    A shallow embedding of the route handlers of the blogging backend
    (routes/auth.js, routes/admin.js, the blog routes and models/Blog.js)
    over an explicit document store, and the properties of its
    authorization, cascade and aggregation rules.

    Collections are lists of documents in natural (insertion) order.
    Handlers are programs in a small state-and-exception monad: [await]
    is [bind], a rejected promise is [throw], and the [try]/[catch] of
    every handler turns a thrown error into a 500 response.  Every write
    that reaches the store is appended to an operation log, so that the
    number and the order of mutations can be stated. *)

From Stdlib Require Import List String Ascii Bool Arith NArith ZArith Lia Permutation.
Import ListNotations.
Local Open Scope string_scope.
Set Warnings "-register-all".

(** ** Values *)

(** A 96-bit ObjectId.  [toString()] is injective, so comparing the hex
    renderings (as the handlers do) is comparing the ids. *)
Definition ObjectId : Type := N.
Bind Scope N_scope with ObjectId.

(** JSON values sent by [res.json], together with JavaScript's
    [undefined], which optional chaining can produce. *)
Inductive Json : Type :=
| JUndefined
| JNull
| JBool (b : bool)
| JNum (n : nat)
| JStr (s : string)
| JId (i : ObjectId)
| JArr (l : list Json)
| JObj (fields : list (string * Json)).

(** JavaScript truthiness, for the values that occur here. *)
Definition truthy (v : Json) : bool :=
  match v with
  | JUndefined | JNull => false
  | JBool b => b
  | JNum n => negb (Nat.eqb n 0)
  | JStr s => negb (s =? "")
  | JId _ | JArr _ | JObj _ => true
  end.

(** [a || b] *)
Definition js_or (a b : Json) : Json := if truthy a then a else b.

(** Property access [o.k] on an object; [undefined] when absent. *)
Fixpoint lookup_field (k : string) (fields : list (string * Json)) : Json :=
  match fields with
  | [] => JUndefined
  | (k', v) :: rest => if k' =? k then v else lookup_field k rest
  end.

(** [o?.k] : [undefined] when [o] is [undefined] or [null]. *)
Definition js_opt_get (o : Json) (k : string) : Json :=
  match o with
  | JObj fields => lookup_field k fields
  | _ => JUndefined
  end.

(** [a[i]] on an array; [undefined] out of range. *)
Definition js_index (a : list Json) (i : nat) : Json :=
  nth i a JUndefined.

(** An optional string field of a request body: [None] is [undefined]. *)
Definition field_truthy (f : option string) : bool :=
  match f with
  | None => false
  | Some s => negb (s =? "")
  end.

(** [a || b] for an optional body field and a stored string. *)
Definition field_or (f : option string) (d : string) : string :=
  match f with
  | Some v => if field_truthy f then v else d
  | None => d
  end.

(** ** Strings: [String.prototype.trim]

    Characters are code units below 256; the ECMAScript white space and
    line terminators in that range are TAB, LF, VT, FF, CR, SP and NBSP. *)
Definition is_whitespace (c : ascii) : bool :=
  let n := nat_of_ascii c in
  existsb (Nat.eqb n) [9; 10; 11; 12; 13; 32; 160]%nat.

Fixpoint trimStart (s : string) : string :=
  match s with
  | EmptyString => EmptyString
  | String c s' => if is_whitespace c then trimStart s' else s
  end.

Fixpoint trimEnd (s : string) : string :=
  match s with
  | EmptyString => EmptyString
  | String c s' =>
      let t := trimEnd s' in
      if is_whitespace c && (t =? "") then EmptyString else String c t
  end.

Definition trim (s : string) : string := trimEnd (trimStart s).

Fixpoint whitespace_only (s : string) : bool :=
  match s with
  | EmptyString => true
  | String c s' => is_whitespace c && whitespace_only s'
  end.

(** ** Documents *)

Module UserDoc.
(** Modelled from the spec: models/User.js is not among the sources.
    A user has an identifier, name, unique email, hashed password, a
    role that is "user" or "admin" and defaults to "user", an optional
    bio and an optional avatar reference. *)
Record t : Type := mk {
  _id : ObjectId;
  name : string;
  email : string;
  password : string;
  role : string;
  bio : option string;
  avatar : option string
}.

Definition set_name (v : string) (u : t) : t :=
  mk (_id u) v (email u) (password u) (role u) (bio u) (avatar u).
Definition set_email (v : string) (u : t) : t :=
  mk (_id u) (name u) v (password u) (role u) (bio u) (avatar u).
Definition set_password (v : string) (u : t) : t :=
  mk (_id u) (name u) (email u) v (role u) (bio u) (avatar u).
Definition set_role (v : string) (u : t) : t :=
  mk (_id u) (name u) (email u) (password u) v (bio u) (avatar u).
Definition set_bio (v : option string) (u : t) : t :=
  mk (_id u) (name u) (email u) (password u) (role u) v (avatar u).
Definition set_avatar (v : option string) (u : t) : t :=
  mk (_id u) (name u) (email u) (password u) (role u) (bio u) v.
End UserDoc.

Module CommentDoc.
(** commentSchema of models/Blog.js (timestamps left out). *)
Record t : Type := mk {
  _id : ObjectId;
  user : ObjectId;
  content : string;
  userName : string
}.

(** [required: true] on a String path rejects the empty string;
    [user] is always present in this representation. *)
Definition validate (c : t) : bool :=
  negb (content c =? "") && negb (userName c =? "").
End CommentDoc.

Module BlogDoc.
(** blogSchema of models/Blog.js (timestamps left out). *)
Record t : Type := mk {
  _id : ObjectId;
  title : string;
  image : string;
  description : string;
  author : ObjectId;
  authorName : string;
  likes : list ObjectId;
  comments : list CommentDoc.t
}.

Definition set_likes (v : list ObjectId) (b : t) : t :=
  mk (_id b) (title b) (image b) (description b) (author b)
     (authorName b) v (comments b).
Definition set_comments (v : list CommentDoc.t) (b : t) : t :=
  mk (_id b) (title b) (image b) (description b) (author b)
     (authorName b) (likes b) v.

(** Virtuals. *)
Definition likesCount (b : t) : nat := List.length (likes b).
Definition commentsCount (b : t) : nat := List.length (comments b).

(** Schema validation run by [save]: the required String paths must be
    non-empty and every embedded comment must validate. *)
Definition validate (b : t) : bool :=
  negb (title b =? "") && negb (image b =? "")
  && negb (description b =? "") && negb (authorName b =? "")
  && forallb CommentDoc.validate (comments b).

Definition set_title (v : string) (b : t) : t :=
  mk (_id b) v (image b) (description b) (author b)
     (authorName b) (likes b) (comments b).
Definition set_description (v : string) (b : t) : t :=
  mk (_id b) (title b) (image b) v (author b)
     (authorName b) (likes b) (comments b).
End BlogDoc.

(** ** The store, its operation log, and the handler monad *)

Inductive Op : Type :=
| Op_Blog_deleteMany (author : ObjectId)
| Op_Blog_save (doc : BlogDoc.t)
| Op_User_deleteOne (id : ObjectId)
| Op_User_save (doc : UserDoc.t).

Record Store : Type := mkStore {
  users : list UserDoc.t;
  blogs : list BlogDoc.t;
  oplog : list Op
}.

Inductive Error : Type :=
| ValidatorError (path : string)
| DuplicateKeyError (index : string)
| CastError (path : string)
| OtherError (reason : string).

Definition error_message (e : Error) : Json :=
  match e with
  | ValidatorError path => JStr ("Validation failed: " ++ path)
  | DuplicateKeyError index => JStr ("E11000 duplicate key error: " ++ index)
  | CastError path => JStr ("Cast to ObjectId failed: " ++ path)
  | OtherError reason => JStr reason
  end.

Definition M (A : Type) : Type := Store -> (Error + A) * Store.

Definition ret {A : Type} (a : A) : M A := fun s => (inr a, s).

Definition throw {A : Type} (e : Error) : M A := fun s => (inl e, s).

Definition bind {A B : Type} (m : M A) (k : A -> M B) : M B :=
  fun s =>
    match m s with
    | (inl e, s') => (inl e, s')
    | (inr a, s') => k a s'
    end.

Declare Scope handler_scope.
Delimit Scope handler_scope with handler.
Notation "x <- 'await' c ;; k" := (bind c (fun x => k))
  (at level 61, c at next level, right associativity) : handler_scope.
Notation "'await' c ;; k" := (bind c (fun _ => k))
  (at level 61, c at next level, right associativity) : handler_scope.
Local Open Scope handler_scope.

(** ** Responses *)

Record Token : Type := mkToken {
  tok_userId : ObjectId;
  tok_expiresIn : string
}.

Record Cookie : Type := mkCookie {
  cookie_name : string;
  cookie_value : Token;
  cookie_httpOnly : bool;
  cookie_secure : bool;
  cookie_maxAge : N
}.

Record Response : Type := mkResponse {
  status : nat;
  cookie : option Cookie;
  body : Json
}.

(** [res.json(b)] and [res.status(c).json(b)] *)
Definition res_json (b : Json) : Response := mkResponse 200 None b.
Definition res_status_json (c : nat) (b : Json) : Response := mkResponse c None b.

Definition message (m : string) : Json := JObj [("message", JStr m)].

(** The [catch] block shared by every handler. *)
Definition server_error (e : Error) : Response :=
  res_status_json 500
    (JObj [("message", JStr "Server error"); ("error", error_message e)]).

Definition Handler : Type := Store -> Response * Store.

Definition try_catch (body : M Response) : Handler :=
  fun s =>
    match body s with
    | (inr r, s') => (r, s')
    | (inl e, s') => (server_error e, s')
    end.

(** ** Collections *)

Fixpoint replace_first {A : Type} (p : A -> bool) (x : A) (l : list A) : list A :=
  match l with
  | [] => []
  | y :: l' => if p y then x :: l' else y :: replace_first p x l'
  end.

Fixpoint remove_first {A : Type} (p : A -> bool) (l : list A) : list A :=
  match l with
  | [] => []
  | y :: l' => if p y then l' else y :: remove_first p l'
  end.

Definition count {A : Type} (p : A -> bool) (l : list A) : nat :=
  List.length (filter p l).

(** The cast of a route parameter to an ObjectId, done by the library
    inside [findById]: [None] for a string that is not a well-formed id. *)
Class ParamCast : Type := {
  castObjectId : string -> option ObjectId
}.

(** The Blog model: the queries and writes the handlers issue. *)
Module Blog.

Definition by_id (id : ObjectId) (b : BlogDoc.t) : bool :=
  N.eqb (BlogDoc._id b) id.

Definition by_author (a : ObjectId) (b : BlogDoc.t) : bool :=
  N.eqb (BlogDoc.author b) a.

(** [Blog.findById(id)] *)
Definition findById (id : ObjectId) : M (option BlogDoc.t) :=
  fun s => (inr (find (by_id id) (blogs s)), s).

(** [Blog.findById(req.params.id)] on the parameter as the route receives
    it: the call rejects when the parameter is not a well-formed id. *)
Definition findById_param {PC : ParamCast} (raw : string) : M (option BlogDoc.t) :=
  match castObjectId raw with
  | Some id => findById id
  | None => throw (CastError "_id")
  end.

(** [Blog.deleteMany({ author })] *)
Definition deleteMany_author (a : ObjectId) : M unit :=
  fun s =>
    (inr tt,
     mkStore (users s)
             (filter (fun b => negb (by_author a b)) (blogs s))
             (oplog s ++ [Op_Blog_deleteMany a])).

(** [Blog.countDocuments()] *)
Definition countDocuments : M nat :=
  fun s => (inr (List.length (blogs s)), s).

(** The pipeline [[{ $group: { _id: null, totalComments: { $sum: { $size:
    "$comments" } } } }]]: one group holding the sum over all documents,
    and no group at all when the collection is empty. *)
Definition group_totalComments (docs : list BlogDoc.t) : list Json :=
  match docs with
  | [] => []
  | _ :: _ =>
      [JObj [("_id", JNull);
             ("totalComments",
              JNum (list_sum (map (fun b => List.length (BlogDoc.comments b)) docs)))]]
  end.

Definition aggregate_totalComments : M (list Json) :=
  fun s => (inr (group_totalComments (blogs s)), s).

(** [doc.save()] on a document loaded from the collection: validation
    first; a valid document replaces the stored one of the same [_id]. *)
Definition save (doc : BlogDoc.t) : M unit :=
  fun s =>
    if BlogDoc.validate doc then
      (inr tt,
       mkStore (users s)
               (replace_first (by_id (BlogDoc._id doc)) doc (blogs s))
               (oplog s ++ [Op_Blog_save doc]))
    else (inl (ValidatorError "Blog validation failed"), s).

(** [blog.comments.id(commentId)] *)
Definition comments_id (b : BlogDoc.t) (cid : ObjectId) : option CommentDoc.t :=
  find (fun c => N.eqb (CommentDoc._id c) cid) (BlogDoc.comments b).

(** [blog.comments.id(req.params.commentId)] on the parameter as the
    route receives it: [null] also when it is not a well-formed id. *)
Definition comments_id_param {PC : ParamCast} (b : BlogDoc.t) (raw : string)
    : option CommentDoc.t :=
  match castObjectId raw with
  | Some cid => comments_id b cid
  | None => None
  end.

(** [blog.comments.pull(commentId)] *)
Definition comments_pull (b : BlogDoc.t) (cid : ObjectId) : BlogDoc.t :=
  BlogDoc.set_comments
    (filter (fun c => negb (N.eqb (CommentDoc._id c) cid)) (BlogDoc.comments b)) b.

(** [blog.comments.push({ user, content, userName })]: the subdocument
    gets its own [_id], and the [trim] setter of [content] runs on cast. *)
Definition comments_push (b : BlogDoc.t) (fresh user : ObjectId)
    (content userName : string) : BlogDoc.t :=
  BlogDoc.set_comments
    (BlogDoc.comments b ++ [CommentDoc.mk fresh user (trim content) userName]) b.

(** [blog.populate("comments.user", "name")] followed by serialisation of
    the comment array: each [user] becomes [{_id, name}], or [null] when
    the referenced user no longer exists. *)
Definition populated_comment (us : list UserDoc.t) (c : CommentDoc.t) : Json :=
  JObj [("_id", JId (CommentDoc._id c));
        ("user",
         match find (fun u => N.eqb (UserDoc._id u) (CommentDoc.user c)) us with
         | Some u => JObj [("_id", JId (UserDoc._id u)); ("name", JStr (UserDoc.name u))]
         | None => JNull
         end);
        ("content", JStr (CommentDoc.content c));
        ("userName", JStr (CommentDoc.userName c))].

Definition populate_comments (b : BlogDoc.t) : M Json :=
  fun s => (inr (JArr (map (populated_comment (users s)) (BlogDoc.comments b))), s).

(** [new Blog({ title, description, image, author, authorName })]: the
    [trim] setter of [title] runs on construction, and the two array
    paths start empty. *)
Definition new (fresh : ObjectId) (title description image : string)
    (author : ObjectId) (authorName : string) : BlogDoc.t :=
  BlogDoc.mk fresh (trim title) image description author authorName [] [].

(** [doc.save()] on a newly constructed document: validation first; the
    collection refuses a second document with the same [_id]. *)
Definition create (doc : BlogDoc.t) : M unit :=
  fun s =>
    if negb (BlogDoc.validate doc) then
      (inl (ValidatorError "Blog validation failed"), s)
    else if existsb (by_id (BlogDoc._id doc)) (blogs s) then
      (inl (DuplicateKeyError "_id"), s)
    else
      (inr tt,
       mkStore (users s) (blogs s ++ [doc]) (oplog s ++ [Op_Blog_save doc])).

(** [blog.title = v]: the [trim] setter runs on assignment. *)
Definition assign_title (v : string) (b : BlogDoc.t) : BlogDoc.t :=
  BlogDoc.set_title (trim v) b.

(** [blog.description = v] *)
Definition assign_description (v : string) (b : BlogDoc.t) : BlogDoc.t :=
  BlogDoc.set_description v b.

(** An embedded comment as it is serialised when [user] is not populated. *)
Definition comment_json (c : CommentDoc.t) : Json :=
  JObj [("_id", JId (CommentDoc._id c));
        ("user", JId (CommentDoc.user c));
        ("content", JStr (CommentDoc.content c));
        ("userName", JStr (CommentDoc.userName c))].

(** [blog.populate("author", "name")] followed by serialisation with the
    two virtuals of the schema: [author] becomes [{_id, name}], or [null]
    when the author no longer exists.  As in the document records,
    timestamps are left out. *)
Definition populate_author (b : BlogDoc.t) : M Json :=
  fun s =>
    (inr (JObj [("_id", JId (BlogDoc._id b));
                ("title", JStr (BlogDoc.title b));
                ("image", JStr (BlogDoc.image b));
                ("description", JStr (BlogDoc.description b));
                ("author",
                 match find (fun u => N.eqb (UserDoc._id u) (BlogDoc.author b)) (users s) with
                 | Some u => JObj [("_id", JId (UserDoc._id u));
                                   ("name", JStr (UserDoc.name u))]
                 | None => JNull
                 end);
                ("authorName", JStr (BlogDoc.authorName b));
                ("likes", JArr (map JId (BlogDoc.likes b)));
                ("comments", JArr (map comment_json (BlogDoc.comments b)));
                ("likesCount", JNum (BlogDoc.likesCount b));
                ("commentsCount", JNum (BlogDoc.commentsCount b))]),
     s).

End Blog.

(** The parts of models/User.js that the handlers rely on and that are
    not among the sources: the schema validators run by [save], the
    pre-save password hashing and the [comparePassword] method.  The
    method is awaited: it resolves to a boolean or rejects with an error,
    and its argument is absent when the request body has no such field. *)
Class UserModel : Type := {
  validate_user : UserDoc.t -> bool;
  hashPassword : string -> string;
  comparePassword : UserDoc.t -> option string -> Error + bool
}.

(** The User model. *)
Module User.
Section WithModel.
Context {UM : UserModel}.

Definition by_id (id : ObjectId) (u : UserDoc.t) : bool :=
  N.eqb (UserDoc._id u) id.

Definition by_email (e : string) (u : UserDoc.t) : bool :=
  UserDoc.email u =? e.

Definition by_role (r : string) (u : UserDoc.t) : bool :=
  UserDoc.role u =? r.

(** [User.findById(id)] *)
Definition findById (id : ObjectId) : M (option UserDoc.t) :=
  fun s => (inr (find (by_id id) (users s)), s).

(** [User.findById(req.params.id)] on the parameter as the route receives
    it: the call rejects when the parameter is not a well-formed id. *)
Definition findById_param {PC : ParamCast} (raw : string) : M (option UserDoc.t) :=
  match castObjectId raw with
  | Some id => findById id
  | None => throw (CastError "_id")
  end.

(** [User.findOne({ email })] *)
Definition findOne_email (e : string) : M (option UserDoc.t) :=
  fun s => (inr (find (by_email e) (users s)), s).

(** [User.findOne({ email })] with the email as the body has it: an
    absent email is sent as [null] and matches only a document without
    email, and every User document has one. *)
Definition findOne_body_email (e : option string) : M (option UserDoc.t) :=
  match e with
  | Some e => findOne_email e
  | None => ret None
  end.

(** [await user.comparePassword(candidate)] *)
Definition comparePassword_call (u : UserDoc.t) (candidate : option string) : M bool :=
  fun s => (comparePassword u candidate, s).

(** [User.countDocuments({ role })] *)
Definition countDocuments_role (r : string) : M nat :=
  fun s => (inr (count (by_role r) (users s)), s).

(** [User.deleteOne({ _id })] *)
Definition deleteOne (id : ObjectId) : M unit :=
  fun s =>
    (inr tt,
     mkStore (remove_first (by_id id) (users s)) (blogs s)
             (oplog s ++ [Op_User_deleteOne id])).

(** Modelled from the spec: [save()] of a new User document.  The email
    is unique across all users and the password is stored hashed; the
    store also refuses a second document with the same [_id]. *)
Definition create (doc : UserDoc.t) : M UserDoc.t :=
  fun s =>
    if negb (validate_user doc) then
      (inl (ValidatorError "User validation failed"), s)
    else if existsb (by_id (UserDoc._id doc)) (users s) then
      (inl (DuplicateKeyError "_id"), s)
    else if existsb (by_email (UserDoc.email doc)) (users s) then
      (inl (DuplicateKeyError "email"), s)
    else
      let stored := UserDoc.set_password (hashPassword (UserDoc.password doc)) doc in
      (inr stored,
       mkStore (users s ++ [stored]) (blogs s) (oplog s ++ [Op_User_save stored])).

(** Modelled from the spec: [save()] of a loaded User document whose
    password was not reassigned.  The email stays unique: a document that
    takes the email of another user is refused. *)
Definition save (doc : UserDoc.t) : M UserDoc.t :=
  fun s =>
    if negb (validate_user doc) then
      (inl (ValidatorError "User validation failed"), s)
    else if existsb (fun u => by_email (UserDoc.email doc) u
                              && negb (by_id (UserDoc._id doc) u)) (users s) then
      (inl (DuplicateKeyError "email"), s)
    else
      (inr doc,
       mkStore (replace_first (by_id (UserDoc._id doc)) doc (users s)) (blogs s)
               (oplog s ++ [Op_User_save doc])).

(** Modelled from the spec: [save()] of a loaded User document whose
    password was reassigned.  The new password is validated as given and
    stored hashed; the email check is the one of every save. *)
Definition save_password (doc : UserDoc.t) : M UserDoc.t :=
  fun s =>
    if negb (validate_user doc) then
      (inl (ValidatorError "User validation failed"), s)
    else if existsb (fun u => by_email (UserDoc.email doc) u
                              && negb (by_id (UserDoc._id doc) u)) (users s) then
      (inl (DuplicateKeyError "email"), s)
    else
      let stored := UserDoc.set_password (hashPassword (UserDoc.password doc)) doc in
      (inr stored,
       mkStore (replace_first (by_id (UserDoc._id doc)) stored (users s)) (blogs s)
               (oplog s ++ [Op_User_save stored])).

End WithModel.
End User.

(** ** routes/admin.js

    Every route runs behind [adminAuth]; the handlers below are what runs
    once the middleware has let the request through. *)

Module AdminRoutes.
Section WithModel.
Context {UM : UserModel}.

Definition user_summary (u : UserDoc.t) : Json :=
  JObj [("id", JId (UserDoc._id u));
        ("name", JStr (UserDoc.name u));
        ("email", JStr (UserDoc.email u));
        ("role", JStr (UserDoc.role u))].

(** [["user", "admin"].includes(role)] *)
Definition includes (l : list string) (v : string) : bool :=
  existsb (String.eqb v) l.

(** PUT /admin/users/:id with body [{ name, email, role }]. *)
Definition editUser (id : ObjectId) (name email role : option string) : Handler :=
  try_catch (
    user <- await User.findById id ;;
    match user with
    | None => ret (res_status_json 404 (message "User not found"))
    | Some user =>
        let user :=
          match name with
          | Some v => if field_truthy name then UserDoc.set_name v user else user
          | None => user
          end in
        let user :=
          match email with
          | Some v => if field_truthy email then UserDoc.set_email v user else user
          | None => user
          end in
        let user :=
          match role with
          | Some v =>
              if field_truthy role && includes ["user"; "admin"] v
              then UserDoc.set_role v user else user
          | None => user
          end in
        user <- await User.save user ;;
        ret (res_json (JObj [("message", JStr "User updated successfully");
                             ("user", user_summary user)]))
    end).

(** DELETE /admin/users/:id *)
Definition deleteUser (id : ObjectId) : Handler :=
  try_catch (
    user <- await User.findById id ;;
    match user with
    | None => ret (res_status_json 404 (message "User not found"))
    | Some user =>
        if UserDoc.role user =? "admin" then
          ret (res_status_json 400 (message "Cannot delete admin user"))
        else
          await Blog.deleteMany_author (UserDoc._id user) ;;
          await User.deleteOne (UserDoc._id user) ;;
          ret (res_json (message "User and their blogs deleted successfully"))
    end).

(** GET /admin/stats *)
Definition stats : Handler :=
  try_catch (
    totalUsers <- await User.countDocuments_role "user" ;;
    totalBlogs <- await Blog.countDocuments ;;
    totalComments <- await Blog.aggregate_totalComments ;;
    ret (res_json
           (JObj [("totalUsers", JNum totalUsers);
                  ("totalBlogs", JNum totalBlogs);
                  ("totalComments",
                   js_or (js_opt_get (js_index totalComments 0) "totalComments")
                         (JNum 0))]))).

(** PUT /admin/blogs/:id with body [{ title, description }]. *)
Definition updateBlog (id : ObjectId) (title description : option string) : Handler :=
  try_catch (
    blog <- await Blog.findById id ;;
    match blog with
    | None => ret (res_status_json 404 (message "Blog not found"))
    | Some blog =>
        let blog := Blog.assign_title (field_or title (BlogDoc.title blog)) blog in
        let blog :=
          Blog.assign_description (field_or description (BlogDoc.description blog)) blog in
        await Blog.save blog ;;
        updatedBlog <- await Blog.populate_author blog ;;
        ret (res_json updatedBlog)
    end).

(** PUT /admin/users/:id/password with body [{ newPassword }]. *)
Definition resetPassword (id : ObjectId) (newPassword : option string) : Handler :=
  try_catch (
    match newPassword with
    | None =>
        ret (res_status_json 400 (message "New password must be at least 6 characters"))
    | Some pw =>
        if negb (field_truthy newPassword) || (String.length pw <? 6)%nat then
          ret (res_status_json 400
                 (message "New password must be at least 6 characters"))
        else
          user <- await User.findById id ;;
          match user with
          | None => ret (res_status_json 404 (message "User not found"))
          | Some user =>
              let user := UserDoc.set_password pw user in
              await User.save_password user ;;
              ret (res_json (message "Password reset successfully"))
          end
    end).

(** The same routes on the [:id] parameter as the router passes it,
    before it is cast to an ObjectId. *)
Context {PC : ParamCast}.

(** PUT /admin/blogs/:id *)
Definition updateBlog_req (params_id : string) (title description : option string)
    : Handler :=
  try_catch (
    blog <- await Blog.findById_param params_id ;;
    match blog with
    | None => ret (res_status_json 404 (message "Blog not found"))
    | Some blog =>
        let blog := Blog.assign_title (field_or title (BlogDoc.title blog)) blog in
        let blog :=
          Blog.assign_description (field_or description (BlogDoc.description blog)) blog in
        await Blog.save blog ;;
        updatedBlog <- await Blog.populate_author blog ;;
        ret (res_json updatedBlog)
    end).

(** PUT /admin/users/:id *)
Definition editUser_req (params_id : string) (name email role : option string) : Handler :=
  try_catch (
    user <- await User.findById_param params_id ;;
    match user with
    | None => ret (res_status_json 404 (message "User not found"))
    | Some user =>
        let user :=
          match name with
          | Some v => if field_truthy name then UserDoc.set_name v user else user
          | None => user
          end in
        let user :=
          match email with
          | Some v => if field_truthy email then UserDoc.set_email v user else user
          | None => user
          end in
        let user :=
          match role with
          | Some v =>
              if field_truthy role && includes ["user"; "admin"] v
              then UserDoc.set_role v user else user
          | None => user
          end in
        user <- await User.save user ;;
        ret (res_json (JObj [("message", JStr "User updated successfully");
                             ("user", user_summary user)]))
    end).

(** PUT /admin/users/:id/password *)
Definition resetPassword_req (params_id : string) (newPassword : option string) : Handler :=
  try_catch (
    match newPassword with
    | None =>
        ret (res_status_json 400 (message "New password must be at least 6 characters"))
    | Some pw =>
        if negb (field_truthy newPassword) || (String.length pw <? 6)%nat then
          ret (res_status_json 400
                 (message "New password must be at least 6 characters"))
        else
          user <- await User.findById_param params_id ;;
          match user with
          | None => ret (res_status_json 404 (message "User not found"))
          | Some user =>
              let user := UserDoc.set_password pw user in
              await User.save_password user ;;
              ret (res_json (message "Password reset successfully"))
          end
    end).

(** DELETE /admin/users/:id *)
Definition deleteUser_req (params_id : string) : Handler :=
  try_catch (
    user <- await User.findById_param params_id ;;
    match user with
    | None => ret (res_status_json 404 (message "User not found"))
    | Some user =>
        if UserDoc.role user =? "admin" then
          ret (res_status_json 400 (message "Cannot delete admin user"))
        else
          await Blog.deleteMany_author (UserDoc._id user) ;;
          await User.deleteOne (UserDoc._id user) ;;
          ret (res_json (message "User and their blogs deleted successfully"))
    end).

End WithModel.
End AdminRoutes.

(** ** routes/auth.js *)

(** The configuration read from [process.env]. *)
Record ProcessEnv : Type := mkEnv {
  JWT_SECRET : string;
  NODE_ENV : string;
  ADMIN_EMAIL : string;
  ADMIN_PASSWORD : string
}.

Module AuthRoutes.
Section WithModel.
Context {UM : UserModel}.
Variable env : ProcessEnv.

(** [jwt.sign({ userId }, JWT_SECRET, { expiresIn: "7d" })] placed in the
    [token] cookie. *)
Definition session_cookie (userId : ObjectId) : Cookie :=
  mkCookie "token" (mkToken userId "7d") true
           (NODE_ENV env =? "production")
           (7 * 24 * 60 * 60 * 1000)%N.

Definition user_summary (u : UserDoc.t) : Json :=
  JObj [("id", JId (UserDoc._id u));
        ("name", JStr (UserDoc.name u));
        ("email", JStr (UserDoc.email u));
        ("role", JStr (UserDoc.role u))].

(** POST /auth/login with body [{ email, password }]; the handler does
    not check that the two fields are there. *)
Definition login (email password : option string) : Handler :=
  try_catch (
    user <- await User.findOne_body_email email ;;
    match user with
    | None => ret (res_status_json 400 (message "Invalid credentials"))
    | Some user =>
        isMatch <- await User.comparePassword_call user password ;;
        if negb isMatch then
          ret (res_status_json 400 (message "Invalid credentials"))
        else
          ret (mkResponse 200 (Some (session_cookie (UserDoc._id user)))
                 (JObj [("message", JStr "Login successful");
                        ("user", user_summary user)]))
    end).

(** POST /auth/admin-login with body [{ email, password }]; [fresh] is
    the [_id] a newly constructed document receives. *)
Definition adminLogin (fresh : ObjectId) (email password : string) : Handler :=
  try_catch (
    if negb (email =? ADMIN_EMAIL env) || negb (password =? ADMIN_PASSWORD env) then
      ret (res_status_json 400 (message "Invalid admin credentials"))
    else
      admin <- await User.findOne_email (ADMIN_EMAIL env) ;;
      admin <- await
        match admin with
        | None =>
            User.create (UserDoc.mk fresh "Admin" (ADMIN_EMAIL env)
                                    (ADMIN_PASSWORD env) "admin" None None)
        | Some admin =>
            if negb (UserDoc.role admin =? "admin")
            then User.save (UserDoc.set_role "admin" admin)
            else ret admin
        end ;;
      ret (mkResponse 200 (Some (session_cookie (UserDoc._id admin)))
             (JObj [("message", JStr "Admin login successful");
                    ("user", user_summary admin)]))).

(** POST /auth/signup with body [{ name, email, password }]; [fresh] is
    the [_id] the new document receives.  The role is the schema default. *)
Definition signup (fresh : ObjectId) (name email password : string) : Handler :=
  try_catch (
    existingUser <- await User.findOne_email email ;;
    match existingUser with
    | Some _ => ret (res_status_json 400 (message "User already exists"))
    | None =>
        user <- await User.create (UserDoc.mk fresh name email password "user" None None) ;;
        ret (mkResponse 201 (Some (session_cookie (UserDoc._id user)))
               (JObj [("message", JStr "User created successfully");
                      ("user", user_summary user)]))
    end).

(** An optional string path in a response: absent when unset. *)
Definition optional_json (v : option string) : Json :=
  match v with
  | Some x => JStr x
  | None => JUndefined
  end.

Definition profile (u : UserDoc.t) : Json :=
  JObj [("id", JId (UserDoc._id u));
        ("name", JStr (UserDoc.name u));
        ("email", JStr (UserDoc.email u));
        ("role", JStr (UserDoc.role u));
        ("bio", optional_json (UserDoc.bio u));
        ("avatar", optional_json (UserDoc.avatar u))].

(** GET /auth/me *)
Definition me (req_user : UserDoc.t) : Handler :=
  fun s => (res_json (JObj [("user", profile req_user)]), s).

(** PUT /auth/me with body [{ name, email, bio, avatar }]. *)
Definition updateProfile (req_user : UserDoc.t)
    (name email bio avatar : option string) : Handler :=
  try_catch (
    user <- await User.findById (UserDoc._id req_user) ;;
    match user with
    | None => ret (res_status_json 404 (message "User not found"))
    | Some user =>
        let user :=
          match name with
          | Some v => if field_truthy name then UserDoc.set_name v user else user
          | None => user
          end in
        let user :=
          match email with
          | Some v => if field_truthy email then UserDoc.set_email v user else user
          | None => user
          end in
        let user :=
          match bio with
          | Some _ => UserDoc.set_bio bio user
          | None => user
          end in
        let user :=
          match avatar with
          | Some _ => UserDoc.set_avatar avatar user
          | None => user
          end in
        user <- await User.save user ;;
        ret (res_json (JObj [("message", JStr "Profile updated successfully");
                             ("user", profile user)]))
    end).

(** PUT /auth/me/password with body [{ currentPassword, newPassword }]. *)
Definition changePassword (req_user : UserDoc.t)
    (currentPassword newPassword : option string) : Handler :=
  try_catch (
    match currentPassword, newPassword with
    | Some current, Some new =>
        if negb (field_truthy currentPassword) || negb (field_truthy newPassword) then
          ret (res_status_json 400 (message "Current and new password are required"))
        else
          user <- await User.findById (UserDoc._id req_user) ;;
          match user with
          | None => ret (res_status_json 404 (message "User not found"))
          | Some user =>
              isMatch <- await User.comparePassword_call user currentPassword ;;
              if negb isMatch then
                ret (res_status_json 400 (message "Current password is incorrect"))
              else
                let user := UserDoc.set_password new user in
                await User.save_password user ;;
                ret (res_json (message "Password updated successfully"))
          end
    | _, _ =>
        ret (res_status_json 400 (message "Current and new password are required"))
    end).

End WithModel.
End AuthRoutes.

(** ** The blog routes

    The mutating routes run behind [auth], which attaches the resolved
    user to the request as [req.user]. *)

Module BlogRoutes.

(** [Array.prototype.indexOf]: the index of the first element equal to
    [x], or -1. *)
Fixpoint indexOf_from (l : list ObjectId) (x : ObjectId) (i : Z) : Z :=
  match l with
  | [] => (-1)%Z
  | y :: l' => if N.eqb y x then i else indexOf_from l' x (i + 1)%Z
  end.

Definition indexOf (l : list ObjectId) (x : ObjectId) : Z := indexOf_from l x 0%Z.

(** [Array.prototype.splice(start, deleteCount)] without inserted items. *)
Definition splice {A : Type} (l : list A) (start : Z) (deleteCount : nat) : list A :=
  let len := Z.of_nat (List.length l) in
  let from :=
    Z.to_nat (if (start <? 0)%Z then Z.max (len + start) 0 else Z.min start len) in
  firstn from l ++ skipn (from + deleteCount) l.

(** POST /blogs/:id/like; [req_user] is the identity the [auth]
    middleware attached to the request. *)
Definition toggleLike (req_user : UserDoc.t) (id : ObjectId) : Handler :=
  try_catch (
    blog <- await Blog.findById id ;;
    match blog with
    | None => ret (res_status_json 404 (message "Blog not found"))
    | Some blog =>
        let likeIndex := indexOf (BlogDoc.likes blog) (UserDoc._id req_user) in
        let blog :=
          if (likeIndex >? -1)%Z
          then BlogDoc.set_likes (splice (BlogDoc.likes blog) likeIndex 1) blog
          else BlogDoc.set_likes (BlogDoc.likes blog ++ [UserDoc._id req_user]) blog in
        await Blog.save blog ;;
        ret (res_json (JObj [("likes", JArr (map JId (BlogDoc.likes blog)));
                             ("likesCount", JNum (BlogDoc.likesCount blog))]))
    end).

(** POST /blogs/:id/comment with body [{ content }]; [fresh] is the [_id]
    the pushed subdocument receives. *)
Definition addComment (req_user : UserDoc.t) (fresh id : ObjectId)
    (content : option string) : Handler :=
  try_catch (
    match content with
    | None => ret (res_status_json 400 (message "Comment content is required"))
    | Some text =>
        if negb (field_truthy content) then
          ret (res_status_json 400 (message "Comment content is required"))
        else
          blog <- await Blog.findById id ;;
          match blog with
          | None => ret (res_status_json 404 (message "Blog not found"))
          | Some blog =>
              let blog :=
                Blog.comments_push blog fresh (UserDoc._id req_user) text
                                   (UserDoc.name req_user) in
              await Blog.save blog ;;
              comments <- await Blog.populate_comments blog ;;
              ret (res_json comments)
          end
    end).

(** DELETE /blogs/:blogId/comment/:commentId *)
Definition deleteComment (req_user : UserDoc.t) (blogId commentId : ObjectId) : Handler :=
  try_catch (
    blog <- await Blog.findById blogId ;;
    match blog with
    | None => ret (res_status_json 404 (message "Blog not found"))
    | Some blog =>
        match Blog.comments_id blog commentId with
        | None => ret (res_status_json 404 (message "Comment not found"))
        | Some comment =>
            if negb (N.eqb (CommentDoc.user comment) (UserDoc._id req_user))
               && negb (UserDoc.role req_user =? "admin")
            then ret (res_status_json 403 (message "Not authorized"))
            else
              let blog := Blog.comments_pull blog (CommentDoc._id comment) in
              await Blog.save blog ;;
              ret (res_json (message "Comment deleted successfully"))
        end
    end).

(** POST /blogs with body [{ title, description }]; [file] is the path of
    the uploaded image when there is one, [fresh] the [_id] of the new
    document. *)
Definition createBlog (req_user : UserDoc.t) (fresh : ObjectId) (file : option string)
    (title description : option string) : Handler :=
  try_catch (
    match title, description with
    | Some t, Some d =>
        if negb (field_truthy title) || negb (field_truthy description) then
          ret (res_status_json 400 (message "Title and description are required"))
        else
          let imageUrl :=
            match file with
            | Some path => path
            | None => "https://via.placeholder.com/600x400?text=Blog+Image"
            end in
          let blog :=
            Blog.new fresh t d imageUrl (UserDoc._id req_user) (UserDoc.name req_user) in
          await Blog.create blog ;;
          populatedBlog <- await Blog.populate_author blog ;;
          ret (res_status_json 201 populatedBlog)
    | _, _ =>
        ret (res_status_json 400 (message "Title and description are required"))
    end).

(** PUT /blogs/:id with body [{ title, description }]. *)
Definition updateBlog (req_user : UserDoc.t) (id : ObjectId)
    (title description : option string) : Handler :=
  try_catch (
    blog <- await Blog.findById id ;;
    match blog with
    | None => ret (res_status_json 404 (message "Blog not found"))
    | Some blog =>
        if negb (N.eqb (BlogDoc.author blog) (UserDoc._id req_user))
           && negb (UserDoc.role req_user =? "admin")
        then ret (res_status_json 403 (message "Not authorized"))
        else
          let blog :=
            Blog.assign_title (field_or title (BlogDoc.title blog)) blog in
          let blog :=
            Blog.assign_description
              (field_or description (BlogDoc.description blog)) blog in
          await Blog.save blog ;;
          updatedBlog <- await Blog.populate_author blog ;;
          ret (res_json updatedBlog)
    end).

(** The same routes on the [:id] parameters as the router passes them,
    before they are cast to ObjectIds. *)
Section WithCast.
Context {PC : ParamCast}.

(** PUT /blogs/:id *)
Definition updateBlog_req (req_user : UserDoc.t) (params_id : string)
    (title description : option string) : Handler :=
  try_catch (
    blog <- await Blog.findById_param params_id ;;
    match blog with
    | None => ret (res_status_json 404 (message "Blog not found"))
    | Some blog =>
        if negb (N.eqb (BlogDoc.author blog) (UserDoc._id req_user))
           && negb (UserDoc.role req_user =? "admin")
        then ret (res_status_json 403 (message "Not authorized"))
        else
          let blog :=
            Blog.assign_title (field_or title (BlogDoc.title blog)) blog in
          let blog :=
            Blog.assign_description
              (field_or description (BlogDoc.description blog)) blog in
          await Blog.save blog ;;
          updatedBlog <- await Blog.populate_author blog ;;
          ret (res_json updatedBlog)
    end).

(** POST /blogs/:id/like *)
Definition toggleLike_req (req_user : UserDoc.t) (params_id : string) : Handler :=
  try_catch (
    blog <- await Blog.findById_param params_id ;;
    match blog with
    | None => ret (res_status_json 404 (message "Blog not found"))
    | Some blog =>
        let likeIndex := indexOf (BlogDoc.likes blog) (UserDoc._id req_user) in
        let blog :=
          if (likeIndex >? -1)%Z
          then BlogDoc.set_likes (splice (BlogDoc.likes blog) likeIndex 1) blog
          else BlogDoc.set_likes (BlogDoc.likes blog ++ [UserDoc._id req_user]) blog in
        await Blog.save blog ;;
        ret (res_json (JObj [("likes", JArr (map JId (BlogDoc.likes blog)));
                             ("likesCount", JNum (BlogDoc.likesCount blog))]))
    end).

(** POST /blogs/:id/comment *)
Definition addComment_req (req_user : UserDoc.t) (fresh : ObjectId) (params_id : string)
    (content : option string) : Handler :=
  try_catch (
    match content with
    | None => ret (res_status_json 400 (message "Comment content is required"))
    | Some text =>
        if negb (field_truthy content) then
          ret (res_status_json 400 (message "Comment content is required"))
        else
          blog <- await Blog.findById_param params_id ;;
          match blog with
          | None => ret (res_status_json 404 (message "Blog not found"))
          | Some blog =>
              let blog :=
                Blog.comments_push blog fresh (UserDoc._id req_user) text
                                   (UserDoc.name req_user) in
              await Blog.save blog ;;
              comments <- await Blog.populate_comments blog ;;
              ret (res_json comments)
          end
    end).

(** DELETE /blogs/:blogId/comment/:commentId *)
Definition deleteComment_req (req_user : UserDoc.t) (params_blogId params_commentId : string)
    : Handler :=
  try_catch (
    blog <- await Blog.findById_param params_blogId ;;
    match blog with
    | None => ret (res_status_json 404 (message "Blog not found"))
    | Some blog =>
        match Blog.comments_id_param blog params_commentId with
        | None => ret (res_status_json 404 (message "Comment not found"))
        | Some comment =>
            if negb (N.eqb (CommentDoc.user comment) (UserDoc._id req_user))
               && negb (UserDoc.role req_user =? "admin")
            then ret (res_status_json 403 (message "Not authorized"))
            else
              let blog := Blog.comments_pull blog (CommentDoc._id comment) in
              await Blog.save blog ;;
              ret (res_json (message "Comment deleted successfully"))
        end
    end).

End WithCast.

End BlogRoutes.

(** ** The routers

    The requests the three routers accept, with the parameters, body
    fields and resolved identity each handler reads, and the dispatch to
    the handlers. *)

Inductive Request : Type :=
| POST_auth_signup (fresh : ObjectId) (name email password : string)
| POST_auth_login (email password : option string)
| POST_auth_admin_login (fresh : ObjectId) (email password : string)
| GET_auth_me (req_user : UserDoc.t)
| PUT_auth_me (req_user : UserDoc.t) (name email bio avatar : option string)
| PUT_auth_me_password (req_user : UserDoc.t) (currentPassword newPassword : option string)
| POST_blogs (req_user : UserDoc.t) (fresh : ObjectId) (file : option string)
    (title description : option string)
| PUT_blogs_id (req_user : UserDoc.t) (id : ObjectId) (title description : option string)
| POST_blogs_id_like (req_user : UserDoc.t) (id : ObjectId)
| POST_blogs_id_comment (req_user : UserDoc.t) (fresh id : ObjectId) (content : option string)
| DELETE_blogs_id_comment_id (req_user : UserDoc.t) (blogId commentId : ObjectId)
| PUT_admin_blogs_id (id : ObjectId) (title description : option string)
| PUT_admin_users_id (id : ObjectId) (name email role : option string)
| PUT_admin_users_id_password (id : ObjectId) (newPassword : option string)
| DELETE_admin_users_id (id : ObjectId)
| GET_admin_stats.

Definition handle {UM : UserModel} (env : ProcessEnv) (req : Request) : Handler :=
  match req with
  | POST_auth_signup fresh name email password =>
      AuthRoutes.signup env fresh name email password
  | POST_auth_login email password => AuthRoutes.login env email password
  | POST_auth_admin_login fresh email password =>
      AuthRoutes.adminLogin env fresh email password
  | GET_auth_me req_user => AuthRoutes.me req_user
  | PUT_auth_me req_user name email bio avatar =>
      AuthRoutes.updateProfile req_user name email bio avatar
  | PUT_auth_me_password req_user currentPassword newPassword =>
      AuthRoutes.changePassword req_user currentPassword newPassword
  | POST_blogs req_user fresh file title description =>
      BlogRoutes.createBlog req_user fresh file title description
  | PUT_blogs_id req_user id title description =>
      BlogRoutes.updateBlog req_user id title description
  | POST_blogs_id_like req_user id => BlogRoutes.toggleLike req_user id
  | POST_blogs_id_comment req_user fresh id content =>
      BlogRoutes.addComment req_user fresh id content
  | DELETE_blogs_id_comment_id req_user blogId commentId =>
      BlogRoutes.deleteComment req_user blogId commentId
  | PUT_admin_blogs_id id title description => AdminRoutes.updateBlog id title description
  | PUT_admin_users_id id name email role => AdminRoutes.editUser id name email role
  | PUT_admin_users_id_password id newPassword => AdminRoutes.resetPassword id newPassword
  | DELETE_admin_users_id id => AdminRoutes.deleteUser id
  | GET_admin_stats => AdminRoutes.stats
  end.

(** The store after a sequence of requests, served one after the other. *)
Definition serve {UM : UserModel} (env : ProcessEnv) (reqs : list Request) (s : Store) : Store :=
  fold_left (fun st req => snd (handle env req st)) reqs s.

(** ** Vocabulary of the properties *)

(** The error kinds of the interface and the status code of each. *)
Inductive ErrorKind : Type :=
| ValidationError
| Forbidden
| NotFound
| UnexpectedError.

Definition status_of (k : ErrorKind) : nat :=
  match k with
  | ValidationError => 400
  | Forbidden => 403
  | NotFound => 404
  | UnexpectedError => 500
  end.

Definition fails_with (k : ErrorKind) (r : Response) : Prop :=
  status r = status_of k.

(** Sum of the comment-array lengths of a list of blogs. *)
Definition total_comments (docs : list BlogDoc.t) : nat :=
  list_sum (map (fun b => List.length (BlogDoc.comments b)) docs).

(** Identifiers are unique within a collection. *)
Definition unique_user_ids (s : Store) : Prop := NoDup (map UserDoc._id (users s)).

(** The email invariant of the identity store. *)
Definition unique_emails (s : Store) : Prop := NoDup (map UserDoc.email (users s)).

(** The likes array after one like/unlike by [x], as the handler computes it. *)
Definition toggle_likes (l : list ObjectId) (x : ObjectId) : list ObjectId :=
  let likeIndex := BlogRoutes.indexOf l x in
  if (likeIndex >? -1)%Z then BlogRoutes.splice l likeIndex 1 else (l ++ [x])%list.

(** The user document after an admin edit: name and email are assigned
    when supplied and non-empty, the role only when it is exactly "user"
    or "admin". *)
Definition edited_user (name email role : option string) (u : UserDoc.t) : UserDoc.t :=
  let u :=
    match name with
    | Some v => if negb (v =? "") then UserDoc.set_name v u else u
    | None => u
    end in
  let u :=
    match email with
    | Some v => if negb (v =? "") then UserDoc.set_email v u else u
    | None => u
    end in
  match role with
  | Some v => if (v =? "user") || (v =? "admin") then UserDoc.set_role v u else u
  | None => u
  end.

(** No other user holds the email of [doc]. *)
Definition email_free (doc : UserDoc.t) (s : Store) : bool :=
  negb (existsb (fun v => User.by_email (UserDoc.email doc) v
                          && negb (User.by_id (UserDoc._id doc) v)) (users s)).

(** The document admin-login constructs when no account has the admin
    email, as it is stored. *)
Definition bootstrap_admin {UM : UserModel} (env : ProcessEnv) (fresh : ObjectId) : UserDoc.t :=
  UserDoc.mk fresh "Admin" (ADMIN_EMAIL env) (hashPassword (ADMIN_PASSWORD env))
             "admin" None None.

(** Admin-login called with the configured credentials once for every
    identifier in [freshes], one call after the other. *)
Definition adminLogin_many {UM : UserModel} (env : ProcessEnv)
    (freshes : list ObjectId) (s : Store) : Store :=
  fold_left
    (fun st fresh =>
       snd (AuthRoutes.adminLogin env fresh (ADMIN_EMAIL env) (ADMIN_PASSWORD env) st))
    freshes s.

(** The response of a successful admin-login for account [a]. *)
Definition admin_ok (env : ProcessEnv) (a : UserDoc.t) : Response :=
  mkResponse 200 (Some (AuthRoutes.session_cookie env (UserDoc._id a)))
    (JObj [("message", JStr "Admin login successful");
           ("user", AuthRoutes.user_summary a)]).

(** Blog identifiers are unique. *)
Definition unique_blog_ids (s : Store) : Prop := NoDup (map BlogDoc._id (blogs s)).

(** Every stored blog passes schema validation and has a likes array
    without duplicates. *)
Definition blogs_ok (s : Store) : Prop :=
  Forall (fun b => BlogDoc.validate b = true /\ NoDup (BlogDoc.likes b)) (blogs s).

(** The invariant of the store. *)
Definition store_ok (s : Store) : Prop :=
  unique_user_ids s /\ unique_emails s /\ unique_blog_ids s /\ blogs_ok s.

(** The blog after an edit of title and description. *)
Definition edited_blog (title description : option string) (b : BlogDoc.t) : BlogDoc.t :=
  BlogDoc.set_description (field_or description (BlogDoc.description b))
    (BlogDoc.set_title (trim (field_or title (BlogDoc.title b))) b).

(** What a like request must leave alone in a blog: everything but [likes]. *)
Definition without_likes (b : BlogDoc.t) :=
  (BlogDoc._id b, BlogDoc.title b, BlogDoc.image b, BlogDoc.description b,
   BlogDoc.author b, BlogDoc.authorName b, BlogDoc.comments b).

(** What a comment request must leave alone: everything but [comments]. *)
Definition without_comments (b : BlogDoc.t) :=
  (BlogDoc._id b, BlogDoc.title b, BlogDoc.image b, BlogDoc.description b,
   BlogDoc.author b, BlogDoc.authorName b, BlogDoc.likes b).

(** What an edit must leave alone: everything but [title] and [description]. *)
Definition without_text (b : BlogDoc.t) :=
  (BlogDoc._id b, BlogDoc.image b, BlogDoc.author b, BlogDoc.authorName b,
   BlogDoc.likes b, BlogDoc.comments b).

(** What a profile edit must leave alone in a user: id, password and role. *)
Definition credentials (u : UserDoc.t) :=
  (UserDoc._id u, UserDoc.password u, UserDoc.role u).

(** What a password change must leave alone: everything but [password]. *)
Definition without_password (u : UserDoc.t) :=
  (UserDoc._id u, UserDoc.name u, UserDoc.email u, UserDoc.role u,
   UserDoc.bio u, UserDoc.avatar u).

(** The requests that may legitimately make an admin: the admin edit of
    a user, which runs behind [adminAuth], and the admin-login. *)
Definition admin_path (req : Request) : bool :=
  match req with
  | POST_auth_admin_login _ _ _ | PUT_admin_users_id _ _ _ _ => true
  | _ => false
  end.

(** The account a login request looks up. *)
Definition found_account (email : option string) (s : Store) : option UserDoc.t :=
  match email with
  | Some e => find (User.by_email e) (users s)
  | None => None
  end.


(** Two user collections that are equal, or differ in exactly one
    document, which has the given id and differs only in its password. *)
Definition one_password_changed (id : ObjectId) (us us' : list UserDoc.t) : Prop :=
  us' = us
  \/ exists l1 u l2 h,
       us = (l1 ++ u :: l2)%list
       /\ us' = (l1 ++ UserDoc.set_password h u :: l2)%list
       /\ UserDoc._id u = id.

(** ** A small store used for concrete runs *)

Definition demo_model : UserModel := {|
  validate_user := fun u =>
    negb (UserDoc.name u =? "") && negb (UserDoc.email u =? "")
    && negb (UserDoc.password u =? "");
  hashPassword := fun p => "hashed:" ++ p;
  comparePassword := fun u candidate =>
    match candidate with
    | Some p => inr (UserDoc.password u =? "hashed:" ++ p)
    | None => inl (OtherError "Illegal arguments: undefined, string")
    end
|}.

(** A cast that accepts exactly the strings of 24 hexadecimal digits. *)
Definition hex_value (c : ascii) : option N :=
  let n := N_of_ascii c in
  if (48 <=? n)%N && (n <=? 57)%N then Some (n - 48)%N
  else if (97 <=? n)%N && (n <=? 102)%N then Some (n - 87)%N
  else if (65 <=? n)%N && (n <=? 70)%N then Some (n - 55)%N
  else None.

Fixpoint parse_hex (raw : string) (acc : N) : option N :=
  match raw with
  | EmptyString => Some acc
  | String c rest =>
      match hex_value c with
      | Some d => parse_hex rest (16 * acc + d)%N
      | None => None
      end
  end.

Definition demo_cast : ParamCast := {|
  castObjectId := fun raw =>
    if (String.length raw =? 24)%nat then parse_hex raw 0 else None
|}.

Definition demo_env : ProcessEnv :=
  mkEnv "secret" "production" "root@x.com" "letmein".

Definition alice : UserDoc.t :=
  UserDoc.mk 1 "Alice" "a@x.com" "hashed:alicepw" "user" None None.
Definition bob : UserDoc.t :=
  UserDoc.mk 2 "Bob" "b@x.com" "hashed:bobpw" "user" (Some "hi") None.
Definition root : UserDoc.t :=
  UserDoc.mk 3 "Admin" "root@x.com" "hashed:letmein" "admin" None None.

Definition blog_a1 : BlogDoc.t :=
  BlogDoc.mk 10 "Intro" "img1" "first post" 1 "Alice" [2]%N
    [CommentDoc.mk 100 2 "nice" "Bob"; CommentDoc.mk 101 1 "thanks" "Alice"].
Definition blog_b1 : BlogDoc.t :=
  BlogDoc.mk 11 "Notes" "img2" "bob writes" 2 "Bob" [1; 3]%N
    [CommentDoc.mk 102 1 "hello" "Alice"].
Definition blog_a2 : BlogDoc.t :=
  BlogDoc.mk 12 "More" "img3" "second post" 1 "Alice" [] [].

Definition demo_store : Store :=
  mkStore [alice; bob; root] [blog_a1; blog_b1; blog_a2] [].

Definition empty_store : Store := mkStore [] [] [].

(** A store in which nobody has the admin email yet. *)
Definition no_admin_store : Store := mkStore [alice; bob] [blog_a1] [].

(** ** Lemmas on collections *)

Lemma find_user_by_id (id : ObjectId) (l : list UserDoc.t) (u : UserDoc.t) :
  find (User.by_id id) l = Some u -> UserDoc._id u = id /\ In u l.
Proof.
  intros H. apply find_some in H. destruct H as [Hin Hb].
  split; [now apply N.eqb_eq in Hb | exact Hin].
Qed.

Lemma find_none_not_in_ids (id : ObjectId) (l : list UserDoc.t) :
  ~ In id (map UserDoc._id l) -> find (User.by_id id) l = None.
Proof.
  induction l as [|y l IH]; simpl; intros Hn; [reflexivity|].
  unfold User.by_id at 1.
  destruct (N.eqb_spec (UserDoc._id y) id) as [E|E].
  - exfalso. apply Hn. now left.
  - apply IH. intros Hin. apply Hn. now right.
Qed.

Lemma remove_first_absent (id : ObjectId) (l : list UserDoc.t) :
  NoDup (map UserDoc._id l) ->
  ~ In id (map UserDoc._id (remove_first (User.by_id id) l)).
Proof.
  induction l as [|y l IH]; simpl; intros Hnd; [tauto|].
  inversion Hnd as [|? ? Hy Hl]; subst.
  unfold User.by_id at 1.
  destruct (N.eqb_spec (UserDoc._id y) id) as [E|E].
  - now subst.
  - simpl. intros [H|H]; [contradiction|]. now apply IH in H.
Qed.

Lemma count_filter_negb {A : Type} (p : A -> bool) (l : list A) :
  count p (filter (fun x => negb (p x)) l) = 0.
Proof.
  unfold count. induction l as [|y l IH]; simpl; [reflexivity|].
  destruct (p y) eqn:E; simpl; [exact IH|]. now rewrite E.
Qed.

Lemma total_comments_split (p : BlogDoc.t -> bool) (l : list BlogDoc.t) :
  total_comments (filter (fun b => negb (p b)) l) + total_comments (filter p l)
  = total_comments l.
Proof.
  unfold total_comments. induction l as [|y l IH]; simpl; [reflexivity|].
  destruct (p y); simpl; lia.
Qed.

Lemma in_filter_negb_author (id : ObjectId) (l : list BlogDoc.t) (b : BlogDoc.t) :
  In b (filter (fun b => negb (Blog.by_author id b)) l) <->
  In b l /\ BlogDoc.author b <> id.
Proof.
  rewrite filter_In. unfold Blog.by_author.
  destruct (N.eqb_spec (BlogDoc.author b) id); simpl; intuition congruence.
Qed.

(** ** DELETE /admin/users/:id *)

Lemma deleteUser_run (s : Store) (id : ObjectId) (u : UserDoc.t) :
  find (User.by_id id) (users s) = Some u ->
  (UserDoc.role u =? "admin") = false ->
  AdminRoutes.deleteUser id s =
    (res_json (message "User and their blogs deleted successfully"),
     mkStore (remove_first (User.by_id id) (users s))
             (filter (fun b => negb (Blog.by_author id b)) (blogs s))
             (oplog s ++ [Op_Blog_deleteMany id; Op_User_deleteOne id])).
Proof.
  intros Hf Hr.
  destruct (find_user_by_id _ _ _ Hf) as [Hid _].
  unfold AdminRoutes.deleteUser, try_catch, bind, User.findById.
  rewrite Hf, Hr. simpl. rewrite Hid, <- app_assoc. reflexivity.
Qed.

(** C1, as amended: deleting an existing user whose role is "admin" is
    refused with status 400 and the message "Cannot delete admin user";
    the store and its operation log are left exactly as they were, so no
    blog is deleted and the target's record is still present. *)
Theorem deleteUser_admin_refused (s : Store) (id : ObjectId) (u : UserDoc.t) :
  find (User.by_id id) (users s) = Some u ->
  UserDoc.role u = "admin" ->
  let (r, s') := AdminRoutes.deleteUser id s in
  r = res_status_json 400 (message "Cannot delete admin user")
  /\ s' = s
  /\ oplog s' = oplog s
  /\ blogs s' = blogs s
  /\ find (User.by_id id) (users s') = Some u.
Proof.
  intros Hf Hr.
  unfold AdminRoutes.deleteUser, try_catch, bind, User.findById.
  rewrite Hf, Hr. simpl. auto.
Qed.

Lemma deleteUser_admin_refused_witness :
  let (r, s') := AdminRoutes.deleteUser 3 demo_store in
  r = res_status_json 400 (message "Cannot delete admin user")
  /\ s' = demo_store
  /\ oplog s' = oplog demo_store
  /\ blogs s' = blogs demo_store
  /\ find (User.by_id 3) (users s') = Some root.
Proof.
  apply (deleteUser_admin_refused demo_store 3 root); reflexivity.
Defined.

(** C1, as stated, fails: on the demo store the admin target is refused
    with status 400, which is not the status of Forbidden. *)
Lemma deleteUser_admin_not_Forbidden :
  find (User.by_id 3) (users demo_store) = Some root
  /\ UserDoc.role root = "admin"
  /\ status (fst (AdminRoutes.deleteUser 3 demo_store)) = 400
  /\ ~ fails_with Forbidden (fst (AdminRoutes.deleteUser 3 demo_store)).
Proof.
  repeat split; try reflexivity. unfold fails_with. simpl. discriminate.
Qed.

(** C3: deleting an existing non-admin user succeeds; afterwards no blog
    authored by the target remains, the target's record is absent, and
    the total comment count has dropped by exactly the comments held in
    the target's blogs.  The blogs are deleted first: the log gains the
    blog deletion followed by the user deletion, and in the state between
    the two the user record is still there. *)
Theorem deleteUser_cascade (s : Store) (id : ObjectId) (u : UserDoc.t) :
  unique_user_ids s ->
  find (User.by_id id) (users s) = Some u ->
  UserDoc.role u <> "admin" ->
  let (r, s') := AdminRoutes.deleteUser id s in
  r = res_json (message "User and their blogs deleted successfully")
  /\ count (Blog.by_author id) (blogs s') = 0
  /\ find (User.by_id id) (users s') = None
  /\ total_comments (blogs s')
     + total_comments (filter (Blog.by_author id) (blogs s))
     = total_comments (blogs s)
  /\ oplog s' = (oplog s ++ [Op_Blog_deleteMany id; Op_User_deleteOne id])%list
  /\ exists s1,
       Blog.deleteMany_author id s = (inr tt, s1)
       /\ find (User.by_id id) (users s1) = Some u
       /\ count (Blog.by_author id) (blogs s1) = 0
       /\ User.deleteOne id s1 = (inr tt, s').
Proof.
  intros Hnd Hf Hr.
  apply String.eqb_neq in Hr.
  rewrite (deleteUser_run s id u Hf Hr).
  split; [reflexivity|]. simpl.
  split; [apply count_filter_negb|].
  split; [apply find_none_not_in_ids, remove_first_absent, Hnd|].
  split; [apply total_comments_split|].
  split; [reflexivity|].
  eexists. split; [reflexivity|]. simpl.
  split; [exact Hf|].
  split; [apply count_filter_negb|].
  unfold User.deleteOne. simpl. now rewrite <- app_assoc.
Qed.

Lemma deleteUser_cascade_witness :
  let (r, s') := AdminRoutes.deleteUser 1 demo_store in
  r = res_json (message "User and their blogs deleted successfully")
  /\ count (Blog.by_author 1) (blogs s') = 0
  /\ find (User.by_id 1) (users s') = None
  /\ total_comments (blogs s')
     + total_comments (filter (Blog.by_author 1) (blogs demo_store))
     = total_comments (blogs demo_store)
  /\ oplog s' = (oplog demo_store ++ [Op_Blog_deleteMany 1; Op_User_deleteOne 1])%list
  /\ exists s1,
       Blog.deleteMany_author 1 demo_store = (inr tt, s1)
       /\ find (User.by_id 1) (users s1) = Some alice
       /\ count (Blog.by_author 1) (blogs s1) = 0
       /\ User.deleteOne 1 s1 = (inr tt, s').
Proof.
  apply (deleteUser_cascade demo_store 1 alice).
  - unfold unique_user_ids. simpl.
    repeat constructor; simpl; intuition discriminate.
  - reflexivity.
  - discriminate.
Defined.

(** C10: a successful delete-user leaves every blog of other authors in
    the store exactly as it was, and adds or alters nothing.  A comment
    or a like of the deleted user on such a blog therefore stays, while
    the user it refers to can no longer be found. *)
Theorem deleteUser_frame (s : Store) (id : ObjectId) (u : UserDoc.t) :
  unique_user_ids s ->
  find (User.by_id id) (users s) = Some u ->
  UserDoc.role u <> "admin" ->
  let (r, s') := AdminRoutes.deleteUser id s in
  status r = 200
  /\ blogs s' = filter (fun b => negb (Blog.by_author id b)) (blogs s)
  /\ (forall b, In b (blogs s) -> BlogDoc.author b <> id -> In b (blogs s'))
  /\ (forall b, In b (blogs s') -> In b (blogs s) /\ BlogDoc.author b <> id)
  /\ (forall b c, In b (blogs s) -> BlogDoc.author b <> id ->
        In c (BlogDoc.comments b) -> CommentDoc.user c = id ->
        exists b', In b' (blogs s') /\ In c (BlogDoc.comments b')
                   /\ find (User.by_id (CommentDoc.user c)) (users s') = None)
  /\ (forall b, In b (blogs s) -> BlogDoc.author b <> id ->
        In id (BlogDoc.likes b) ->
        exists b', In b' (blogs s') /\ In id (BlogDoc.likes b')
                   /\ find (User.by_id id) (users s') = None).
Proof.
  intros Hnd Hf Hr.
  apply String.eqb_neq in Hr.
  rewrite (deleteUser_run s id u Hf Hr). simpl.
  assert (Habs : find (User.by_id id) (remove_first (User.by_id id) (users s)) = None)
    by (apply find_none_not_in_ids, remove_first_absent, Hnd).
  split; [reflexivity|].
  split; [reflexivity|].
  split; [intros b Hb Ha; apply in_filter_negb_author; auto|].
  split; [intros b Hb; now apply in_filter_negb_author|].
  split.
  - intros b c Hb Ha Hc Hu. exists b.
    split; [apply in_filter_negb_author; auto|].
    split; [exact Hc|]. now rewrite Hu.
  - intros b Hb Ha Hl. exists b.
    split; [apply in_filter_negb_author; auto|]. auto.
Qed.

Lemma deleteUser_frame_witness :
  let (r, s') := AdminRoutes.deleteUser 1 demo_store in
  status r = 200
  /\ blogs s' = filter (fun b => negb (Blog.by_author 1 b)) (blogs demo_store)
  /\ (forall b, In b (blogs demo_store) -> BlogDoc.author b <> 1%N -> In b (blogs s'))
  /\ (forall b, In b (blogs s') -> In b (blogs demo_store) /\ BlogDoc.author b <> 1%N)
  /\ (forall b c, In b (blogs demo_store) -> BlogDoc.author b <> 1%N ->
        In c (BlogDoc.comments b) -> CommentDoc.user c = 1%N ->
        exists b', In b' (blogs s') /\ In c (BlogDoc.comments b')
                   /\ find (User.by_id (CommentDoc.user c)) (users s') = None)
  /\ (forall b, In b (blogs demo_store) -> BlogDoc.author b <> 1%N ->
        In 1%N (BlogDoc.likes b) ->
        exists b', In b' (blogs s') /\ In 1%N (BlogDoc.likes b')
                   /\ find (User.by_id 1) (users s') = None).
Proof.
  apply (deleteUser_frame demo_store 1 alice).
  - unfold unique_user_ids. simpl.
    repeat constructor; simpl; intuition discriminate.
  - reflexivity.
  - discriminate.
Defined.

(** ** GET /admin/stats *)

(** C7: stats answers with the number of users whose role is "user", the
    number of blogs and the sum of the comment-array lengths, and leaves
    the store alone; on a store without blogs the comment total is the
    number 0. *)
Theorem stats_counts (s : Store) :
  AdminRoutes.stats s =
    (res_json
       (JObj [("totalUsers", JNum (count (User.by_role "user") (users s)));
              ("totalBlogs", JNum (List.length (blogs s)));
              ("totalComments", JNum (total_comments (blogs s)))]),
     s)
  /\ forall us log,
       js_opt_get (body (fst (AdminRoutes.stats (mkStore us [] log)))) "totalComments"
       = JNum 0.
Proof.
  split; [|reflexivity].
  unfold AdminRoutes.stats, try_catch, bind, User.countDocuments_role,
    Blog.countDocuments, Blog.aggregate_totalComments, total_comments.
  destruct s as [us bs log]. simpl.
  destruct bs as [|b bs]; simpl; [reflexivity|].
  unfold js_or. simpl.
  destruct (List.length (BlogDoc.comments b)
            + list_sum (map (fun b0 => List.length (BlogDoc.comments b0)) bs));
    reflexivity.
Qed.

(** The scenario of an empty store, and the demo store: two users with
    role "user", three blogs, three comments. *)
Example stats_empty_store :
  AdminRoutes.stats empty_store =
    (res_json (JObj [("totalUsers", JNum 0); ("totalBlogs", JNum 0);
                     ("totalComments", JNum 0)]),
     empty_store).
Proof. reflexivity. Qed.

Example stats_demo_store :
  fst (AdminRoutes.stats demo_store) =
    res_json (JObj [("totalUsers", JNum 2); ("totalBlogs", JNum 3);
                    ("totalComments", JNum 3)]).
Proof. reflexivity. Qed.

(** Deleting Alice removes her two blogs and, with them, Bob's comment on
    one of them; her comment and her like on Bob's blog stay. *)
Example deleteUser_demo :
  snd (AdminRoutes.deleteUser 1 demo_store) =
    mkStore [bob; root] [blog_b1] [Op_Blog_deleteMany 1; Op_User_deleteOne 1].
Proof. reflexivity. Qed.

(** ** DELETE /blogs/:blogId/comment/:commentId *)

(** C2: when the blog and the comment exist and the acting user is
    neither the comment's author nor an admin, the request is answered
    403 "Not authorized" and nothing is written, whoever the author of the
    blog is: the acting user may be the blog's own author. *)
Theorem deleteComment_forbidden (s : Store) (actor : UserDoc.t)
    (blogId commentId : ObjectId) (b : BlogDoc.t) (c : CommentDoc.t) :
  find (Blog.by_id blogId) (blogs s) = Some b ->
  Blog.comments_id b commentId = Some c ->
  CommentDoc.user c <> UserDoc._id actor ->
  UserDoc.role actor <> "admin" ->
  let (r, s') := BlogRoutes.deleteComment actor blogId commentId s in
  r = res_status_json 403 (message "Not authorized")
  /\ fails_with Forbidden r
  /\ s' = s
  /\ (forall b', find (Blog.by_id blogId) (blogs s') = Some b' ->
        BlogDoc.comments b' = BlogDoc.comments b).
Proof.
  intros Hb Hc Hu Hr.
  apply N.eqb_neq in Hu. apply String.eqb_neq in Hr.
  unfold BlogRoutes.deleteComment, try_catch, bind, Blog.findById.
  rewrite Hb, Hc, Hu, Hr. simpl.
  repeat split. intros b' Hb'. congruence.
Qed.

(** Alice is the author of blog 10 but neither the author of comment 100
    nor an admin. *)
Lemma deleteComment_forbidden_witness :
  BlogDoc.author blog_a1 = UserDoc._id alice
  /\ let (r, s') := BlogRoutes.deleteComment alice 10 100 demo_store in
     r = res_status_json 403 (message "Not authorized")
     /\ fails_with Forbidden r
     /\ s' = demo_store
     /\ (forall b', find (Blog.by_id 10) (blogs s') = Some b' ->
           BlogDoc.comments b' = BlogDoc.comments blog_a1).
Proof.
  split; [reflexivity|].
  apply (deleteComment_forbidden demo_store alice 10 100 blog_a1
           (CommentDoc.mk 100 2 "nice" "Bob")).
  - reflexivity.
  - reflexivity.
  - discriminate.
  - discriminate.
Defined.

(** ** POST /blogs/:id/like *)

Lemma indexOf_from_absent (l : list ObjectId) (x : ObjectId) (i : Z) :
  ~ In x l -> BlogRoutes.indexOf_from l x i = (-1)%Z.
Proof.
  revert i. induction l as [|y l IH]; simpl; intros i Hn; [reflexivity|].
  destruct (N.eqb_spec y x) as [E|E]; [tauto|]. apply IH. tauto.
Qed.

Lemma indexOf_from_present (l : list ObjectId) (x : ObjectId) (i : Z) :
  In x l ->
  exists l1 l2, l = (l1 ++ x :: l2)%list /\ ~ In x l1
    /\ BlogRoutes.indexOf_from l x i = (i + Z.of_nat (List.length l1))%Z.
Proof.
  revert i. induction l as [|y l IH]; simpl; intros i Hin; [tauto|].
  destruct (N.eqb_spec y x) as [E|E].
  - subst. exists [], l. simpl. repeat split; [tauto | lia].
  - destruct Hin as [Hin|Hin]; [contradiction|].
    destruct (IH (i + 1)%Z Hin) as (l1 & l2 & -> & Hn & Hi).
    exists (y :: l1), l2. simpl. repeat split.
    + intros [H|H]; [contradiction | tauto].
    + rewrite Hi. lia.
Qed.

Lemma splice_pivot {A : Type} (l1 l2 : list A) (x : A) :
  BlogRoutes.splice (l1 ++ x :: l2) (Z.of_nat (List.length l1)) 1 = (l1 ++ l2)%list.
Proof.
  unfold BlogRoutes.splice.
  assert (H0 : (Z.of_nat (List.length l1) <? 0)%Z = false) by (apply Z.ltb_ge; lia).
  rewrite H0, length_app. simpl.
  rewrite Z.min_l by lia. rewrite Nat2Z.id.
  rewrite firstn_app, Nat.sub_diag, firstn_all. simpl. rewrite app_nil_r.
  rewrite skipn_app, skipn_all2 by lia. simpl.
  replace (List.length l1 + 1 - List.length l1) with 1 by lia. reflexivity.
Qed.

Lemma toggle_likes_absent (l : list ObjectId) (x : ObjectId) :
  ~ In x l -> toggle_likes l x = (l ++ [x])%list.
Proof.
  intros Hn. unfold toggle_likes, BlogRoutes.indexOf.
  now rewrite indexOf_from_absent.
Qed.

Lemma toggle_likes_present (l : list ObjectId) (x : ObjectId) :
  In x l ->
  exists l1 l2, l = (l1 ++ x :: l2)%list /\ ~ In x l1
    /\ toggle_likes l x = (l1 ++ l2)%list.
Proof.
  intros Hin. unfold toggle_likes, BlogRoutes.indexOf.
  destruct (indexOf_from_present l x 0 Hin) as (l1 & l2 & -> & Hn & Hi).
  exists l1, l2. repeat split; [exact Hn|].
  rewrite Hi. simpl.
  assert (Hgt : (Z.of_nat (List.length l1) >? -1)%Z = true) by (apply Z.gtb_lt; lia).
  rewrite Hgt. apply splice_pivot.
Qed.

Lemma app_pivot_last (l l1 l2 : list ObjectId) (x : ObjectId) :
  ~ In x l -> ~ In x l1 -> (l ++ [x] = l1 ++ x :: l2)%list -> (l1 ++ l2)%list = l.
Proof.
  revert l1. induction l as [|y l IH]; intros l1 Hl Hl1 E.
  - destruct l1 as [|z l1]; simpl in E.
    + now inversion E.
    + inversion E as [[Hz Hrest]]. destruct l1; discriminate.
  - destruct l1 as [|z l1]; simpl in E.
    + inversion E; subst. exfalso. apply Hl. now left.
    + inversion E as [[Hz Hrest]]; subst. simpl. f_equal.
      apply IH; [| |exact Hrest]; simpl in *; tauto.
Qed.

Lemma toggle_likes_twice (l : list ObjectId) (x : ObjectId) :
  count_occ N.eq_dec l x <= 1 ->
  Permutation (toggle_likes (toggle_likes l x) x) l
  /\ (~ In x l -> toggle_likes (toggle_likes l x) x = l).
Proof.
  intros Hc. destruct (in_dec N.eq_dec x l) as [Hin|Hn].
  - split; [|tauto].
    destruct (toggle_likes_present l x Hin) as (l1 & l2 & -> & Hn1 & ->).
    assert (Hn2 : ~ In x l2).
    { rewrite count_occ_app in Hc. simpl in Hc.
      destruct (N.eq_dec x x) as [_|Hne]; [|congruence].
      apply (count_occ_not_In N.eq_dec). unfold ObjectId in *. lia. }
    rewrite toggle_likes_absent by (rewrite in_app_iff; tauto).
    eapply Permutation_trans; [apply Permutation_sym, Permutation_cons_append|].
    apply Permutation_middle.
  - assert (E : toggle_likes (toggle_likes l x) x = l).
    { rewrite (toggle_likes_absent l x Hn).
      destruct (toggle_likes_present (l ++ [x]) x) as (l1 & l2 & E & Hn1 & ->).
      - rewrite in_app_iff. simpl. tauto.
      - now apply (app_pivot_last l l1 l2 x). }
    split; [now rewrite E | intros _; exact E].
Qed.

Lemma toggle_likes_keeps_NoDup (l : list ObjectId) (x : ObjectId) :
  NoDup l -> NoDup (toggle_likes l x).
Proof.
  intros Hnd. destruct (in_dec N.eq_dec x l) as [Hin|Hn].
  - destruct (toggle_likes_present l x Hin) as (l1 & l2 & -> & _ & ->).
    now apply NoDup_remove_1 in Hnd.
  - rewrite toggle_likes_absent by exact Hn.
    apply (Permutation_NoDup (Permutation_cons_append l x)).
    now constructor.
Qed.

Lemma find_blog_by_id (id : ObjectId) (l : list BlogDoc.t) (b : BlogDoc.t) :
  find (Blog.by_id id) l = Some b -> BlogDoc._id b = id.
Proof.
  intros H. apply find_some in H. now apply N.eqb_eq.
Qed.

Lemma find_replace_first {A : Type} (p : A -> bool) (x b : A) (l : list A) :
  find p l = Some b -> p x = true -> find p (replace_first p x l) = Some x.
Proof.
  induction l as [|y l IH]; simpl; [discriminate|].
  destruct (p y) eqn:E; intros Hf Hx; simpl.
  - now rewrite Hx.
  - rewrite E. now apply IH.
Qed.

Lemma toggleLike_run (s : Store) (u : UserDoc.t) (id : ObjectId) (b : BlogDoc.t) :
  find (Blog.by_id id) (blogs s) = Some b ->
  BlogDoc.validate b = true ->
  let b' := BlogDoc.set_likes (toggle_likes (BlogDoc.likes b) (UserDoc._id u)) b in
  BlogRoutes.toggleLike u id s =
    (res_json (JObj [("likes", JArr (map JId (BlogDoc.likes b')));
                     ("likesCount", JNum (List.length (BlogDoc.likes b')))]),
     mkStore (users s) (replace_first (Blog.by_id id) b' (blogs s))
             (oplog s ++ [Op_Blog_save b'])).
Proof.
  intros Hb Hv b'.
  pose proof (find_blog_by_id _ _ _ Hb) as Hid.
  unfold BlogRoutes.toggleLike, try_catch, bind, Blog.findById.
  rewrite Hb. simpl.
  assert (E : (if (BlogRoutes.indexOf (BlogDoc.likes b) (UserDoc._id u) >? -1)%Z
               then BlogDoc.set_likes
                      (BlogRoutes.splice (BlogDoc.likes b)
                         (BlogRoutes.indexOf (BlogDoc.likes b) (UserDoc._id u)) 1) b
               else BlogDoc.set_likes (BlogDoc.likes b ++ [UserDoc._id u]) b) = b').
  { unfold b', toggle_likes.
    now destruct (BlogRoutes.indexOf (BlogDoc.likes b) (UserDoc._id u) >? -1)%Z. }
  rewrite E. unfold Blog.save.
  assert (Hv' : BlogDoc.validate b' = true) by exact Hv.
  rewrite Hv'. simpl. now rewrite Hid.
Qed.

(** C4: one like request removes the user's id from the likes array when
    it is there and appends it otherwise; two requests in a row bring the
    likes back to the original set, and the likes count to its original
    value.  The user's id occurs at most once in the stored array, as the
    data model requires of a likes array. *)
Theorem toggleLike_twice (s : Store) (u : UserDoc.t) (id : ObjectId) (b : BlogDoc.t) :
  find (Blog.by_id id) (blogs s) = Some b ->
  BlogDoc.validate b = true ->
  count_occ N.eq_dec (BlogDoc.likes b) (UserDoc._id u) <= 1 ->
  let (r1, s1) := BlogRoutes.toggleLike u id s in
  let (r2, s2) := BlogRoutes.toggleLike u id s1 in
  exists b1 b2,
    find (Blog.by_id id) (blogs s1) = Some b1
    /\ find (Blog.by_id id) (blogs s2) = Some b2
    /\ (In (UserDoc._id u) (BlogDoc.likes b) ->
          ~ In (UserDoc._id u) (BlogDoc.likes b1)
          /\ Permutation (BlogDoc.likes b) (UserDoc._id u :: BlogDoc.likes b1))
    /\ (~ In (UserDoc._id u) (BlogDoc.likes b) ->
          BlogDoc.likes b1 = (BlogDoc.likes b ++ [UserDoc._id u])%list)
    /\ status r1 = 200 /\ status r2 = 200
    /\ Permutation (BlogDoc.likes b2) (BlogDoc.likes b)
    /\ (forall x, In x (BlogDoc.likes b2) <-> In x (BlogDoc.likes b))
    /\ BlogDoc.likesCount b2 = BlogDoc.likesCount b
    /\ js_opt_get (body r2) "likesCount" = JNum (BlogDoc.likesCount b).
Proof.
  intros Hb Hv Hc.
  pose proof (find_blog_by_id _ _ _ Hb) as Hid.
  set (x := UserDoc._id u) in *.
  set (b1 := BlogDoc.set_likes (toggle_likes (BlogDoc.likes b) x) b).
  set (b2 := BlogDoc.set_likes (toggle_likes (BlogDoc.likes b1) x) b1).
  assert (Hp1 : Blog.by_id id b1 = true) by (unfold Blog.by_id; simpl; now apply N.eqb_eq).
  assert (Hp2 : Blog.by_id id b2 = true) by (unfold Blog.by_id; simpl; now apply N.eqb_eq).
  rewrite (toggleLike_run s u id b Hb Hv). fold x. fold b1.
  assert (Hb1 : find (Blog.by_id id)
                  (replace_first (Blog.by_id id) b1 (blogs s)) = Some b1)
    by (now apply (find_replace_first _ b1 b)).
  rewrite (toggleLike_run
             (mkStore (users s) (replace_first (Blog.by_id id) b1 (blogs s))
                      (oplog s ++ [Op_Blog_save b1]))
             u id b1 Hb1 Hv).
  fold x. fold b2. simpl blogs.
  destruct (toggle_likes_twice (BlogDoc.likes b) x Hc) as [Hperm _].
  exists b1, b2.
  split; [exact Hb1|].
  split; [now apply (find_replace_first _ b2 b1)|].
  split.
  { intros Hin. simpl.
    destruct (toggle_likes_present _ x Hin) as (l1 & l2 & E & Hn1 & E').
    rewrite E', E. rewrite E, count_occ_app in Hc. simpl in Hc.
    destruct (N.eq_dec x x) as [_|Hne]; [|congruence].
    split.
    - rewrite in_app_iff. intros [H|H]; [tauto|].
      apply (count_occ_In N.eq_dec) in H. unfold ObjectId in *. lia.
    - apply Permutation_sym, Permutation_middle. }
  split; [intros Hn; simpl; now apply toggle_likes_absent|].
  split; [reflexivity|]. split; [reflexivity|].
  split; [exact Hperm|].
  split; [intros y; split; apply Permutation_in;
          [exact Hperm | apply Permutation_sym, Hperm]|].
  assert (Hlen : BlogDoc.likesCount b2 = BlogDoc.likesCount b)
    by (unfold BlogDoc.likesCount; now apply Permutation_length).
  split; [exact Hlen|]. simpl. f_equal. exact Hlen.
Qed.

(** Bob has liked blog 10; two requests of his unlike and like it again. *)
Lemma toggleLike_twice_witness :
  let (r1, s1) := BlogRoutes.toggleLike bob 10 demo_store in
  let (r2, s2) := BlogRoutes.toggleLike bob 10 s1 in
  exists b1 b2,
    find (Blog.by_id 10) (blogs s1) = Some b1
    /\ find (Blog.by_id 10) (blogs s2) = Some b2
    /\ (In (UserDoc._id bob) (BlogDoc.likes blog_a1) ->
          ~ In (UserDoc._id bob) (BlogDoc.likes b1)
          /\ Permutation (BlogDoc.likes blog_a1) (UserDoc._id bob :: BlogDoc.likes b1))
    /\ (~ In (UserDoc._id bob) (BlogDoc.likes blog_a1) ->
          BlogDoc.likes b1 = (BlogDoc.likes blog_a1 ++ [UserDoc._id bob])%list)
    /\ status r1 = 200 /\ status r2 = 200
    /\ Permutation (BlogDoc.likes b2) (BlogDoc.likes blog_a1)
    /\ (forall x, In x (BlogDoc.likes b2) <-> In x (BlogDoc.likes blog_a1))
    /\ BlogDoc.likesCount b2 = BlogDoc.likesCount blog_a1
    /\ js_opt_get (body r2) "likesCount" = JNum (BlogDoc.likesCount blog_a1).
Proof.
  apply (toggleLike_twice demo_store bob 10 blog_a1).
  - reflexivity.
  - reflexivity.
  - vm_compute. lia.
Defined.

(** ** POST /blogs/:id/comment *)

Lemma trimStart_whitespace_only (s : string) :
  whitespace_only s = true -> trimStart s = "".
Proof.
  induction s as [|c s IH]; simpl; [reflexivity|].
  destruct (is_whitespace c); simpl; [exact IH | discriminate].
Qed.

Lemma trim_whitespace_only (s : string) :
  whitespace_only s = true -> trim s = "".
Proof.
  intros H. unfold trim. now rewrite trimStart_whitespace_only.
Qed.

Lemma validate_pushed_blank (b : BlogDoc.t) (fresh user : ObjectId) (userName : string) :
  BlogDoc.validate
    (BlogDoc.set_comments
       (BlogDoc.comments b ++ [CommentDoc.mk fresh user "" userName]) b) = false.
Proof.
  unfold BlogDoc.validate. simpl. rewrite forallb_app. simpl.
  now rewrite andb_false_r, andb_false_r.
Qed.

(** A request without content, or with the empty string, is answered 400
    before the blog is even looked up. *)
Lemma addComment_missing_content (s : Store) (actor : UserDoc.t)
    (fresh id : ObjectId) (content : option string) :
  field_truthy content = false ->
  BlogRoutes.addComment actor fresh id content s =
    (res_status_json 400 (message "Comment content is required"), s).
Proof.
  intros H. unfold BlogRoutes.addComment, try_catch.
  destruct content as [text|]; [|reflexivity].
  now rewrite H.
Qed.

(** Content that is not empty but only white space passes the handler's
    own check, is trimmed to the empty string when pushed, and is then
    refused by schema validation inside [save]: the handler's [catch]
    answers 500.  Nothing is written. *)
Lemma addComment_blank_content (s : Store) (actor : UserDoc.t)
    (fresh id : ObjectId) (text : string) (b : BlogDoc.t) :
  find (Blog.by_id id) (blogs s) = Some b ->
  text <> "" ->
  whitespace_only text = true ->
  BlogRoutes.addComment actor fresh id (Some text) s =
    (server_error (ValidatorError "Blog validation failed"), s).
Proof.
  intros Hb Hne Hw. apply String.eqb_neq in Hne.
  unfold BlogRoutes.addComment, try_catch, bind, Blog.findById. simpl.
  rewrite Hne. simpl. rewrite Hb.
  unfold Blog.save, Blog.comments_push.
  rewrite (trim_whitespace_only text Hw), validate_pushed_blank. reflexivity.
Qed.

(** C5 at the failing input: a comment made of three spaces on the
    existing blog 10 is answered 500 "Server error", not 400; the empty
    comment is answered 400.  In both cases the store, and with it the
    blog's comment array, is unchanged. *)
Theorem addComment_whitespace_is_500 :
  find (Blog.by_id 10) (blogs demo_store) = Some blog_a1
  /\ whitespace_only "   " = true
  /\ BlogRoutes.addComment bob 200 10 (Some "   ") demo_store =
       (server_error (ValidatorError "Blog validation failed"), demo_store)
  /\ status (fst (BlogRoutes.addComment bob 200 10 (Some "   ") demo_store)) = 500
  /\ ~ fails_with ValidationError
         (fst (BlogRoutes.addComment bob 200 10 (Some "   ") demo_store))
  /\ BlogRoutes.addComment bob 200 10 (Some "") demo_store =
       (res_status_json 400 (message "Comment content is required"), demo_store).
Proof.
  repeat split; try reflexivity. unfold fails_with. simpl. discriminate.
Qed.

(** ** PUT /admin/users/:id *)

Section AdminEdit.
Context {UM : UserModel}.

Lemma role_guard (v : string) :
  field_truthy (Some v) && AdminRoutes.includes ["user"; "admin"] v
  = (v =? "user") || (v =? "admin").
Proof.
  unfold AdminRoutes.includes. simpl. rewrite orb_false_r.
  destruct (String.eqb_spec v "") as [->|_]; reflexivity.
Qed.

Lemma edited_user_id (name email role : option string) (u : UserDoc.t) :
  UserDoc._id (edited_user name email role u) = UserDoc._id u.
Proof.
  unfold edited_user.
  destruct name as [n|], email as [e|], role as [r|]; simpl;
    repeat match goal with |- context [if ?c then _ else _] => destruct c end;
    reflexivity.
Qed.

Lemma edited_user_role_ignored (name email role : option string) (u : UserDoc.t) :
  role <> Some "user" -> role <> Some "admin" ->
  edited_user name email role u = edited_user name email None u.
Proof.
  intros H1 H2. unfold edited_user. destruct role as [r|]; [|reflexivity].
  destruct (String.eqb_spec r "user") as [->|_]; [congruence|].
  destruct (String.eqb_spec r "admin") as [->|_]; [congruence|]. reflexivity.
Qed.

Lemma edited_user_role_kept (name email : option string) (u : UserDoc.t) :
  UserDoc.role (edited_user name email None u) = UserDoc.role u.
Proof.
  unfold edited_user.
  destruct name as [n|], email as [e|]; simpl;
    repeat match goal with |- context [if ?c then _ else _] => destruct c end;
    reflexivity.
Qed.

Lemma editUser_run (s : Store) (id : ObjectId) (name email role : option string)
    (u : UserDoc.t) :
  find (User.by_id id) (users s) = Some u ->
  AdminRoutes.editUser id name email role s =
    try_catch
      (user <- await User.save (edited_user name email role u) ;;
       ret (res_json (JObj [("message", JStr "User updated successfully");
                            ("user", AdminRoutes.user_summary user)]))) s.
Proof.
  intros Hf. unfold AdminRoutes.editUser, try_catch, bind at 1, User.findById.
  rewrite Hf.
  replace (edited_user name email role u) with
    (let user := match name with
                 | Some v => if field_truthy name then UserDoc.set_name v u else u
                 | None => u
                 end in
     let user := match email with
                 | Some v => if field_truthy email then UserDoc.set_email v user else user
                 | None => user
                 end in
     match role with
     | Some v => if field_truthy role && AdminRoutes.includes ["user"; "admin"] v
                 then UserDoc.set_role v user else user
     | None => user
     end); [reflexivity|].
  unfold edited_user. destruct role as [r|]; [rewrite role_guard|];
    destruct name as [n|], email as [e|]; reflexivity.
Qed.

Lemma editUser_saved (s : Store) (id : ObjectId) (name email role : option string)
    (u : UserDoc.t) :
  find (User.by_id id) (users s) = Some u ->
  validate_user (edited_user name email role u) = true ->
  email_free (edited_user name email role u) s = true ->
  AdminRoutes.editUser id name email role s =
    (res_json (JObj [("message", JStr "User updated successfully");
                     ("user", AdminRoutes.user_summary
                                (edited_user name email role u))]),
     mkStore (replace_first (User.by_id id) (edited_user name email role u) (users s))
             (blogs s)
             (oplog s ++ [Op_User_save (edited_user name email role u)])).
Proof.
  intros Hf Hv He.
  destruct (find_user_by_id _ _ _ Hf) as [Hid _].
  pose proof (edited_user_id name email role u) as Hid'.
  rewrite (editUser_run s id name email role u Hf).
  unfold try_catch, bind, User.save. rewrite Hv. simpl.
  unfold email_free in He. apply negb_true_iff in He. rewrite He. simpl.
  now rewrite Hid', Hid.
Qed.

(** C8: an admin edit of an existing user, whose edited document the
    store accepts, succeeds and stores that document.  Its role is the
    supplied one when that is exactly "user" or "admin"; any other role
    value leaves the existing role in place, and the whole outcome is the
    one of the same request sent without a role, so that the value is
    ignored without any error. *)
Theorem editUser_role (s : Store) (id : ObjectId) (name email role : option string)
    (u : UserDoc.t) :
  find (User.by_id id) (users s) = Some u ->
  validate_user (edited_user name email role u) = true ->
  email_free (edited_user name email role u) s = true ->
  let (r, s') := AdminRoutes.editUser id name email role s in
  r = res_json (JObj [("message", JStr "User updated successfully");
                      ("user", AdminRoutes.user_summary
                                 (edited_user name email role u))])
  /\ find (User.by_id id) (users s') = Some (edited_user name email role u)
  /\ (role = Some "user" \/ role = Some "admin" ->
        Some (UserDoc.role (edited_user name email role u)) = role)
  /\ (role <> Some "user" -> role <> Some "admin" ->
        UserDoc.role (edited_user name email role u) = UserDoc.role u
        /\ AdminRoutes.editUser id name email role s
           = AdminRoutes.editUser id name email None s).
Proof.
  intros Hf Hv He.
  assert (Hsame : role <> Some "user" -> role <> Some "admin" ->
                  AdminRoutes.editUser id name email role s
                  = AdminRoutes.editUser id name email None s).
  { intros H1 H2.
    rewrite (editUser_run s id name email role u Hf),
            (editUser_run s id name email None u Hf).
    now rewrite (edited_user_role_ignored name email role u H1 H2). }
  destruct (find_user_by_id _ _ _ Hf) as [Hid _].
  pose proof (edited_user_id name email role u) as Hid'.
  pose proof (editUser_saved s id name email role u Hf Hv He) as Hrun.
  destruct (AdminRoutes.editUser id name email role s) as [r s'].
  injection Hrun as -> ->.
  split; [reflexivity|].
  split.
  { simpl. apply (find_replace_first _ _ u); [exact Hf|].
    unfold User.by_id. rewrite Hid', Hid. apply N.eqb_refl. }
  split.
  { intros [->| ->]; reflexivity. }
  intros H1 H2. split.
  - rewrite (edited_user_role_ignored name email role u H1 H2).
    apply edited_user_role_kept.
  - exact (Hsame H1 H2).
Qed.

End AdminEdit.

(** Bob's role is asked to become "superuser": the edit succeeds and Bob
    stays a "user". *)
Lemma editUser_role_witness :
  let (r, s') :=
    AdminRoutes.editUser (UM := demo_model) 2 (Some "Robert") None (Some "superuser")
                         demo_store in
  r = res_json (JObj [("message", JStr "User updated successfully");
                      ("user", AdminRoutes.user_summary
                                 (edited_user (Some "Robert") None (Some "superuser") bob))])
  /\ find (User.by_id 2) (users s')
     = Some (edited_user (Some "Robert") None (Some "superuser") bob)
  /\ (Some "superuser" = Some "user" \/ Some "superuser" = Some "admin" ->
        Some (UserDoc.role (edited_user (Some "Robert") None (Some "superuser") bob))
        = Some "superuser")
  /\ (Some "superuser" <> Some "user" -> Some "superuser" <> Some "admin" ->
        UserDoc.role (edited_user (Some "Robert") None (Some "superuser") bob)
        = UserDoc.role bob
        /\ AdminRoutes.editUser (UM := demo_model) 2 (Some "Robert") None
             (Some "superuser") demo_store
           = AdminRoutes.editUser (UM := demo_model) 2 (Some "Robert") None None
               demo_store).
Proof.
  apply (editUser_role (UM := demo_model) demo_store 2 (Some "Robert") None
           (Some "superuser") bob); reflexivity.
Defined.

(** ** POST /auth/login *)

Section Auth.
Context {UM : UserModel}.
Variable env : ProcessEnv.


End Auth.


(** In the demo model [comparePassword] rejects an absent password: a
    login without password is then answered 400 for an unknown email and
    500 for Alice's. *)
Example login_without_password_demo :
  fst (AuthRoutes.login (UM := demo_model) demo_env (Some "nobody@x.com") None demo_store)
  = res_status_json 400 (message "Invalid credentials")
  /\ fst (AuthRoutes.login (UM := demo_model) demo_env (Some "a@x.com") None demo_store)
     = server_error (OtherError "Illegal arguments: undefined, string")
  /\ fst (AuthRoutes.login (UM := demo_model) demo_env None (Some "x") demo_store)
     = res_status_json 400 (message "Invalid credentials").
Proof. repeat split. Qed.

Lemma login_accepts {UM : UserModel} (env : ProcessEnv) (s : Store)
    (email password : option string) (u : UserDoc.t) :
  found_account email s = Some u ->
  comparePassword u password = inr true ->
  AuthRoutes.login env email password s =
    (mkResponse 200 (Some (AuthRoutes.session_cookie env (UserDoc._id u)))
       (JObj [("message", JStr "Login successful");
              ("user", AuthRoutes.user_summary u)]), s).
Proof.
  unfold found_account. intros Hf Hc.
  unfold AuthRoutes.login, try_catch, bind, User.findOne_body_email,
    User.findOne_email, User.comparePassword_call.
  destruct email as [e|]; [|discriminate]. simpl. rewrite Hf. simpl. now rewrite Hc.
Qed.

(** ** POST /auth/admin-login *)

Lemma NoDup_map_eq {A B : Type} (f : A -> B) (l : list A) (x y : A) :
  NoDup (map f l) -> In x l -> In y l -> f x = f y -> x = y.
Proof.
  induction l as [|z l IH]; simpl; intros Hnd Hx Hy E; [tauto|].
  inversion Hnd as [|? ? Hz Hl]; subst.
  destruct Hx as [->|Hx], Hy as [->|Hy]; auto.
  - exfalso. apply Hz. rewrite E. now apply in_map.
  - exfalso. apply Hz. rewrite <- E. now apply in_map.
Qed.

Lemma map_replace_first {B : Type} (f : UserDoc.t -> B) (l : list UserDoc.t)
    (a a' : UserDoc.t) :
  NoDup (map UserDoc._id l) -> In a l -> f a' = f a ->
  map f (replace_first (User.by_id (UserDoc._id a)) a' l) = map f l.
Proof.
  induction l as [|y l IH]; simpl; intros Hnd Hin E; [reflexivity|].
  inversion Hnd as [|? ? Hy Hl]; subst.
  unfold User.by_id at 1.
  destruct (N.eqb_spec (UserDoc._id y) (UserDoc._id a)) as [Eid|Nid].
  - destruct Hin as [->|Hin]; [simpl; now rewrite E|].
    exfalso. apply Hy. rewrite Eid. now apply in_map.
  - destruct Hin as [->|Hin]; [congruence|]. simpl. f_equal. now apply IH.
Qed.

Lemma find_email_replace_first (e : string) (l : list UserDoc.t) (a a' : UserDoc.t) :
  NoDup (map UserDoc._id l) ->
  find (User.by_email e) l = Some a ->
  UserDoc.email a' = e ->
  find (User.by_email e) (replace_first (User.by_id (UserDoc._id a)) a' l) = Some a'.
Proof.
  intros Hnd Hf E.
  assert (Ha' : User.by_email e a' = true) by (unfold User.by_email; rewrite E; apply String.eqb_refl).
  induction l as [|y l IH]; simpl in *; [discriminate|].
  inversion Hnd as [|? ? Hy Hl]; subst.
  destruct (User.by_email (UserDoc.email a') y) eqn:Ey.
  - inversion Hf; subst. unfold User.by_id at 1. rewrite N.eqb_refl. simpl.
    now rewrite Ha'.
  - unfold User.by_id at 1.
    destruct (N.eqb_spec (UserDoc._id y) (UserDoc._id a)) as [Eid|Nid].
    + exfalso. apply Hy. rewrite Eid. apply in_map. now apply find_some in Hf.
    + simpl. rewrite Ey. now apply IH.
Qed.

Lemma count_by_email (e : string) (l : list UserDoc.t) :
  count (User.by_email e) l = count_occ string_dec (map UserDoc.email l) e.
Proof.
  unfold count. induction l as [|y l IH]; simpl; [reflexivity|].
  unfold User.by_email at 1.
  destruct (String.eqb_spec (UserDoc.email y) e) as [E|E];
    destruct (string_dec (UserDoc.email y) e); try congruence; simpl; now rewrite IH.
Qed.

Lemma count_email_found (e : string) (l : list UserDoc.t) (a : UserDoc.t) :
  NoDup (map UserDoc.email l) ->
  find (User.by_email e) l = Some a ->
  count (User.by_email e) l = 1.
Proof.
  intros Hnd Hf. rewrite count_by_email.
  apply find_some in Hf. destruct Hf as [Hin Hb]. apply String.eqb_eq in Hb.
  assert (Hin' : In e (map UserDoc.email l)) by (rewrite <- Hb; now apply in_map).
  apply (count_occ_In string_dec) in Hin'.
  pose proof (proj1 (NoDup_count_occ string_dec _) Hnd e). lia.
Qed.

Lemma find_none_existsb {A : Type} (p : A -> bool) (l : list A) :
  find p l = None -> existsb p l = false.
Proof.
  induction l as [|y l IH]; simpl; [reflexivity|].
  destruct (p y); [discriminate | exact IH].
Qed.

Lemma existsb_false_not_in (e : string) (l : list UserDoc.t) :
  existsb (User.by_email e) l = false -> ~ In e (map UserDoc.email l).
Proof.
  induction l as [|y l IH]; simpl; [tauto|].
  unfold User.by_email at 1.
  destruct (String.eqb_spec (UserDoc.email y) e); simpl; [discriminate|].
  intros H [H1|H1]; [contradiction | now apply IH].
Qed.

Lemma fresh_id_existsb (id : ObjectId) (l : list UserDoc.t) :
  ~ In id (map UserDoc._id l) -> existsb (User.by_id id) l = false.
Proof.
  intros H. apply find_none_existsb. now apply find_none_not_in_ids.
Qed.

Lemma NoDup_snoc {A : Type} (l : list A) (x : A) :
  NoDup l -> ~ In x l -> NoDup (l ++ [x]).
Proof.
  intros Hnd Hn. apply (Permutation_NoDup (Permutation_cons_append l x)).
  now constructor.
Qed.

Lemma email_free_same_account (l : list UserDoc.t) (bs : list BlogDoc.t) (log : list Op)
    (a a' : UserDoc.t) :
  NoDup (map UserDoc.email l) -> In a l ->
  UserDoc.email a' = UserDoc.email a -> UserDoc._id a' = UserDoc._id a ->
  email_free a' (mkStore l bs log) = true.
Proof.
  intros Hnd Hin Ee Ei. unfold email_free. apply negb_true_iff. simpl.
  destruct (existsb _ l) eqn:Ex; [|reflexivity].
  apply existsb_exists in Ex. destruct Ex as (v & Hv & Hb).
  apply andb_true_iff in Hb. destruct Hb as [Hb1 Hb2].
  apply String.eqb_eq in Hb1. apply negb_true_iff, N.eqb_neq in Hb2.
  assert (v = a) by (apply (NoDup_map_eq UserDoc.email l); congruence).
  subst v. congruence.
Qed.

Lemma length_replace_first {A : Type} (p : A -> bool) (x : A) (l : list A) :
  List.length (replace_first p x l) = List.length l.
Proof.
  induction l as [|y l IH]; simpl; [reflexivity|].
  destruct (p y); simpl; [reflexivity | now rewrite IH].
Qed.

Lemma find_app_none {A : Type} (p : A -> bool) (l l' : list A) :
  find p l = None -> find p (l ++ l') = find p l'.
Proof.
  induction l as [|y l IH]; simpl; [reflexivity|].
  destruct (p y); [discriminate | exact IH].
Qed.

Section AdminLogin.
Context {UM : UserModel}.
Variable env : ProcessEnv.

Lemma adminLogin_creates (s : Store) (fresh : ObjectId) :
  find (User.by_email (ADMIN_EMAIL env)) (users s) = None ->
  ~ In fresh (map UserDoc._id (users s)) ->
  validate_user (UserDoc.mk fresh "Admin" (ADMIN_EMAIL env) (ADMIN_PASSWORD env)
                            "admin" None None) = true ->
  AuthRoutes.adminLogin env fresh (ADMIN_EMAIL env) (ADMIN_PASSWORD env) s =
    (admin_ok env (bootstrap_admin env fresh),
     mkStore (users s ++ [bootstrap_admin env fresh]) (blogs s)
             (oplog s ++ [Op_User_save (bootstrap_admin env fresh)])).
Proof.
  intros Hf Hfresh Hv.
  unfold AuthRoutes.adminLogin, try_catch. rewrite !String.eqb_refl. simpl.
  unfold bind, User.findOne_email. rewrite Hf.
  unfold User.create. rewrite Hv. simpl.
  rewrite (fresh_id_existsb _ _ Hfresh), (find_none_existsb _ _ Hf). reflexivity.
Qed.

Lemma adminLogin_promotes (s : Store) (fresh : ObjectId) (a : UserDoc.t) :
  unique_emails s ->
  find (User.by_email (ADMIN_EMAIL env)) (users s) = Some a ->
  UserDoc.role a <> "admin" ->
  validate_user (UserDoc.set_role "admin" a) = true ->
  AuthRoutes.adminLogin env fresh (ADMIN_EMAIL env) (ADMIN_PASSWORD env) s =
    (admin_ok env (UserDoc.set_role "admin" a),
     mkStore (replace_first (User.by_id (UserDoc._id a)) (UserDoc.set_role "admin" a)
                            (users s))
             (blogs s)
             (oplog s ++ [Op_User_save (UserDoc.set_role "admin" a)])).
Proof.
  intros Hem Hf Hr Hv. apply String.eqb_neq in Hr.
  pose proof (find_some _ _ Hf) as [Hin _].
  pose proof (email_free_same_account (users s) (blogs s) (oplog s) a
                (UserDoc.set_role "admin" a) Hem Hin eq_refl eq_refl) as He.
  unfold email_free in He. apply negb_true_iff in He. simpl in He.
  unfold AuthRoutes.adminLogin, try_catch. rewrite !String.eqb_refl. simpl.
  unfold bind, User.findOne_email. rewrite Hf, Hr. simpl.
  unfold User.save. rewrite Hv. simpl. rewrite He. reflexivity.
Qed.

Lemma adminLogin_keeps (s : Store) (fresh : ObjectId) (a : UserDoc.t) :
  find (User.by_email (ADMIN_EMAIL env)) (users s) = Some a ->
  UserDoc.role a = "admin" ->
  AuthRoutes.adminLogin env fresh (ADMIN_EMAIL env) (ADMIN_PASSWORD env) s
  = (admin_ok env a, s).
Proof.
  intros Hf Hr.
  unfold AuthRoutes.adminLogin, try_catch. rewrite !String.eqb_refl. simpl.
  unfold bind, User.findOne_email. rewrite Hf, Hr. reflexivity.
Qed.

Lemma adminLogin_many_fixed (s : Store) (a : UserDoc.t) (freshes : list ObjectId) :
  find (User.by_email (ADMIN_EMAIL env)) (users s) = Some a ->
  UserDoc.role a = "admin" ->
  adminLogin_many env freshes s = s.
Proof.
  intros Hf Hr. induction freshes as [|f fs IH]; simpl; [reflexivity|].
  rewrite (adminLogin_keeps s f a Hf Hr). exact IH.
Qed.

(** C6: admin-login with the configured credentials, on a store whose
    ids and emails are unique and whose admin document passes the schema
    validators, succeeds.  When no account has the admin email exactly
    one document is appended, with role "admin"; when one has, no document
    is added and that account has role "admin" afterwards, a store whose
    account is already an admin being left untouched.  In every case
    exactly one account has the admin email afterwards, and any number of
    further calls leave the store as the first call left it. *)
Theorem adminLogin_idempotent (s : Store) (fresh : ObjectId) :
  unique_user_ids s ->
  unique_emails s ->
  ~ In fresh (map UserDoc._id (users s)) ->
  validate_user (UserDoc.mk fresh "Admin" (ADMIN_EMAIL env) (ADMIN_PASSWORD env)
                            "admin" None None) = true ->
  (forall a, find (User.by_email (ADMIN_EMAIL env)) (users s) = Some a ->
             validate_user (UserDoc.set_role "admin" a) = true) ->
  let (r, s') :=
    AuthRoutes.adminLogin env fresh (ADMIN_EMAIL env) (ADMIN_PASSWORD env) s in
  status r = 200
  /\ (exists a, find (User.by_email (ADMIN_EMAIL env)) (users s') = Some a
                /\ UserDoc.role a = "admin"
                /\ js_opt_get (body r) "user" = AuthRoutes.user_summary a)
  /\ count (User.by_email (ADMIN_EMAIL env)) (users s') = 1
  /\ match find (User.by_email (ADMIN_EMAIL env)) (users s) with
     | None => users s' = (users s ++ [bootstrap_admin env fresh])%list
     | Some a =>
         if UserDoc.role a =? "admin" then s' = s
         else users s' = replace_first (User.by_id (UserDoc._id a))
                                       (UserDoc.set_role "admin" a) (users s)
              /\ List.length (users s') = List.length (users s)
     end
  /\ unique_user_ids s' /\ unique_emails s'
  /\ forall freshes, adminLogin_many env (fresh :: freshes) s = s'.
Proof.
  intros Hids Hem Hfresh Hv Hv'.
  unfold adminLogin_many. simpl fold_left. fold (adminLogin_many env).
  destruct (find (User.by_email (ADMIN_EMAIL env)) (users s)) as [a|] eqn:Hf.
  - pose proof (find_some _ _ Hf) as [Hin Hmail]. apply String.eqb_eq in Hmail.
    destruct (String.eqb_spec (UserDoc.role a) "admin") as [Hr|Hr].
    + rewrite (adminLogin_keeps s fresh a Hf Hr). simpl.
      split; [reflexivity|].
      split; [exists a; auto|].
      split; [now apply (count_email_found _ _ a)|].
      split; [reflexivity|].
      split; [exact Hids|]. split; [exact Hem|].
      intros freshes. now apply (adminLogin_many_fixed s a).
    + rewrite (adminLogin_promotes s fresh a Hem Hf Hr (Hv' a eq_refl)). simpl.
      assert (Hf' : find (User.by_email (ADMIN_EMAIL env))
                      (replace_first (User.by_id (UserDoc._id a))
                         (UserDoc.set_role "admin" a) (users s))
                    = Some (UserDoc.set_role "admin" a))
        by (now apply find_email_replace_first).
      assert (Hem' : NoDup (map UserDoc.email
                      (replace_first (User.by_id (UserDoc._id a))
                         (UserDoc.set_role "admin" a) (users s))))
        by (rewrite map_replace_first; auto).
      split; [reflexivity|].
      split; [exists (UserDoc.set_role "admin" a); auto|].
      split; [now apply (count_email_found _ _ (UserDoc.set_role "admin" a))|].
      split; [split; [reflexivity | apply length_replace_first]|].
      split; [unfold unique_user_ids; simpl; rewrite map_replace_first; auto|].
      split; [exact Hem'|].
      intros freshes.
      now apply (adminLogin_many_fixed _ (UserDoc.set_role "admin" a)).
  - rewrite (adminLogin_creates s fresh Hf Hfresh Hv). simpl.
    pose proof (existsb_false_not_in _ _ (find_none_existsb _ _ Hf)) as Hnew.
    assert (Hf' : find (User.by_email (ADMIN_EMAIL env))
                    (users s ++ [bootstrap_admin env fresh])
                  = Some (bootstrap_admin env fresh)).
    { rewrite (find_app_none _ _ _ Hf). simpl. unfold User.by_email. simpl.
      now rewrite String.eqb_refl. }
    assert (Hem' : NoDup (map UserDoc.email (users s ++ [bootstrap_admin env fresh])))
      by (rewrite map_app; simpl; now apply NoDup_snoc).
    split; [reflexivity|].
    split; [exists (bootstrap_admin env fresh); auto|].
    split; [now apply (count_email_found _ _ (bootstrap_admin env fresh))|].
    split; [reflexivity|].
    split; [unfold unique_user_ids; simpl; rewrite map_app; simpl;
            now apply NoDup_snoc|].
    split; [exact Hem'|].
    intros freshes.
    now apply (adminLogin_many_fixed _ (bootstrap_admin env fresh)).
Qed.

End AdminLogin.

(** The first admin-login on a store without an admin account creates it
    under the fresh id 7. *)
Lemma adminLogin_idempotent_witness :
  let (r, s') :=
    AuthRoutes.adminLogin (UM := demo_model) demo_env 7 (ADMIN_EMAIL demo_env)
                          (ADMIN_PASSWORD demo_env) no_admin_store in
  status r = 200
  /\ (exists a, find (User.by_email (ADMIN_EMAIL demo_env)) (users s') = Some a
                /\ UserDoc.role a = "admin"
                /\ js_opt_get (body r) "user" = AuthRoutes.user_summary a)
  /\ count (User.by_email (ADMIN_EMAIL demo_env)) (users s') = 1
  /\ match find (User.by_email (ADMIN_EMAIL demo_env)) (users no_admin_store) with
     | None =>
         users s'
         = (users no_admin_store ++ [bootstrap_admin (UM := demo_model) demo_env 7])%list
     | Some a =>
         if UserDoc.role a =? "admin" then s' = no_admin_store
         else users s' = replace_first (User.by_id (UserDoc._id a))
                                       (UserDoc.set_role "admin" a)
                                       (users no_admin_store)
              /\ List.length (users s') = List.length (users no_admin_store)
     end
  /\ unique_user_ids s' /\ unique_emails s'
  /\ forall freshes,
       adminLogin_many (UM := demo_model) demo_env (7%N :: freshes) no_admin_store = s'.
Proof.
  apply (adminLogin_idempotent (UM := demo_model) demo_env no_admin_store 7).
  - unfold unique_user_ids. simpl.
    repeat constructor; simpl; intuition discriminate.
  - unfold unique_emails. simpl.
    repeat constructor; simpl; intuition discriminate.
  - simpl. intuition discriminate.
  - reflexivity.
  - intros a H. vm_compute in H. discriminate.
Defined.

(** An account that already has the admin email but role "user" is
    promoted in place; a second call changes nothing more. *)
Example adminLogin_promotes_demo :
  let s0 := mkStore [alice; UserDoc.set_role "user" root] [] [] in
  let s1 := snd (AuthRoutes.adminLogin (UM := demo_model) demo_env 7
                   "root@x.com" "letmein" s0) in
  users s1 = [alice; root]
  /\ snd (AuthRoutes.adminLogin (UM := demo_model) demo_env 8
            "root@x.com" "letmein" s1) = s1.
Proof. split; reflexivity. Qed.

(** * Further properties of the handlers *)

(** ** Lemmas on replacing a found document *)

Lemma map_replace_found {A B : Type} (f : A -> B) (p : A -> bool) (x b : A)
    (l : list A) :
  find p l = Some b -> f x = f b -> map f (replace_first p x l) = map f l.
Proof.
  induction l as [|y l IH]; simpl; [discriminate|].
  destruct (p y) eqn:E; intros Hf Hx; simpl.
  - inversion Hf; subst. now rewrite Hx.
  - f_equal. now apply IH.
Qed.

Lemma replace_first_none {A : Type} (p : A -> bool) (x : A) (l : list A) :
  find p l = None -> replace_first p x l = l.
Proof.
  induction l as [|y l IH]; simpl; [reflexivity|].
  destruct (p y); [discriminate|]. intros H. f_equal. now apply IH.
Qed.

Lemma replace_first_back {A : Type} (p : A -> bool) (x b : A) (l : list A) :
  find p l = Some b -> p x = true ->
  replace_first p b (replace_first p x l) = l.
Proof.
  induction l as [|y l IH]; simpl; [discriminate|].
  destruct (p y) eqn:E; intros Hf Hx; simpl.
  - rewrite Hx. now inversion Hf.
  - rewrite E. f_equal. now apply IH.
Qed.

Lemma total_comments_replace (p : BlogDoc.t -> bool) (x b : BlogDoc.t)
    (l : list BlogDoc.t) :
  find p l = Some b ->
  total_comments (replace_first p x l) + List.length (BlogDoc.comments b)
  = total_comments l + List.length (BlogDoc.comments x).
Proof.
  unfold total_comments.
  induction l as [|y l IH]; simpl; [discriminate|].
  destruct (p y) eqn:E; intros Hf; simpl.
  - inversion Hf; subst. lia.
  - specialize (IH Hf). lia.
Qed.

Lemma blog_save_run (doc : BlogDoc.t) (s : Store) :
  BlogDoc.validate doc = true ->
  Blog.save doc s =
    (inr tt,
     mkStore (users s) (replace_first (Blog.by_id (BlogDoc._id doc)) doc (blogs s))
             (oplog s ++ [Op_Blog_save doc])).
Proof.
  intros Hv. unfold Blog.save. now rewrite Hv.
Qed.

Lemma blog_save_refused (doc : BlogDoc.t) (s : Store) :
  BlogDoc.validate doc = false ->
  Blog.save doc s = (inl (ValidatorError "Blog validation failed"), s).
Proof.
  intros Hv. unfold Blog.save. now rewrite Hv.
Qed.

(** Whatever [save] answers, the collection is the old one with the
    document of the same [_id] possibly replaced, and the users are
    untouched. *)
Lemma blog_save_frame {B : Type} (f : BlogDoc.t -> B) (doc b : BlogDoc.t) (s : Store) :
  find (Blog.by_id (BlogDoc._id doc)) (blogs s) = Some b ->
  f doc = f b ->
  users (snd (Blog.save doc s)) = users s
  /\ map f (blogs (snd (Blog.save doc s))) = map f (blogs s).
Proof.
  intros Hb Hf. unfold Blog.save.
  destruct (BlogDoc.validate doc); simpl; [|tauto].
  split; [reflexivity|]. now apply (map_replace_found f _ doc b).
Qed.

(** ** Requests on a blog that does not exist *)

Section BlogParams.
Context {PC : ParamCast}.

(** On a well-formed id the routes on the raw parameter are the routes
    on the ObjectId. *)
Lemma blog_routes_on_cast (actor : UserDoc.t) (fresh : ObjectId) (raw rawComment : string)
    (id : ObjectId) (content title description : option string) (s : Store) :
  castObjectId raw = Some id ->
  BlogRoutes.toggleLike_req actor raw s = BlogRoutes.toggleLike actor id s
  /\ BlogRoutes.addComment_req actor fresh raw content s
     = BlogRoutes.addComment actor fresh id content s
  /\ (forall commentId, castObjectId rawComment = Some commentId ->
        BlogRoutes.deleteComment_req actor raw rawComment s
        = BlogRoutes.deleteComment actor id commentId s)
  /\ BlogRoutes.updateBlog_req actor raw title description s
     = BlogRoutes.updateBlog actor id title description s
  /\ AdminRoutes.updateBlog_req raw title description s
     = AdminRoutes.updateBlog id title description s.
Proof.
  intros Hc. repeat split.
  - unfold BlogRoutes.toggleLike_req, BlogRoutes.toggleLike, Blog.findById_param.
    now rewrite Hc.
  - unfold BlogRoutes.addComment_req, BlogRoutes.addComment, Blog.findById_param.
    now rewrite Hc.
  - intros commentId Hcc.
    unfold BlogRoutes.deleteComment_req, BlogRoutes.deleteComment, Blog.findById_param,
      Blog.comments_id_param.
    now rewrite Hc, Hcc.
  - unfold BlogRoutes.updateBlog_req, BlogRoutes.updateBlog, Blog.findById_param.
    now rewrite Hc.
  - unfold AdminRoutes.updateBlog_req, AdminRoutes.updateBlog, Blog.findById_param.
    now rewrite Hc.
Qed.

(** On the routes that work on one blog, a well-formed id that no blog
    has is answered 404 "Blog not found", and an id that is not
    well-formed is answered 500 "Server error" because the lookup rejects.
    Add-comment checks the content first: without content, or with empty
    content, it is answered 400 whatever the id, and otherwise like the
    other routes.  Nothing is written in any of these cases. *)
Theorem blog_routes_not_found (s : Store) (actor : UserDoc.t) (fresh : ObjectId)
    (raw rawComment : string) (content title description : option string) :
  (forall id,
     castObjectId raw = Some id ->
     find (Blog.by_id id) (blogs s) = None ->
     BlogRoutes.toggleLike_req actor raw s
       = (res_status_json 404 (message "Blog not found"), s)
     /\ (field_truthy content = true ->
         BlogRoutes.addComment_req actor fresh raw content s
         = (res_status_json 404 (message "Blog not found"), s))
     /\ BlogRoutes.deleteComment_req actor raw rawComment s
        = (res_status_json 404 (message "Blog not found"), s)
     /\ BlogRoutes.updateBlog_req actor raw title description s
        = (res_status_json 404 (message "Blog not found"), s)
     /\ AdminRoutes.updateBlog_req raw title description s
        = (res_status_json 404 (message "Blog not found"), s))
  /\ (castObjectId raw = None ->
      BlogRoutes.toggleLike_req actor raw s = (server_error (CastError "_id"), s)
      /\ (field_truthy content = true ->
          BlogRoutes.addComment_req actor fresh raw content s
          = (server_error (CastError "_id"), s))
      /\ BlogRoutes.deleteComment_req actor raw rawComment s
         = (server_error (CastError "_id"), s)
      /\ BlogRoutes.updateBlog_req actor raw title description s
         = (server_error (CastError "_id"), s)
      /\ AdminRoutes.updateBlog_req raw title description s
         = (server_error (CastError "_id"), s))
  /\ (field_truthy content = false ->
      BlogRoutes.addComment_req actor fresh raw content s
      = (res_status_json 400 (message "Comment content is required"), s)).
Proof.
  split; [|split].
  - intros id Hc Hf. repeat split.
    + unfold BlogRoutes.toggleLike_req, try_catch, bind, Blog.findById_param,
        Blog.findById. now rewrite Hc, Hf.
    + intros Ht. unfold BlogRoutes.addComment_req, try_catch.
      destruct content as [text|]; [|discriminate]. rewrite Ht. simpl.
      unfold bind, Blog.findById_param, Blog.findById. now rewrite Hc, Hf.
    + unfold BlogRoutes.deleteComment_req, try_catch, bind, Blog.findById_param,
        Blog.findById. now rewrite Hc, Hf.
    + unfold BlogRoutes.updateBlog_req, try_catch, bind, Blog.findById_param,
        Blog.findById. now rewrite Hc, Hf.
    + unfold AdminRoutes.updateBlog_req, try_catch, bind, Blog.findById_param,
        Blog.findById. now rewrite Hc, Hf.
  - intros Hc. repeat split.
    + unfold BlogRoutes.toggleLike_req, try_catch, bind, Blog.findById_param.
      now rewrite Hc.
    + intros Ht. unfold BlogRoutes.addComment_req, try_catch.
      destruct content as [text|]; [|discriminate]. rewrite Ht. simpl.
      unfold bind, Blog.findById_param. now rewrite Hc.
    + unfold BlogRoutes.deleteComment_req, try_catch, bind, Blog.findById_param.
      now rewrite Hc.
    + unfold BlogRoutes.updateBlog_req, try_catch, bind, Blog.findById_param.
      now rewrite Hc.
    + unfold AdminRoutes.updateBlog_req, try_catch, bind, Blog.findById_param.
      now rewrite Hc.
  - intros Ht. unfold BlogRoutes.addComment_req, try_catch.
    destruct content as [text|]; [|reflexivity]. now rewrite Ht.
Qed.

End BlogParams.

(** Blog 0x63 does not exist; "nonsense" is not an id; a comment without
    content is refused before the lookup. *)
Lemma blog_routes_not_found_witness :
  BlogRoutes.toggleLike_req (PC := demo_cast) bob "000000000000000000000063" demo_store
    = (res_status_json 404 (message "Blog not found"), demo_store)
  /\ BlogRoutes.addComment_req (PC := demo_cast) bob 200 "000000000000000000000063"
       (Some "hi") demo_store
     = (res_status_json 404 (message "Blog not found"), demo_store)
  /\ BlogRoutes.deleteComment_req (PC := demo_cast) bob "nonsense"
       "000000000000000000000064" demo_store
     = (server_error (CastError "_id"), demo_store)
  /\ BlogRoutes.addComment_req (PC := demo_cast) bob 200 "nonsense" None demo_store
     = (res_status_json 400 (message "Comment content is required"), demo_store).
Proof.
  pose proof (blog_routes_not_found (PC := demo_cast) demo_store bob 200
                "000000000000000000000063" "x" (Some "hi") None None)
    as (Hmissing & _ & _).
  destruct (Hmissing 99%N eq_refl eq_refl) as (H1 & H2 & _).
  pose proof (blog_routes_not_found (PC := demo_cast) demo_store bob 200
                "nonsense" "000000000000000000000064" None None None)
    as (_ & Hcast & Hcontent).
  destruct (Hcast eq_refl) as (_ & _ & H3 & _).
  split; [exact H1|]. split; [exact (H2 eq_refl)|]. split; [exact H3|].
  exact (Hcontent eq_refl).
Defined.

(** ** Likes touch only the likes *)

Lemma toggleLike_untouched (s : Store) (actor : UserDoc.t) (id : ObjectId) :
  users (snd (BlogRoutes.toggleLike actor id s)) = users s
  /\ map without_likes (blogs (snd (BlogRoutes.toggleLike actor id s)))
     = map without_likes (blogs s).
Proof.
  unfold BlogRoutes.toggleLike, try_catch, bind, Blog.findById. simpl.
  destruct (find (Blog.by_id id) (blogs s)) as [b|] eqn:Hb; simpl; [|tauto].
  pose proof (find_blog_by_id _ _ _ Hb) as Hid.
  match goal with |- context [Blog.save ?d s] => set (doc := d) end.
  assert (Hdoc : BlogDoc._id doc = id /\ without_likes doc = without_likes b).
  { unfold doc. destruct (_ >? _)%Z; simpl; auto. }
  destruct Hdoc as [Hdi Hdw].
  rewrite <- Hdi in Hb.
  pose proof (blog_save_frame without_likes doc b s Hb Hdw) as [Hu Hm].
  destruct (Blog.save doc s) as [[e|[]] s1]; simpl in *; auto.
Qed.

(** Whatever a like request answers, the users, and in every blog
    everything but the likes array, are as before. *)
Theorem toggleLike_frame (s : Store) (actor : UserDoc.t) (id : ObjectId) :
  users (snd (BlogRoutes.toggleLike actor id s)) = users s
  /\ map without_likes (blogs (snd (BlogRoutes.toggleLike actor id s)))
     = map without_likes (blogs s).
Proof.
  exact (toggleLike_untouched s actor id).
Qed.

(** ** Comments touch only the comments *)

Lemma comment_routes_untouched (s : Store) (actor : UserDoc.t)
    (fresh id commentId : ObjectId) (content : option string) :
  users (snd (BlogRoutes.addComment actor fresh id content s)) = users s
  /\ map without_comments (blogs (snd (BlogRoutes.addComment actor fresh id content s)))
     = map without_comments (blogs s)
  /\ users (snd (BlogRoutes.deleteComment actor id commentId s)) = users s
  /\ map without_comments (blogs (snd (BlogRoutes.deleteComment actor id commentId s)))
     = map without_comments (blogs s).
Proof.
  assert (Hadd : users (snd (BlogRoutes.addComment actor fresh id content s)) = users s
                 /\ map without_comments
                      (blogs (snd (BlogRoutes.addComment actor fresh id content s)))
                    = map without_comments (blogs s)).
  { unfold BlogRoutes.addComment, try_catch.
    destruct content as [text|]; [|simpl; tauto].
    destruct (negb (field_truthy (Some text))); [simpl; tauto|].
    unfold bind, Blog.findById. simpl.
    destruct (find (Blog.by_id id) (blogs s)) as [b|] eqn:Hb; simpl; [|tauto].
    pose proof (find_blog_by_id _ _ _ Hb) as Hid.
    match goal with |- context [Blog.save ?d s] => set (doc := d) end.
    assert (Hdi : BlogDoc._id doc = id) by exact Hid.
    rewrite <- Hdi in Hb.
    pose proof (blog_save_frame without_comments doc b s Hb eq_refl) as [Hu Hm].
    destruct (Blog.save doc s) as [[e|[]] s1]; simpl in *; auto. }
  assert (Hdel : users (snd (BlogRoutes.deleteComment actor id commentId s)) = users s
                 /\ map without_comments
                      (blogs (snd (BlogRoutes.deleteComment actor id commentId s)))
                    = map without_comments (blogs s)).
  { unfold BlogRoutes.deleteComment, try_catch, bind, Blog.findById. simpl.
    destruct (find (Blog.by_id id) (blogs s)) as [b|] eqn:Hb; simpl; [|tauto].
    pose proof (find_blog_by_id _ _ _ Hb) as Hid.
    destruct (Blog.comments_id b commentId) as [c|]; simpl; [|tauto].
    destruct (negb (CommentDoc.user c =? UserDoc._id actor)%N
              && negb (UserDoc.role actor =? "admin")); simpl; [tauto|].
    match goal with |- context [Blog.save ?d s] => set (doc := d) end.
    assert (Hdi : BlogDoc._id doc = id) by exact Hid.
    rewrite <- Hdi in Hb.
    pose proof (blog_save_frame without_comments doc b s Hb eq_refl) as [Hu Hm].
    destruct (Blog.save doc s) as [[e|[]] s1]; simpl in *; auto. }
  tauto.
Qed.

(** Whatever an add-comment or delete-comment request answers, the users,
    and in every blog everything but the comment array, are as before. *)
Theorem comment_routes_frame (s : Store) (actor : UserDoc.t)
    (fresh id commentId : ObjectId) (content : option string) :
  users (snd (BlogRoutes.addComment actor fresh id content s)) = users s
  /\ map without_comments (blogs (snd (BlogRoutes.addComment actor fresh id content s)))
     = map without_comments (blogs s)
  /\ users (snd (BlogRoutes.deleteComment actor id commentId s)) = users s
  /\ map without_comments (blogs (snd (BlogRoutes.deleteComment actor id commentId s)))
     = map without_comments (blogs s).
Proof.
  exact (comment_routes_untouched s actor fresh id commentId content).
Qed.

(** ** DELETE /blogs/:blogId/comment/:commentId, the other outcomes *)

Lemma deleteComment_no_comment (s : Store) (actor : UserDoc.t)
    (blogId commentId : ObjectId) (b : BlogDoc.t) :
  find (Blog.by_id blogId) (blogs s) = Some b ->
  Blog.comments_id b commentId = None ->
  BlogRoutes.deleteComment actor blogId commentId s
  = (res_status_json 404 (message "Comment not found"), s).
Proof.
  intros Hb Hc.
  unfold BlogRoutes.deleteComment, try_catch, bind, Blog.findById.
  now rewrite Hb, Hc.
Qed.

(** When the blog exists but holds no comment with the given id, the
    request is answered 404 "Comment not found" and nothing is written,
    whoever asks. *)
Theorem deleteComment_comment_missing (s : Store) (actor : UserDoc.t)
    (blogId commentId : ObjectId) (b : BlogDoc.t) :
  find (Blog.by_id blogId) (blogs s) = Some b ->
  Blog.comments_id b commentId = None ->
  BlogRoutes.deleteComment actor blogId commentId s
  = (res_status_json 404 (message "Comment not found"), s)
  /\ fails_with NotFound (fst (BlogRoutes.deleteComment actor blogId commentId s)).
Proof.
  intros Hb Hc.
  rewrite (deleteComment_no_comment s actor blogId commentId b Hb Hc).
  split; reflexivity.
Qed.

Lemma deleteComment_comment_missing_witness :
  BlogRoutes.deleteComment root 10 555 demo_store
  = (res_status_json 404 (message "Comment not found"), demo_store)
  /\ fails_with NotFound (fst (BlogRoutes.deleteComment root 10 555 demo_store)).
Proof.
  apply (deleteComment_comment_missing demo_store root 10 555 blog_a1); reflexivity.
Defined.

Lemma validate_pull (b : BlogDoc.t) (cid : ObjectId) :
  BlogDoc.validate b = true -> BlogDoc.validate (Blog.comments_pull b cid) = true.
Proof.
  unfold BlogDoc.validate. simpl. rewrite !andb_true_iff.
  intros [H Hc]. split; [exact H|].
  rewrite forallb_forall in *. intros c Hin. apply filter_In in Hin. now apply Hc.
Qed.

(** The comment's author, or an admin, deletes a comment of a valid
    blog: the answer is 200, the blog keeps all its comments but the ones
    with that id, in their order, and a second delete of the same
    comment finds nothing. *)
Theorem deleteComment_removes (s : Store) (actor : UserDoc.t)
    (blogId commentId : ObjectId) (b : BlogDoc.t) (c : CommentDoc.t) :
  find (Blog.by_id blogId) (blogs s) = Some b ->
  Blog.comments_id b commentId = Some c ->
  CommentDoc.user c = UserDoc._id actor \/ UserDoc.role actor = "admin" ->
  BlogDoc.validate b = true ->
  let (r, s') := BlogRoutes.deleteComment actor blogId commentId s in
  r = res_json (message "Comment deleted successfully")
  /\ find (Blog.by_id blogId) (blogs s') = Some (Blog.comments_pull b commentId)
  /\ BlogDoc.comments (Blog.comments_pull b commentId)
     = filter (fun c' => negb (N.eqb (CommentDoc._id c') commentId)) (BlogDoc.comments b)
  /\ Blog.comments_id (Blog.comments_pull b commentId) commentId = None
  /\ BlogRoutes.deleteComment actor blogId commentId s'
     = (res_status_json 404 (message "Comment not found"), s').
Proof.
  intros Hb Hc Hauth Hv.
  pose proof (find_blog_by_id _ _ _ Hb) as Hid.
  assert (Hcid : CommentDoc._id c = commentId).
  { unfold Blog.comments_id in Hc. apply find_some in Hc. now apply N.eqb_eq. }
  assert (Hguard : negb (CommentDoc.user c =? UserDoc._id actor)%N
                   && negb (UserDoc.role actor =? "admin") = false).
  { destruct Hauth as [E|E]; rewrite E.
    - now rewrite N.eqb_refl.
    - simpl. apply andb_false_r. }
  assert (Hgone : Blog.comments_id (Blog.comments_pull b commentId) commentId = None).
  { unfold Blog.comments_id, Blog.comments_pull. simpl.
    destruct (find _ (filter _ _)) as [c'|] eqn:E; [|reflexivity].
    apply find_some in E. destruct E as [Hin Heq].
    apply filter_In in Hin. destruct Hin as [_ Hne]. now rewrite Heq in Hne. }
  assert (Hrun : BlogRoutes.deleteComment actor blogId commentId s
                 = (res_json (message "Comment deleted successfully"),
                    mkStore (users s)
                      (replace_first (Blog.by_id blogId) (Blog.comments_pull b commentId)
                                     (blogs s))
                      (oplog s ++ [Op_Blog_save (Blog.comments_pull b commentId)]))).
  { unfold BlogRoutes.deleteComment, try_catch, bind, Blog.findById.
    rewrite Hb, Hc, Hguard, Hcid.
    rewrite (blog_save_run _ s (validate_pull b commentId Hv)). simpl.
    now rewrite Hid. }
  rewrite Hrun.
  assert (Hb' : find (Blog.by_id blogId)
                  (replace_first (Blog.by_id blogId) (Blog.comments_pull b commentId)
                                 (blogs s))
                = Some (Blog.comments_pull b commentId)).
  { apply (find_replace_first _ _ b); [exact Hb|].
    unfold Blog.by_id. simpl. rewrite Hid. apply N.eqb_refl. }
  split; [reflexivity|]. split; [exact Hb'|]. split; [reflexivity|].
  split; [exact Hgone|].
  now apply (deleteComment_no_comment _ actor blogId commentId
               (Blog.comments_pull b commentId)).
Qed.

(** Bob deletes his own comment 100 on Alice's blog 10. *)
Lemma deleteComment_removes_witness :
  let (r, s') := BlogRoutes.deleteComment bob 10 100 demo_store in
  r = res_json (message "Comment deleted successfully")
  /\ find (Blog.by_id 10) (blogs s') = Some (Blog.comments_pull blog_a1 100)
  /\ BlogDoc.comments (Blog.comments_pull blog_a1 100)
     = filter (fun c' => negb (N.eqb (CommentDoc._id c') 100)) (BlogDoc.comments blog_a1)
  /\ Blog.comments_id (Blog.comments_pull blog_a1 100) 100 = None
  /\ BlogRoutes.deleteComment bob 10 100 s'
     = (res_status_json 404 (message "Comment not found"), s').
Proof.
  apply (deleteComment_removes demo_store bob 10 100 blog_a1
           (CommentDoc.mk 100 2 "nice" "Bob")).
  - reflexivity.
  - reflexivity.
  - left. reflexivity.
  - reflexivity.
Defined.

(** ** POST /blogs/:id/comment, the successful outcome *)

Lemma validate_push (b : BlogDoc.t) (fresh user : ObjectId) (text userName : string) :
  BlogDoc.validate b = true -> trim text <> "" -> userName <> "" ->
  BlogDoc.validate (Blog.comments_push b fresh user text userName) = true.
Proof.
  unfold BlogDoc.validate. simpl. rewrite !andb_true_iff.
  intros [H Hc] Ht Hn. split; [exact H|].
  rewrite forallb_app, Hc. simpl. unfold CommentDoc.validate. simpl.
  apply String.eqb_neq in Ht. apply String.eqb_neq in Hn. now rewrite Ht, Hn.
Qed.

Lemma addComment_run (s : Store) (actor : UserDoc.t) (fresh id : ObjectId)
    (text : string) (b : BlogDoc.t) :
  find (Blog.by_id id) (blogs s) = Some b ->
  BlogDoc.validate b = true ->
  trim text <> "" ->
  UserDoc.name actor <> "" ->
  BlogRoutes.addComment actor fresh id (Some text) s =
    (res_json
       (JArr (map (Blog.populated_comment (users s))
                  (BlogDoc.comments
                     (Blog.comments_push b fresh (UserDoc._id actor) text
                                         (UserDoc.name actor))))),
     mkStore (users s)
       (replace_first (Blog.by_id id)
          (Blog.comments_push b fresh (UserDoc._id actor) text (UserDoc.name actor))
          (blogs s))
       (oplog s ++ [Op_Blog_save
                      (Blog.comments_push b fresh (UserDoc._id actor) text
                                          (UserDoc.name actor))])).
Proof.
  intros Hb Hv Ht Hn.
  pose proof (find_blog_by_id _ _ _ Hb) as Hid.
  assert (Hne : (text =? "") = false).
  { apply String.eqb_neq. intros ->. now apply Ht. }
  unfold BlogRoutes.addComment, try_catch, bind, Blog.findById. simpl.
  rewrite Hne. simpl. rewrite Hb.
  rewrite (blog_save_run _ s (validate_push b fresh _ text _ Hv Ht Hn)). simpl.
  now rewrite Hid.
Qed.

(** A comment whose content is not blank, by a user with a name, on a
    valid blog: the answer is 200, the comment is appended at the end of
    the blog's array with the trimmed content, the author's id and the
    author's current name, and the total number of comments grows by
    one. *)
Theorem addComment_appends (s : Store) (actor : UserDoc.t) (fresh id : ObjectId)
    (text : string) (b : BlogDoc.t) :
  find (Blog.by_id id) (blogs s) = Some b ->
  BlogDoc.validate b = true ->
  trim text <> "" ->
  UserDoc.name actor <> "" ->
  let (r, s') := BlogRoutes.addComment actor fresh id (Some text) s in
  status r = 200
  /\ (exists b', find (Blog.by_id id) (blogs s') = Some b'
        /\ BlogDoc.comments b'
           = (BlogDoc.comments b
              ++ [CommentDoc.mk fresh (UserDoc._id actor) (trim text)
                                (UserDoc.name actor)])%list)
  /\ total_comments (blogs s') = total_comments (blogs s) + 1.
Proof.
  intros Hb Hv Ht Hn.
  pose proof (find_blog_by_id _ _ _ Hb) as Hid.
  rewrite (addComment_run s actor fresh id text b Hb Hv Ht Hn).
  split; [reflexivity|]. split.
  - exists (Blog.comments_push b fresh (UserDoc._id actor) text (UserDoc.name actor)).
    split; [|reflexivity]. simpl.
    apply (find_replace_first _ _ b); [exact Hb|].
    unfold Blog.by_id. simpl. rewrite Hid. apply N.eqb_refl.
  - simpl. pose proof (total_comments_replace (Blog.by_id id)
                  (Blog.comments_push b fresh (UserDoc._id actor) text
                                      (UserDoc.name actor)) b (blogs s) Hb) as H.
    simpl in H. rewrite length_app in H. simpl in H. lia.
Qed.

Lemma addComment_appends_witness :
  let (r, s') := BlogRoutes.addComment bob 200 12 (Some "  well said ") demo_store in
  status r = 200
  /\ (exists b', find (Blog.by_id 12) (blogs s') = Some b'
        /\ BlogDoc.comments b'
           = (BlogDoc.comments blog_a2
              ++ [CommentDoc.mk 200 (UserDoc._id bob) (trim "  well said ")
                                (UserDoc.name bob)])%list)
  /\ total_comments (blogs s') = total_comments (blogs demo_store) + 1.
Proof.
  apply (addComment_appends demo_store bob 200 12 "  well said " blog_a2).
  - reflexivity.
  - reflexivity.
  - vm_compute. discriminate.
  - discriminate.
Defined.

Lemma comments_id_absent (l : list CommentDoc.t) (cid : ObjectId) :
  ~ In cid (map CommentDoc._id l) ->
  find (fun c => N.eqb (CommentDoc._id c) cid) l = None
  /\ filter (fun c => negb (N.eqb (CommentDoc._id c) cid)) l = l.
Proof.
  induction l as [|y l IH]; simpl; intros Hn; [split; reflexivity|].
  destruct (N.eqb_spec (CommentDoc._id y) cid) as [E|E]; [tauto|]. simpl.
  destruct IH as [IH1 IH2]; [tauto|]. split; [exact IH1 | now rewrite IH2].
Qed.

(** Adding a comment under an id the blog does not use yet and deleting
    it again, by the same user, gives back the blogs and the users as
    they were. *)
Theorem addComment_then_delete (s : Store) (actor : UserDoc.t) (fresh id : ObjectId)
    (text : string) (b : BlogDoc.t) :
  find (Blog.by_id id) (blogs s) = Some b ->
  BlogDoc.validate b = true ->
  trim text <> "" ->
  UserDoc.name actor <> "" ->
  ~ In fresh (map CommentDoc._id (BlogDoc.comments b)) ->
  let s1 := snd (BlogRoutes.addComment actor fresh id (Some text) s) in
  let (r2, s2) := BlogRoutes.deleteComment actor id fresh s1 in
  r2 = res_json (message "Comment deleted successfully")
  /\ blogs s2 = blogs s
  /\ users s2 = users s.
Proof.
  intros Hb Hv Ht Hn Hfresh.
  pose proof (find_blog_by_id _ _ _ Hb) as Hid.
  destruct (comments_id_absent _ _ Hfresh) as [Hnone Hsame].
  rewrite (addComment_run s actor fresh id text b Hb Hv Ht Hn). simpl.
  set (b1 := Blog.comments_push b fresh (UserDoc._id actor) text (UserDoc.name actor)).
  set (c := CommentDoc.mk fresh (UserDoc._id actor) (trim text) (UserDoc.name actor)).
  assert (Hp : Blog.by_id id b1 = true)
    by (unfold Blog.by_id; simpl; rewrite Hid; apply N.eqb_refl).
  assert (Hb1 : find (Blog.by_id id) (replace_first (Blog.by_id id) b1 (blogs s)) = Some b1)
    by (now apply (find_replace_first _ _ b)).
  assert (Hc : Blog.comments_id b1 fresh = Some c).
  { unfold Blog.comments_id, b1, Blog.comments_push. simpl.
    rewrite (find_app_none _ _ _ Hnone). simpl. now rewrite N.eqb_refl. }
  assert (Hpull : Blog.comments_pull b1 fresh = b).
  { unfold Blog.comments_pull, b1, Blog.comments_push. simpl.
    rewrite filter_app, Hsame. simpl. rewrite N.eqb_refl. simpl.
    rewrite app_nil_r. now destruct b. }
  destruct (BlogRoutes.deleteComment actor id fresh _) as [r2 s2] eqn:E.
  unfold BlogRoutes.deleteComment, try_catch, bind, Blog.findById in E.
  simpl in E. rewrite Hb1, Hc in E. simpl in E. rewrite N.eqb_refl in E. simpl in E.
  rewrite Hpull in E. rewrite (blog_save_run b _ Hv) in E. simpl in E.
  injection E as Hr2 Hs2. rewrite <- Hr2, <- Hs2. simpl.
  split; [reflexivity|]. split; [|reflexivity].
  rewrite Hid. now apply replace_first_back.
Qed.

Lemma addComment_then_delete_witness :
  let s1 := snd (BlogRoutes.addComment bob 200 10 (Some "again") demo_store) in
  let (r2, s2) := BlogRoutes.deleteComment bob 10 200 s1 in
  r2 = res_json (message "Comment deleted successfully")
  /\ blogs s2 = blogs demo_store
  /\ users s2 = users demo_store.
Proof.
  apply (addComment_then_delete demo_store bob 200 10 "again" blog_a1).
  - reflexivity.
  - reflexivity.
  - vm_compute. discriminate.
  - discriminate.
  - simpl. intuition discriminate.
Defined.

(** ** PUT /blogs/:id and PUT /admin/blogs/:id *)

Lemma updateBlog_edit (s : Store) (actor : UserDoc.t) (id : ObjectId)
    (title description : option string) (b : BlogDoc.t) :
  find (Blog.by_id id) (blogs s) = Some b ->
  BlogDoc.author b = UserDoc._id actor \/ UserDoc.role actor = "admin" ->
  BlogRoutes.updateBlog actor id title description s =
    try_catch
      (await Blog.save (edited_blog title description b) ;;
       updatedBlog <- await Blog.populate_author (edited_blog title description b) ;;
       ret (res_json updatedBlog)) s.
Proof.
  intros Hb Hauth.
  assert (Hguard : negb (BlogDoc.author b =? UserDoc._id actor)%N
                   && negb (UserDoc.role actor =? "admin") = false).
  { destruct Hauth as [E|E]; rewrite E.
    - now rewrite N.eqb_refl.
    - simpl. apply andb_false_r. }
  unfold BlogRoutes.updateBlog, try_catch, bind at 1, Blog.findById.
  rewrite Hb, Hguard. reflexivity.
Qed.

Lemma admin_updateBlog_edit (s : Store) (id : ObjectId)
    (title description : option string) (b : BlogDoc.t) :
  find (Blog.by_id id) (blogs s) = Some b ->
  AdminRoutes.updateBlog id title description s =
    try_catch
      (await Blog.save (edited_blog title description b) ;;
       updatedBlog <- await Blog.populate_author (edited_blog title description b) ;;
       ret (res_json updatedBlog)) s.
Proof.
  intros Hb.
  unfold AdminRoutes.updateBlog, try_catch, bind at 1, Blog.findById.
  rewrite Hb. reflexivity.
Qed.

Lemma updateBlog_refused (s : Store) (actor : UserDoc.t) (id : ObjectId)
    (title description : option string) (b : BlogDoc.t) :
  find (Blog.by_id id) (blogs s) = Some b ->
  BlogDoc.author b <> UserDoc._id actor ->
  UserDoc.role actor <> "admin" ->
  BlogRoutes.updateBlog actor id title description s
  = (res_status_json 403 (message "Not authorized"), s).
Proof.
  intros Hb Ha Hr. apply N.eqb_neq in Ha. apply String.eqb_neq in Hr.
  unfold BlogRoutes.updateBlog, try_catch, bind, Blog.findById.
  now rewrite Hb, Ha, Hr.
Qed.

(** A user who is neither the author of the blog nor an admin cannot edit
    it: the answer is 403 "Not authorized" and nothing is written. *)
Theorem updateBlog_forbidden (s : Store) (actor : UserDoc.t) (id : ObjectId)
    (title description : option string) (b : BlogDoc.t) :
  find (Blog.by_id id) (blogs s) = Some b ->
  BlogDoc.author b <> UserDoc._id actor ->
  UserDoc.role actor <> "admin" ->
  BlogRoutes.updateBlog actor id title description s
  = (res_status_json 403 (message "Not authorized"), s)
  /\ fails_with Forbidden (fst (BlogRoutes.updateBlog actor id title description s)).
Proof.
  intros Hb Ha Hr.
  rewrite (updateBlog_refused s actor id title description b Hb Ha Hr).
  split; reflexivity.
Qed.

(** Bob is not the author of blog 10. *)
Lemma updateBlog_forbidden_witness :
  BlogRoutes.updateBlog bob 10 (Some "Mine now") None demo_store
  = (res_status_json 403 (message "Not authorized"), demo_store)
  /\ fails_with Forbidden
       (fst (BlogRoutes.updateBlog bob 10 (Some "Mine now") None demo_store)).
Proof.
  apply (updateBlog_forbidden demo_store bob 10 (Some "Mine now") None blog_a1).
  - reflexivity.
  - discriminate.
  - discriminate.
Defined.



Lemma updateBlog_untouched (s : Store) (actor : UserDoc.t) (id : ObjectId)
    (title description : option string) :
  users (snd (BlogRoutes.updateBlog actor id title description s)) = users s
  /\ map without_text (blogs (snd (BlogRoutes.updateBlog actor id title description s)))
     = map without_text (blogs s)
  /\ users (snd (AdminRoutes.updateBlog id title description s)) = users s
  /\ map without_text (blogs (snd (AdminRoutes.updateBlog id title description s)))
     = map without_text (blogs s).
Proof.
  assert (Hedit : forall b, find (Blog.by_id id) (blogs s) = Some b ->
            let s' := snd (try_catch
                       (await Blog.save (edited_blog title description b) ;;
                        updatedBlog <- await Blog.populate_author
                                               (edited_blog title description b) ;;
                        ret (res_json updatedBlog)) s) in
            users s' = users s /\ map without_text (blogs s') = map without_text (blogs s)).
  { intros b Hb. pose proof (find_blog_by_id _ _ _ Hb) as Hid.
    assert (Hb' : find (Blog.by_id (BlogDoc._id (edited_blog title description b)))
                    (blogs s) = Some b) by (simpl; now rewrite Hid).
    pose proof (blog_save_frame without_text _ b s Hb' eq_refl) as [Hu Hm].
    unfold try_catch, bind.
    destruct (Blog.save (edited_blog title description b) s) as [[e|[]] s1];
      simpl in *; auto. }
  destruct (find (Blog.by_id id) (blogs s)) as [b|] eqn:Hb.
  - rewrite (admin_updateBlog_edit s id title description b Hb).
    destruct (Hedit b eq_refl) as [Hu Hm].
    split; [|split; [|split; assumption]].
    + unfold BlogRoutes.updateBlog, try_catch at 1, bind at 1, Blog.findById.
      rewrite Hb.
      destruct (negb (BlogDoc.author b =? UserDoc._id actor)%N
                && negb (UserDoc.role actor =? "admin")); [reflexivity|].
      exact Hu.
    + unfold BlogRoutes.updateBlog, try_catch at 1, bind at 1, Blog.findById.
      rewrite Hb.
      destruct (negb (BlogDoc.author b =? UserDoc._id actor)%N
                && negb (UserDoc.role actor =? "admin")); [reflexivity|].
      exact Hm.
  - unfold BlogRoutes.updateBlog, AdminRoutes.updateBlog, try_catch, bind, Blog.findById.
    rewrite Hb. simpl. tauto.
Qed.

(** Whatever an edit answers, on either route, the users, and in every
    blog everything but title and description (author, image, likes and
    comments among them), are as before. *)
Theorem updateBlog_frame (s : Store) (actor : UserDoc.t) (id : ObjectId)
    (title description : option string) :
  users (snd (BlogRoutes.updateBlog actor id title description s)) = users s
  /\ map without_text (blogs (snd (BlogRoutes.updateBlog actor id title description s)))
     = map without_text (blogs s)
  /\ users (snd (AdminRoutes.updateBlog id title description s)) = users s
  /\ map without_text (blogs (snd (AdminRoutes.updateBlog id title description s)))
     = map without_text (blogs s).
Proof.
  exact (updateBlog_untouched s actor id title description).
Qed.

(** For an admin the user route and the admin route are the same: both
    give the same response and the same store on every input. *)
Theorem updateBlog_admin_routes_agree (s : Store) (actor : UserDoc.t) (id : ObjectId)
    (title description : option string) :
  UserDoc.role actor = "admin" ->
  BlogRoutes.updateBlog actor id title description s
  = AdminRoutes.updateBlog id title description s.
Proof.
  intros Hr.
  unfold BlogRoutes.updateBlog, AdminRoutes.updateBlog, try_catch, bind, Blog.findById.
  destruct (find (Blog.by_id id) (blogs s)) as [b|]; [|reflexivity].
  rewrite Hr. simpl. rewrite andb_false_r. reflexivity.
Qed.

Lemma updateBlog_admin_routes_agree_witness :
  BlogRoutes.updateBlog root 11 (Some "Moderated") None demo_store
  = AdminRoutes.updateBlog 11 (Some "Moderated") None demo_store.
Proof.
  apply (updateBlog_admin_routes_agree demo_store root 11 (Some "Moderated") None).
  reflexivity.
Defined.

(** ** POST /blogs *)

Lemma createBlog_run (s : Store) (actor : UserDoc.t) (fresh : ObjectId)
    (file : option string) (t d : string) :
  t <> "" -> d <> "" ->
  let imageUrl :=
    match file with
    | Some path => path
    | None => "https://via.placeholder.com/600x400?text=Blog+Image"
    end in
  let blog := Blog.new fresh t d imageUrl (UserDoc._id actor) (UserDoc.name actor) in
  BlogRoutes.createBlog actor fresh file (Some t) (Some d) s =
    try_catch
      (await Blog.create blog ;;
       populatedBlog <- await Blog.populate_author blog ;;
       ret (res_status_json 201 populatedBlog)) s.
Proof.
  intros Ht Hd. apply String.eqb_neq in Ht. apply String.eqb_neq in Hd.
  unfold BlogRoutes.createBlog, try_catch. simpl. now rewrite Ht, Hd.
Qed.

(** A create request without title or without description, or with an
    empty one, is answered 400 and nothing is written. *)
Theorem createBlog_required (s : Store) (actor : UserDoc.t) (fresh : ObjectId)
    (file title description : option string) :
  field_truthy title = false \/ field_truthy description = false ->
  BlogRoutes.createBlog actor fresh file title description s
  = (res_status_json 400 (message "Title and description are required"), s).
Proof.
  intros H. unfold BlogRoutes.createBlog, try_catch.
  destruct title as [t|], description as [d|]; try reflexivity.
  destruct H as [H|H]; rewrite H; simpl; [reflexivity|].
  now rewrite orb_true_r.
Qed.

Lemma createBlog_required_witness :
  BlogRoutes.createBlog alice 20 None (Some "Title") (Some "") demo_store
  = (res_status_json 400 (message "Title and description are required"), demo_store).
Proof.
  apply (createBlog_required demo_store alice 20 None (Some "Title") (Some "")).
  right. reflexivity.
Defined.

Lemma blog_id_unused (id : ObjectId) (l : list BlogDoc.t) :
  ~ In id (map BlogDoc._id l) ->
  existsb (Blog.by_id id) l = false /\ find (Blog.by_id id) l = None.
Proof.
  induction l as [|y l IH]; simpl; intros Hn; [split; reflexivity|].
  unfold Blog.by_id at 1 3.
  destruct (N.eqb_spec (BlogDoc._id y) id) as [E|E]; [tauto|]. simpl.
  apply IH. tauto.
Qed.

(** A create request with a title that is not blank, a description, an
    author with a name, a non-empty image path when a file was uploaded,
    and an unused id: the answer is 201 and one blog is appended.  It
    belongs to the requesting user, carries that user's current name, has
    no likes and no comments, and has the placeholder image when no file
    was uploaded.  It can be found under its id, and another user who is
    not an admin is refused when editing it. *)
Theorem createBlog_creates (s : Store) (actor : UserDoc.t) (fresh : ObjectId)
    (file : option string) (t d : string) :
  trim t <> "" -> d <> "" ->
  UserDoc.name actor <> "" ->
  file <> Some "" ->
  ~ In fresh (map BlogDoc._id (blogs s)) ->
  let (r, s') := BlogRoutes.createBlog actor fresh file (Some t) (Some d) s in
  status r = 201
  /\ users s' = users s
  /\ exists b,
       blogs s' = (blogs s ++ [b])%list
       /\ find (Blog.by_id fresh) (blogs s') = Some b
       /\ BlogDoc.author b = UserDoc._id actor
       /\ BlogDoc.authorName b = UserDoc.name actor
       /\ BlogDoc.title b = trim t
       /\ BlogDoc.description b = d
       /\ BlogDoc.likes b = [] /\ BlogDoc.comments b = []
       /\ (file = None ->
             BlogDoc.image b = "https://via.placeholder.com/600x400?text=Blog+Image")
       /\ (forall other title description,
             UserDoc._id other <> UserDoc._id actor -> UserDoc.role other <> "admin" ->
             BlogRoutes.updateBlog other fresh title description s'
             = (res_status_json 403 (message "Not authorized"), s')).
Proof.
  intros Ht Hd Hn Hfile Hfresh.
  assert (Hne : t <> "") by (intros ->; now apply Ht).
  destruct (blog_id_unused _ _ Hfresh) as [Hex Hnone].
  rewrite (createBlog_run s actor fresh file t d Hne Hd).
  set (imageUrl := match file with
                   | Some path => path
                   | None => "https://via.placeholder.com/600x400?text=Blog+Image"
                   end).
  set (b := Blog.new fresh t d imageUrl (UserDoc._id actor) (UserDoc.name actor)).
  assert (Himg : imageUrl <> "").
  { unfold imageUrl. destruct file as [path|]; [congruence | discriminate]. }
  assert (Hv : BlogDoc.validate b = true).
  { unfold BlogDoc.validate, b, Blog.new. simpl.
    apply String.eqb_neq in Ht. apply String.eqb_neq in Hd.
    apply String.eqb_neq in Hn. apply String.eqb_neq in Himg.
    now rewrite Ht, Hd, Hn, Himg. }
  unfold try_catch, bind, Blog.create. rewrite Hv. simpl. rewrite Hex. simpl.
  assert (Hfound : find (Blog.by_id fresh) (blogs s ++ [b]) = Some b).
  { rewrite (find_app_none _ _ _ Hnone). simpl. unfold Blog.by_id. simpl.
    now rewrite N.eqb_refl. }
  split; [reflexivity|]. split; [reflexivity|].
  exists b. repeat split; try reflexivity; try exact Hfound.
  - intros ->. reflexivity.
  - intros other title description Ho Hr.
    apply (updateBlog_refused _ other fresh title description b); auto.
Qed.

Lemma createBlog_creates_witness :
  let (r, s') := BlogRoutes.createBlog bob 20 None (Some " Fresh ") (Some "text")
                   demo_store in
  status r = 201
  /\ users s' = users demo_store
  /\ exists b,
       blogs s' = (blogs demo_store ++ [b])%list
       /\ find (Blog.by_id 20) (blogs s') = Some b
       /\ BlogDoc.author b = UserDoc._id bob
       /\ BlogDoc.authorName b = UserDoc.name bob
       /\ BlogDoc.title b = trim " Fresh "
       /\ BlogDoc.description b = "text"
       /\ BlogDoc.likes b = [] /\ BlogDoc.comments b = []
       /\ (@None string = None ->
             BlogDoc.image b = "https://via.placeholder.com/600x400?text=Blog+Image")
       /\ (forall other title description,
             UserDoc._id other <> UserDoc._id bob -> UserDoc.role other <> "admin" ->
             BlogRoutes.updateBlog other 20 title description s'
             = (res_status_json 403 (message "Not authorized"), s')).
Proof.
  apply (createBlog_creates demo_store bob 20 None " Fresh " "text").
  - vm_compute. discriminate.
  - discriminate.
  - discriminate.
  - discriminate.
  - simpl. intuition discriminate.
Defined.

(** A title that is not empty but only white space passes the handlers'
    own checks, is trimmed to the empty string, and is then refused by
    schema validation.  Creating a blog with such a title (and any
    non-empty description, on any store), editing an existing blog as its
    author or as an admin, and editing it on the admin route, are each
    answered 500 "Server error" and write nothing. *)
Theorem blank_title_is_500 (s : Store) (t : string) :
  t <> "" -> whitespace_only t = true ->
  (forall actor fresh file d,
     d <> "" ->
     BlogRoutes.createBlog actor fresh file (Some t) (Some d) s
     = (server_error (ValidatorError "Blog validation failed"), s))
  /\ (forall actor id description b,
        find (Blog.by_id id) (blogs s) = Some b ->
        BlogDoc.author b = UserDoc._id actor \/ UserDoc.role actor = "admin" ->
        BlogRoutes.updateBlog actor id (Some t) description s
        = (server_error (ValidatorError "Blog validation failed"), s))
  /\ (forall id description b,
        find (Blog.by_id id) (blogs s) = Some b ->
        AdminRoutes.updateBlog id (Some t) description s
        = (server_error (ValidatorError "Blog validation failed"), s)).
Proof.
  intros Ht Hw.
  pose proof (trim_whitespace_only t Hw) as Htrim.
  assert (Hedit : forall description b,
            BlogDoc.validate (edited_blog (Some t) description b) = false).
  { intros description b. unfold BlogDoc.validate, edited_blog. simpl.
    apply String.eqb_neq in Ht. rewrite Ht. simpl. now rewrite Htrim. }
  split; [|split].
  - intros actor fresh file d Hd.
    rewrite (createBlog_run s actor fresh file t d Ht Hd).
    unfold try_catch, bind, Blog.create, BlogDoc.validate, Blog.new. simpl.
    now rewrite Htrim.
  - intros actor id description b Hb Hauth.
    rewrite (updateBlog_edit s actor id (Some t) description b Hb Hauth).
    unfold try_catch, bind. now rewrite (blog_save_refused _ s (Hedit description b)).
  - intros id description b Hb.
    rewrite (admin_updateBlog_edit s id (Some t) description b Hb).
    unfold try_catch, bind. now rewrite (blog_save_refused _ s (Hedit description b)).
Qed.

(** Creating on the empty store, and editing blog 10 of the demo store as
    its author and on the admin route. *)
Lemma blank_title_is_500_witness :
  BlogRoutes.createBlog alice 20 None (Some "  ") (Some "text") empty_store
    = (server_error (ValidatorError "Blog validation failed"), empty_store)
  /\ BlogRoutes.updateBlog alice 10 (Some "  ") None demo_store
     = (server_error (ValidatorError "Blog validation failed"), demo_store)
  /\ AdminRoutes.updateBlog 10 (Some "  ") None demo_store
     = (server_error (ValidatorError "Blog validation failed"), demo_store).
Proof.
  assert (Hne : "  " <> "") by discriminate.
  split; [|split].
  - apply (proj1 (blank_title_is_500 empty_store "  " Hne eq_refl)). discriminate.
  - apply (proj1 (proj2 (blank_title_is_500 demo_store "  " Hne eq_refl))
             alice 10%N None blog_a1); [reflexivity | left; reflexivity].
  - apply (proj2 (proj2 (blank_title_is_500 demo_store "  " Hne eq_refl))
             10%N None blog_a1). reflexivity.
Defined.

(** ** routes/auth.js: signup *)

Section Accounts.
Context {UM : UserModel}.
Variable env : ProcessEnv.

Lemma signup_run (s : Store) (fresh : ObjectId) (name email password : string) :
  find (User.by_email email) (users s) = None ->
  ~ In fresh (map UserDoc._id (users s)) ->
  validate_user (UserDoc.mk fresh name email password "user" None None) = true ->
  AuthRoutes.signup env fresh name email password s =
    (mkResponse 201 (Some (AuthRoutes.session_cookie env fresh))
       (JObj [("message", JStr "User created successfully");
              ("user", JObj [("id", JId fresh); ("name", JStr name);
                             ("email", JStr email); ("role", JStr "user")])]),
     mkStore
       (users s ++ [UserDoc.mk fresh name email (hashPassword password) "user" None None])
       (blogs s)
       (oplog s ++ [Op_User_save
                      (UserDoc.mk fresh name email (hashPassword password) "user"
                                  None None)])).
Proof.
  intros Hf Hfresh Hv.
  unfold AuthRoutes.signup, try_catch, bind, User.findOne_email. rewrite Hf.
  unfold User.create. rewrite Hv. simpl.
  rewrite (fresh_id_existsb _ _ Hfresh), (find_none_existsb _ _ Hf). reflexivity.
Qed.

(** Signing up with an email that an account already has is answered 400
    "User already exists" and writes nothing. *)
Theorem signup_existing_email (s : Store) (fresh : ObjectId)
    (name email password : string) (u : UserDoc.t) :
  find (User.by_email email) (users s) = Some u ->
  AuthRoutes.signup env fresh name email password s
  = (res_status_json 400 (message "User already exists"), s).
Proof.
  intros Hf. unfold AuthRoutes.signup, try_catch, bind, User.findOne_email.
  now rewrite Hf.
Qed.

(** Signing up with an unused email, under an unused id, with a document
    the validators accept: the answer is 201 with a session cookie for the
    new id and the new user's id, name, email and role "user"; exactly one
    user is appended, with role "user" and with the password hashed. *)
Theorem signup_creates (s : Store) (fresh : ObjectId) (name email password : string) :
  find (User.by_email email) (users s) = None ->
  ~ In fresh (map UserDoc._id (users s)) ->
  validate_user (UserDoc.mk fresh name email password "user" None None) = true ->
  let (r, s') := AuthRoutes.signup env fresh name email password s in
  status r = 201
  /\ cookie r = Some (AuthRoutes.session_cookie env fresh)
  /\ js_opt_get (body r) "user"
     = JObj [("id", JId fresh); ("name", JStr name);
             ("email", JStr email); ("role", JStr "user")]
  /\ users s'
     = (users s
        ++ [UserDoc.mk fresh name email (hashPassword password) "user" None None])%list
  /\ blogs s' = blogs s.
Proof.
  intros Hf Hfresh Hv.
  rewrite (signup_run s fresh name email password Hf Hfresh Hv).
  repeat split.
Qed.

(** After a successful signup, a login with the same email and password,
    which the stored hash matches, succeeds and returns the same user
    data and a cookie for the same user as the signup did. *)
Theorem signup_then_login (s : Store) (fresh : ObjectId) (name email password : string) :
  find (User.by_email email) (users s) = None ->
  ~ In fresh (map UserDoc._id (users s)) ->
  validate_user (UserDoc.mk fresh name email password "user" None None) = true ->
  comparePassword
    (UserDoc.mk fresh name email (hashPassword password) "user" None None)
    (Some password)
  = inr true ->
  let (r1, s1) := AuthRoutes.signup env fresh name email password s in
  let (r2, s2) := AuthRoutes.login env (Some email) (Some password) s1 in
  status r1 = 201 /\ status r2 = 200
  /\ cookie r2 = cookie r1
  /\ js_opt_get (body r2) "user" = js_opt_get (body r1) "user"
  /\ s2 = s1.
Proof.
  intros Hf Hfresh Hv Hc.
  rewrite (signup_run s fresh name email password Hf Hfresh Hv).
  rewrite (login_accepts env _ (Some email) (Some password)
             (UserDoc.mk fresh name email (hashPassword password) "user" None None)).
  - repeat split.
  - unfold found_account. simpl. rewrite (find_app_none _ _ _ Hf). simpl.
    unfold User.by_email. simpl. now rewrite String.eqb_refl.
  - exact Hc.
Qed.

Lemma filter_snoc_false {A : Type} (q : A -> bool) (l : list A) (x : A) :
  q x = false -> filter q (l ++ [x]) = filter q l.
Proof.
  intros H. rewrite filter_app. simpl. rewrite H. apply app_nil_r.
Qed.

Lemma signup_users (s : Store) (fresh : ObjectId)
    (name email password : string) :
  blogs (snd (AuthRoutes.signup env fresh name email password s)) = blogs s
  /\ (users (snd (AuthRoutes.signup env fresh name email password s)) = users s
      \/ exists u,
           users (snd (AuthRoutes.signup env fresh name email password s))
           = (users s ++ [u])%list
           /\ UserDoc._id u = fresh /\ UserDoc.role u = "user")
  /\ filter (User.by_role "admin")
       (users (snd (AuthRoutes.signup env fresh name email password s)))
     = filter (User.by_role "admin") (users s).
Proof.
  unfold AuthRoutes.signup, try_catch, bind, User.findOne_email, User.create.
  destruct (find (User.by_email email) (users s)); simpl; [auto|].
  destruct (validate_user _); simpl; [|auto].
  destruct (existsb (User.by_id fresh) (users s)); simpl; [auto|].
  destruct (existsb (User.by_email email) (users s)); simpl; [auto|].
  split; [reflexivity|]. split.
  - right. eexists. split; [reflexivity|]. split; reflexivity.
  - now apply filter_snoc_false.
Qed.

(** Whatever a signup answers, it leaves every existing user and every
    blog as they were; it adds at most one user, under the given id and
    with role "user".  In particular the admins are the same before and
    after. *)
Theorem signup_grants_no_admin (s : Store) (fresh : ObjectId)
    (name email password : string) :
  blogs (snd (AuthRoutes.signup env fresh name email password s)) = blogs s
  /\ (users (snd (AuthRoutes.signup env fresh name email password s)) = users s
      \/ exists u,
           users (snd (AuthRoutes.signup env fresh name email password s))
           = (users s ++ [u])%list
           /\ UserDoc._id u = fresh /\ UserDoc.role u = "user")
  /\ filter (User.by_role "admin")
       (users (snd (AuthRoutes.signup env fresh name email password s)))
     = filter (User.by_role "admin") (users s).
Proof.
  exact (signup_users s fresh name email password).
Qed.

End Accounts.

Lemma signup_existing_email_witness :
  AuthRoutes.signup (UM := demo_model) demo_env 9 "Mallory" "a@x.com" "pw" demo_store
  = (res_status_json 400 (message "User already exists"), demo_store).
Proof.
  apply (signup_existing_email (UM := demo_model) demo_env demo_store 9
           "Mallory" "a@x.com" "pw" alice).
  reflexivity.
Defined.

Lemma signup_creates_witness :
  let (r, s') :=
    AuthRoutes.signup (UM := demo_model) demo_env 9 "Carol" "c@x.com" "carolpw"
                      demo_store in
  status r = 201
  /\ cookie r = Some (AuthRoutes.session_cookie demo_env 9)
  /\ js_opt_get (body r) "user"
     = JObj [("id", JId 9); ("name", JStr "Carol");
             ("email", JStr "c@x.com"); ("role", JStr "user")]
  /\ users s'
     = (users demo_store
        ++ [UserDoc.mk 9 "Carol" "c@x.com" (hashPassword (UserModel := demo_model) "carolpw")
                       "user" None None])%list
  /\ blogs s' = blogs demo_store.
Proof.
  apply (signup_creates (UM := demo_model) demo_env demo_store 9 "Carol" "c@x.com"
           "carolpw").
  - reflexivity.
  - simpl. intuition discriminate.
  - reflexivity.
Defined.

Lemma signup_then_login_witness :
  let (r1, s1) :=
    AuthRoutes.signup (UM := demo_model) demo_env 9 "Carol" "c@x.com" "carolpw"
                      demo_store in
  let (r2, s2) :=
    AuthRoutes.login (UM := demo_model) demo_env (Some "c@x.com") (Some "carolpw") s1 in
  status r1 = 201 /\ status r2 = 200
  /\ cookie r2 = cookie r1
  /\ js_opt_get (body r2) "user" = js_opt_get (body r1) "user"
  /\ s2 = s1.
Proof.
  apply (signup_then_login (UM := demo_model) demo_env demo_store 9 "Carol" "c@x.com"
           "carolpw").
  - reflexivity.
  - simpl. intuition discriminate.
  - reflexivity.
  - reflexivity.
Defined.

(** ** routes/auth.js and routes/admin.js: profile and passwords *)

Lemma find_two_replace {A : Type} (p q : A -> bool) (x u : A) (l : list A) :
  find p l = Some u -> find q l = Some u -> q x = true ->
  find q (replace_first p x l) = Some x.
Proof.
  induction l as [|y l IH]; simpl; [discriminate|].
  destruct (p y) eqn:Ep, (q y) eqn:Eq; intros Hp Hq Hx; simpl.
  - now rewrite Hx.
  - inversion Hp; subst. apply find_some in Hq. destruct Hq as [_ Hq]. congruence.
  - inversion Hq; subst. apply find_some in Hp. destruct Hp as [_ Hp]. congruence.
  - rewrite Eq. now apply IH.
Qed.

Section Passwords.
Context {UM : UserModel}.
Variable env : ProcessEnv.

Lemma user_save_frame {B : Type} (f : UserDoc.t -> B) (doc u : UserDoc.t) (s : Store) :
  find (User.by_id (UserDoc._id doc)) (users s) = Some u ->
  f doc = f u ->
  blogs (snd (User.save doc s)) = blogs s
  /\ map f (users (snd (User.save doc s))) = map f (users s).
Proof.
  intros Hu Hf. unfold User.save.
  destruct (negb (validate_user doc)); simpl; [tauto|].
  destruct (existsb _ (users s)); simpl; [tauto|].
  split; [reflexivity|]. now apply (map_replace_found f _ doc u).
Qed.

Lemma user_save_password_frame {B : Type} (f : UserDoc.t -> B) (doc u : UserDoc.t)
    (s : Store) :
  find (User.by_id (UserDoc._id doc)) (users s) = Some u ->
  (forall pw, f (UserDoc.set_password pw doc) = f u) ->
  blogs (snd (User.save_password doc s)) = blogs s
  /\ map f (users (snd (User.save_password doc s))) = map f (users s).
Proof.
  intros Hu Hf. unfold User.save_password.
  destruct (negb (validate_user doc)); simpl; [tauto|].
  destruct (existsb _ (users s)); simpl; [tauto|].
  split; [reflexivity|]. apply (map_replace_found f _ _ u); [exact Hu | apply Hf].
Qed.

Lemma updateProfile_untouched (s : Store) (actor : UserDoc.t)
    (name email bio avatar : option string) :
  blogs (snd (AuthRoutes.updateProfile actor name email bio avatar s)) = blogs s
  /\ map credentials (users (snd (AuthRoutes.updateProfile actor name email bio avatar s)))
     = map credentials (users s).
Proof.
  unfold AuthRoutes.updateProfile, try_catch, bind, User.findById. simpl.
  destruct (find (User.by_id (UserDoc._id actor)) (users s)) as [u|] eqn:Hu;
    simpl; [|tauto].
  destruct (find_user_by_id _ _ _ Hu) as [Hid _].
  match goal with |- context [User.save ?d s] => set (doc := d) end.
  assert (Hdoc : UserDoc._id doc = UserDoc._id actor /\ credentials doc = credentials u).
  { unfold doc.
    destruct name as [n|], email as [e|], bio as [bi|], avatar as [av|]; simpl;
      repeat match goal with |- context [if ?c then _ else _] => destruct c end;
      simpl; auto. }
  destruct Hdoc as [Hdi Hdc]. rewrite <- Hdi in Hu.
  pose proof (user_save_frame credentials doc u s Hu Hdc) as [Hb Hm].
  destruct (User.save doc s) as [[e|a] s1]; simpl in *; auto.
Qed.

(** Whatever a profile update answers, the blogs are as before and every
    user keeps id, password and role: the route can change name, email,
    bio and avatar of the requesting user and nothing else. *)
Theorem updateProfile_keeps_credentials (s : Store) (actor : UserDoc.t)
    (name email bio avatar : option string) :
  blogs (snd (AuthRoutes.updateProfile actor name email bio avatar s)) = blogs s
  /\ map credentials (users (snd (AuthRoutes.updateProfile actor name email bio avatar s)))
     = map credentials (users s).
Proof.
  exact (updateProfile_untouched s actor name email bio avatar).
Qed.

Lemma password_routes_untouched (s : Store) (actor : UserDoc.t) (id : ObjectId)
    (currentPassword newPassword : option string) :
  blogs (snd (AuthRoutes.changePassword actor currentPassword newPassword s)) = blogs s
  /\ map without_password
       (users (snd (AuthRoutes.changePassword actor currentPassword newPassword s)))
     = map without_password (users s)
  /\ blogs (snd (AdminRoutes.resetPassword id newPassword s)) = blogs s
  /\ map without_password (users (snd (AdminRoutes.resetPassword id newPassword s)))
     = map without_password (users s).
Proof.
  assert (Hchange :
    blogs (snd (AuthRoutes.changePassword actor currentPassword newPassword s)) = blogs s
    /\ map without_password
         (users (snd (AuthRoutes.changePassword actor currentPassword newPassword s)))
       = map without_password (users s)).
  { unfold AuthRoutes.changePassword, try_catch.
    destruct currentPassword as [cur|], newPassword as [new|]; simpl; try tauto.
    destruct (negb (negb (cur =? "")) || negb (negb (new =? ""))); simpl; [tauto|].
    unfold bind, User.findById. simpl.
    destruct (find (User.by_id (UserDoc._id actor)) (users s)) as [u|] eqn:Hu;
      simpl; [|tauto].
    destruct (find_user_by_id _ _ _ Hu) as [Hid _].
    unfold User.comparePassword_call.
    destruct (comparePassword u (Some cur)) as [err|[|]]; simpl; try tauto.
    assert (Hu' : find (User.by_id (UserDoc._id (UserDoc.set_password new u))) (users s)
                  = Some u) by (simpl; now rewrite Hid).
    pose proof (user_save_password_frame without_password _ u s Hu'
                  (fun _ => eq_refl)) as [Hb Hm].
    destruct (User.save_password (UserDoc.set_password new u) s) as [[e|a] s1];
      simpl in *; auto. }
  assert (Hreset :
    blogs (snd (AdminRoutes.resetPassword id newPassword s)) = blogs s
    /\ map without_password (users (snd (AdminRoutes.resetPassword id newPassword s)))
       = map without_password (users s)).
  { unfold AdminRoutes.resetPassword, try_catch.
    destruct newPassword as [new|]; simpl; [|tauto].
    destruct (negb (negb (new =? "")) || (String.length new <? 6)%nat); simpl; [tauto|].
    unfold bind, User.findById. simpl.
    destruct (find (User.by_id id) (users s)) as [u|] eqn:Hu; simpl; [|tauto].
    destruct (find_user_by_id _ _ _ Hu) as [Hid _].
    assert (Hu' : find (User.by_id (UserDoc._id (UserDoc.set_password new u))) (users s)
                  = Some u) by (simpl; now rewrite Hid).
    pose proof (user_save_password_frame without_password _ u s Hu'
                  (fun _ => eq_refl)) as [Hb Hm].
    destruct (User.save_password (UserDoc.set_password new u) s) as [[e|a] s1];
      simpl in *; auto. }
  tauto.
Qed.

Lemma replace_first_split {A : Type} (p : A -> bool) (x u : A) (l : list A) :
  find p l = Some u ->
  exists l1 l2, l = (l1 ++ u :: l2)%list /\ replace_first p x l = (l1 ++ x :: l2)%list.
Proof.
  induction l as [|y l IH]; simpl; [discriminate|].
  destruct (p y) eqn:E; intros Hf.
  - inversion Hf; subst. exists [], l. split; reflexivity.
  - destruct (IH Hf) as (l1 & l2 & -> & ->). exists (y :: l1), l2. split; reflexivity.
Qed.

Lemma save_password_one_changed (s : Store) (id : ObjectId) (u : UserDoc.t) (new : string) :
  find (User.by_id id) (users s) = Some u ->
  one_password_changed id (users s)
    (users (snd (User.save_password (UserDoc.set_password new u) s))).
Proof.
  intros Hu. destruct (find_user_by_id _ _ _ Hu) as [Hid _].
  unfold User.save_password.
  destruct (negb (validate_user _)); simpl; [now left|].
  destruct (existsb _ (users s)); simpl; [now left|].
  right. rewrite Hid.
  destruct (replace_first_split (User.by_id id)
              (UserDoc.set_password (hashPassword new) u) u (users s) Hu)
    as (l1 & l2 & E1 & E2).
  exists l1, u, l2, (hashPassword new). auto.
Qed.

Lemma password_routes_one_changed (s : Store) (actor : UserDoc.t) (id : ObjectId)
    (currentPassword newPassword : option string) :
  one_password_changed (UserDoc._id actor) (users s)
    (users (snd (AuthRoutes.changePassword actor currentPassword newPassword s)))
  /\ one_password_changed id (users s)
       (users (snd (AdminRoutes.resetPassword id newPassword s))).
Proof.
  split.
  - unfold AuthRoutes.changePassword, try_catch.
    destruct currentPassword as [cur|], newPassword as [new|]; simpl; try now left.
    destruct (negb (negb (cur =? "")) || negb (negb (new =? ""))); simpl; [now left|].
    unfold bind, User.findById, User.comparePassword_call. simpl.
    destruct (find (User.by_id (UserDoc._id actor)) (users s)) as [u|] eqn:Hu;
      simpl; [|now left].
    destruct (comparePassword u (Some cur)) as [err|[|]]; simpl; try now left.
    pose proof (save_password_one_changed s _ u new Hu) as H.
    destruct (User.save_password (UserDoc.set_password new u) s) as [[e|a] s1];
      simpl in *; exact H.
  - unfold AdminRoutes.resetPassword, try_catch.
    destruct newPassword as [new|]; simpl; [|now left].
    destruct (negb (negb (new =? "")) || (String.length new <? 6)%nat); simpl;
      [now left|].
    unfold bind, User.findById. simpl.
    destruct (find (User.by_id id) (users s)) as [u|] eqn:Hu; simpl; [|now left].
    pose proof (save_password_one_changed s _ u new Hu) as H.
    destruct (User.save_password (UserDoc.set_password new u) s) as [[e|a] s1];
      simpl in *; exact H.
Qed.

(** Whatever a password change or an admin password reset answers, the
    blogs are as before and the users are either exactly as before or
    differ in one single document, the first with the requesting user's
    id (for the reset: with the named id), and that document differs only
    in its password.  Every user keeps id, name, email, role, bio and
    avatar. *)
Theorem password_routes_keep_accounts (s : Store) (actor : UserDoc.t) (id : ObjectId)
    (currentPassword newPassword : option string) :
  blogs (snd (AuthRoutes.changePassword actor currentPassword newPassword s)) = blogs s
  /\ one_password_changed (UserDoc._id actor) (users s)
       (users (snd (AuthRoutes.changePassword actor currentPassword newPassword s)))
  /\ map without_password
       (users (snd (AuthRoutes.changePassword actor currentPassword newPassword s)))
     = map without_password (users s)
  /\ blogs (snd (AdminRoutes.resetPassword id newPassword s)) = blogs s
  /\ one_password_changed id (users s)
       (users (snd (AdminRoutes.resetPassword id newPassword s)))
  /\ map without_password (users (snd (AdminRoutes.resetPassword id newPassword s)))
     = map without_password (users s).
Proof.
  pose proof (password_routes_untouched s actor id currentPassword newPassword)
    as (H1 & H2 & H3 & H4).
  pose proof (password_routes_one_changed s actor id currentPassword newPassword)
    as (H5 & H6).
  repeat split; assumption.
Qed.

(** A password change in which the current or the new password is absent
    or empty is answered 400 "Current and new password are required",
    whoever asks and whatever the other field holds.  With both present,
    for an existing user, it is answered 400 "Current password is
    incorrect" when [comparePassword] reports no match, and 500 when
    [comparePassword] rejects.  Nothing is written in any of these
    cases. *)
Theorem changePassword_rejected (s : Store) (actor : UserDoc.t)
    (currentPassword newPassword : option string) :
  (field_truthy currentPassword = false \/ field_truthy newPassword = false ->
   AuthRoutes.changePassword actor currentPassword newPassword s
   = (res_status_json 400 (message "Current and new password are required"), s))
  /\ (forall u,
        field_truthy currentPassword = true -> field_truthy newPassword = true ->
        find (User.by_id (UserDoc._id actor)) (users s) = Some u ->
        comparePassword u currentPassword = inr false ->
        AuthRoutes.changePassword actor currentPassword newPassword s
        = (res_status_json 400 (message "Current password is incorrect"), s))
  /\ (forall u e,
        field_truthy currentPassword = true -> field_truthy newPassword = true ->
        find (User.by_id (UserDoc._id actor)) (users s) = Some u ->
        comparePassword u currentPassword = inl e ->
        AuthRoutes.changePassword actor currentPassword newPassword s
        = (server_error e, s)).
Proof.
  split; [|split].
  - intros H. unfold AuthRoutes.changePassword, try_catch.
    destruct currentPassword as [cur|], newPassword as [new|]; try reflexivity.
    destruct H as [H|H]; rewrite H; simpl; [reflexivity|].
    now rewrite orb_true_r.
  - intros u Hc Hn Hu Hcmp. unfold AuthRoutes.changePassword, try_catch.
    destruct currentPassword as [cur|], newPassword as [new|]; try discriminate.
    rewrite Hc, Hn. simpl.
    unfold bind, User.findById, User.comparePassword_call. now rewrite Hu, Hcmp.
  - intros u e Hc Hn Hu Hcmp. unfold AuthRoutes.changePassword, try_catch.
    destruct currentPassword as [cur|], newPassword as [new|]; try discriminate.
    rewrite Hc, Hn. simpl.
    unfold bind, User.findById, User.comparePassword_call. now rewrite Hu, Hcmp.
Qed.

Lemma save_password_run (s : Store) (u : UserDoc.t) (new : string) :
  unique_emails s ->
  In u (users s) ->
  validate_user (UserDoc.set_password new u) = true ->
  User.save_password (UserDoc.set_password new u) s =
    (inr (UserDoc.set_password (hashPassword new) u),
     mkStore (replace_first (User.by_id (UserDoc._id u))
                (UserDoc.set_password (hashPassword new) u) (users s))
             (blogs s)
             (oplog s ++ [Op_User_save (UserDoc.set_password (hashPassword new) u)])).
Proof.
  intros Hem Hin Hv.
  pose proof (email_free_same_account (users s) (blogs s) (oplog s) u
                (UserDoc.set_password new u) Hem Hin eq_refl eq_refl) as He.
  unfold email_free in He. apply negb_true_iff in He. simpl in He.
  unfold User.save_password. rewrite Hv. simpl. rewrite He. reflexivity.
Qed.

(** A user whose current password matches changes it to a non-empty new
    one that the validators accept: the answer is 200, the stored
    password is the hash of the new one, and a login with the user's
    email and the new password, which that hash matches, succeeds. *)
Theorem changePassword_then_login (s : Store) (actor u : UserDoc.t)
    (current new : string) :
  unique_emails s ->
  find (User.by_id (UserDoc._id actor)) (users s) = Some u ->
  current <> "" -> new <> "" ->
  comparePassword u (Some current) = inr true ->
  validate_user (UserDoc.set_password new u) = true ->
  comparePassword (UserDoc.set_password (hashPassword new) u) (Some new) = inr true ->
  let (r1, s1) := AuthRoutes.changePassword actor (Some current) (Some new) s in
  r1 = res_json (message "Password updated successfully")
  /\ find (User.by_id (UserDoc._id actor)) (users s1)
     = Some (UserDoc.set_password (hashPassword new) u)
  /\ status (fst (AuthRoutes.login env (Some (UserDoc.email u)) (Some new) s1)) = 200.
Proof.
  intros Hem Hu Hcur Hnew Hc Hv Hc'.
  destruct (find_user_by_id _ _ _ Hu) as [Hid Hin].
  apply String.eqb_neq in Hcur. apply String.eqb_neq in Hnew.
  unfold AuthRoutes.changePassword, try_catch. simpl. rewrite Hcur, Hnew. simpl.
  unfold bind at 1, User.findById. rewrite Hu.
  unfold bind at 1, User.comparePassword_call. rewrite Hc. simpl.
  unfold bind. rewrite (save_password_run s u new Hem Hin Hv). simpl.
  rewrite Hid.
  assert (Hmail : find (User.by_email (UserDoc.email u)) (users s) = Some u).
  { destruct (find (User.by_email (UserDoc.email u)) (users s)) as [v|] eqn:E.
    - f_equal. pose proof (find_some _ _ E) as [Hv1 Hv2].
      apply String.eqb_eq in Hv2.
      now apply (NoDup_map_eq UserDoc.email (users s)).
    - exfalso. apply (find_none _ _ E) in Hin.
      unfold User.by_email in Hin. now rewrite String.eqb_refl in Hin. }
  split; [reflexivity|]. split.
  - apply (find_replace_first _ _ u); [exact Hu|].
    unfold User.by_id. simpl. rewrite Hid. apply N.eqb_refl.
  - rewrite (login_accepts env _ (Some (UserDoc.email u)) (Some new)
               (UserDoc.set_password (hashPassword new) u)); [reflexivity| |exact Hc'].
    unfold found_account. simpl.
    apply (find_two_replace (User.by_id (UserDoc._id actor))
             (User.by_email (UserDoc.email u))
             (UserDoc.set_password (hashPassword new) u) u (users s) Hu Hmail).
    unfold User.by_email. simpl. apply String.eqb_refl.
Qed.

(** An admin password reset without a new password, or with one of fewer
    than six characters, is answered 400 and writes nothing, whether or
    not the user exists. *)
Theorem resetPassword_too_short (s : Store) (id : ObjectId) (newPassword : option string) :
  match newPassword with
  | None => True
  | Some pw => String.length pw < 6
  end ->
  AdminRoutes.resetPassword id newPassword s
  = (res_status_json 400 (message "New password must be at least 6 characters"), s).
Proof.
  intros H. unfold AdminRoutes.resetPassword, try_catch.
  destruct newPassword as [pw|]; [|reflexivity].
  apply Nat.ltb_lt in H. rewrite H. now rewrite orb_true_r.
Qed.

(** An admin resets the password of an existing user to one of at least
    six characters that the validators accept: the answer is 200, the
    stored password is the hash of the new one, and a login with the
    user's email and the new password, which that hash matches, succeeds. *)
Theorem resetPassword_then_login (s : Store) (id : ObjectId) (u : UserDoc.t)
    (new : string) :
  unique_emails s ->
  find (User.by_id id) (users s) = Some u ->
  6 <= String.length new ->
  validate_user (UserDoc.set_password new u) = true ->
  comparePassword (UserDoc.set_password (hashPassword new) u) (Some new) = inr true ->
  let (r1, s1) := AdminRoutes.resetPassword id (Some new) s in
  r1 = res_json (message "Password reset successfully")
  /\ find (User.by_id id) (users s1) = Some (UserDoc.set_password (hashPassword new) u)
  /\ status (fst (AuthRoutes.login env (Some (UserDoc.email u)) (Some new) s1)) = 200.
Proof.
  intros Hem Hu Hlen Hv Hc'.
  destruct (find_user_by_id _ _ _ Hu) as [Hid Hin].
  assert (Hne : (new =? "") = false).
  { apply String.eqb_neq. intros ->. simpl in Hlen. lia. }
  assert (Hlt : (String.length new <? 6)%nat = false) by (apply Nat.ltb_ge; lia).
  unfold AdminRoutes.resetPassword, try_catch. simpl. rewrite Hne, Hlt. simpl.
  unfold bind at 1, User.findById. rewrite Hu.
  unfold bind. rewrite (save_password_run s u new Hem Hin Hv). simpl.
  rewrite Hid.
  assert (Hmail : find (User.by_email (UserDoc.email u)) (users s) = Some u).
  { destruct (find (User.by_email (UserDoc.email u)) (users s)) as [v|] eqn:E.
    - f_equal. pose proof (find_some _ _ E) as [Hv1 Hv2].
      apply String.eqb_eq in Hv2.
      now apply (NoDup_map_eq UserDoc.email (users s)).
    - exfalso. apply (find_none _ _ E) in Hin.
      unfold User.by_email in Hin. now rewrite String.eqb_refl in Hin. }
  split; [reflexivity|]. split.
  - apply (find_replace_first _ _ u); [exact Hu|].
    unfold User.by_id. simpl. rewrite Hid. apply N.eqb_refl.
  - rewrite (login_accepts env _ (Some (UserDoc.email u)) (Some new)
               (UserDoc.set_password (hashPassword new) u)); [reflexivity| |exact Hc'].
    unfold found_account. simpl.
    apply (find_two_replace (User.by_id id) (User.by_email (UserDoc.email u))
             (UserDoc.set_password (hashPassword new) u) u (users s) Hu Hmail).
    unfold User.by_email. simpl. apply String.eqb_refl.
Qed.

End Passwords.

(** Alice gives her right current password and an empty new one; then a
    wrong current password. *)
Lemma changePassword_rejected_witness :
  AuthRoutes.changePassword (UM := demo_model) alice (Some "alicepw") (Some "") demo_store
  = (res_status_json 400 (message "Current and new password are required"), demo_store)
  /\ AuthRoutes.changePassword (UM := demo_model) alice (Some "guess") (Some "newpw")
       demo_store
     = (res_status_json 400 (message "Current password is incorrect"), demo_store).
Proof.
  split.
  - apply (proj1 (changePassword_rejected (UM := demo_model) demo_store alice
                    (Some "alicepw") (Some ""))).
    right. reflexivity.
  - apply (proj1 (proj2 (changePassword_rejected (UM := demo_model) demo_store alice
                           (Some "guess") (Some "newpw"))) alice); reflexivity.
Defined.

Lemma changePassword_then_login_witness :
  let (r1, s1) :=
    AuthRoutes.changePassword (UM := demo_model) alice (Some "alicepw") (Some "better")
                              demo_store in
  r1 = res_json (message "Password updated successfully")
  /\ find (User.by_id (UserDoc._id alice)) (users s1)
     = Some (UserDoc.set_password (hashPassword (UserModel := demo_model) "better") alice)
  /\ status (fst (AuthRoutes.login (UM := demo_model) demo_env
                    (Some (UserDoc.email alice)) (Some "better") s1)) = 200.
Proof.
  apply (changePassword_then_login (UM := demo_model) demo_env demo_store alice alice
           "alicepw" "better").
  - unfold unique_emails. simpl.
    repeat constructor; simpl; intuition discriminate.
  - reflexivity.
  - discriminate.
  - discriminate.
  - reflexivity.
  - reflexivity.
  - reflexivity.
Defined.

Lemma resetPassword_too_short_witness :
  AdminRoutes.resetPassword (UM := demo_model) 2 (Some "12345") demo_store
  = (res_status_json 400 (message "New password must be at least 6 characters"),
     demo_store).
Proof.
  apply (resetPassword_too_short (UM := demo_model) demo_store 2 (Some "12345")).
  simpl. lia.
Defined.

Lemma resetPassword_then_login_witness :
  let (r1, s1) :=
    AdminRoutes.resetPassword (UM := demo_model) 2 (Some "123456") demo_store in
  r1 = res_json (message "Password reset successfully")
  /\ find (User.by_id 2) (users s1)
     = Some (UserDoc.set_password (hashPassword (UserModel := demo_model) "123456") bob)
  /\ status (fst (AuthRoutes.login (UM := demo_model) demo_env
                    (Some (UserDoc.email bob)) (Some "123456") s1)) = 200.
Proof.
  apply (resetPassword_then_login (UM := demo_model) demo_env demo_store 2 bob "123456").
  - unfold unique_emails. simpl.
    repeat constructor; simpl; intuition discriminate.
  - reflexivity.
  - simpl. lia.
  - reflexivity.
  - reflexivity.
Defined.

(** ** Requests on a user that does not exist; admins and deletion *)

Section Users.
Context {UM : UserModel}.
Variable env : ProcessEnv.

Context {PC : ParamCast}.

(** On a well-formed id the admin routes on the raw parameter are the
    routes on the ObjectId. *)
Lemma user_routes_on_cast (raw : string) (id : ObjectId)
    (name email role newPassword : option string) (s : Store) :
  castObjectId raw = Some id ->
  AdminRoutes.editUser_req raw name email role s = AdminRoutes.editUser id name email role s
  /\ AdminRoutes.resetPassword_req raw newPassword s
     = AdminRoutes.resetPassword id newPassword s
  /\ AdminRoutes.deleteUser_req raw s = AdminRoutes.deleteUser id s.
Proof.
  intros Hc. repeat split.
  - unfold AdminRoutes.editUser_req, AdminRoutes.editUser, User.findById_param.
    now rewrite Hc.
  - unfold AdminRoutes.resetPassword_req, AdminRoutes.resetPassword, User.findById_param.
    now rewrite Hc.
  - unfold AdminRoutes.deleteUser_req, AdminRoutes.deleteUser, User.findById_param.
    now rewrite Hc.
Qed.

(** On the admin routes that work on one user (edit, password reset with
    a new password of at least six characters, delete), a well-formed id
    that no user has is answered 404 "User not found", and an id that is
    not well-formed is answered 500 "Server error" because the lookup
    rejects.  The profile update, and the password change with both
    passwords present and non-empty, of a user whose record is gone are
    answered 404 "User not found".  Nothing is written in any of these
    cases. *)
Theorem user_routes_not_found (s : Store) (raw reset : string) (actor : UserDoc.t)
    (name email role bio avatar currentPassword newPassword : option string) :
  (forall id,
     castObjectId raw = Some id ->
     find (User.by_id id) (users s) = None ->
     AdminRoutes.editUser_req raw name email role s
       = (res_status_json 404 (message "User not found"), s)
     /\ (6 <= String.length reset ->
         AdminRoutes.resetPassword_req raw (Some reset) s
         = (res_status_json 404 (message "User not found"), s))
     /\ AdminRoutes.deleteUser_req raw s
        = (res_status_json 404 (message "User not found"), s))
  /\ (castObjectId raw = None ->
      AdminRoutes.editUser_req raw name email role s = (server_error (CastError "_id"), s)
      /\ (6 <= String.length reset ->
          AdminRoutes.resetPassword_req raw (Some reset) s
          = (server_error (CastError "_id"), s))
      /\ AdminRoutes.deleteUser_req raw s = (server_error (CastError "_id"), s))
  /\ (find (User.by_id (UserDoc._id actor)) (users s) = None ->
      AuthRoutes.updateProfile actor name email bio avatar s
        = (res_status_json 404 (message "User not found"), s)
      /\ (field_truthy currentPassword = true -> field_truthy newPassword = true ->
          AuthRoutes.changePassword actor currentPassword newPassword s
          = (res_status_json 404 (message "User not found"), s))).
Proof.
  assert (Hreset : 6 <= String.length reset ->
            negb (field_truthy (Some reset)) || (String.length reset <? 6)%nat = false).
  { intros Hlen. apply orb_false_iff. split.
    - apply negb_false_iff. simpl. apply negb_true_iff, String.eqb_neq.
      intros ->. simpl in Hlen. lia.
    - apply Nat.ltb_ge. lia. }
  split; [|split].
  - intros id Hc Hf. repeat split.
    + unfold AdminRoutes.editUser_req, try_catch, bind, User.findById_param,
        User.findById. now rewrite Hc, Hf.
    + intros Hlen. unfold AdminRoutes.resetPassword_req, try_catch.
      rewrite (Hreset Hlen).
      unfold bind, User.findById_param, User.findById. now rewrite Hc, Hf.
    + unfold AdminRoutes.deleteUser_req, try_catch, bind, User.findById_param,
        User.findById. now rewrite Hc, Hf.
  - intros Hc. repeat split.
    + unfold AdminRoutes.editUser_req, try_catch, bind, User.findById_param.
      now rewrite Hc.
    + intros Hlen. unfold AdminRoutes.resetPassword_req, try_catch.
      rewrite (Hreset Hlen).
      unfold bind, User.findById_param. now rewrite Hc.
    + unfold AdminRoutes.deleteUser_req, try_catch, bind, User.findById_param.
      now rewrite Hc.
  - intros Hf. split.
    + unfold AuthRoutes.updateProfile, try_catch, bind, User.findById. now rewrite Hf.
    + intros Hcur Hnew. unfold AuthRoutes.changePassword, try_catch.
      destruct currentPassword as [cur|], newPassword as [new|]; try discriminate.
      rewrite Hcur, Hnew. simpl.
      unfold bind, User.findById. now rewrite Hf.
Qed.

Lemma filter_remove_first_found {A : Type} (p q : A -> bool) (u : A) (l : list A) :
  find p l = Some u -> q u = false -> filter q (remove_first p l) = filter q l.
Proof.
  induction l as [|y l IH]; simpl; [discriminate|].
  destruct (p y) eqn:E; intros Hf Hq.
  - inversion Hf; subst. now rewrite Hq.
  - simpl. destruct (q y); [f_equal|]; now apply IH.
Qed.

Lemma in_remove_first {A : Type} (p : A -> bool) (x : A) (l : list A) :
  In x (remove_first p l) -> In x l.
Proof.
  induction l as [|y l IH]; simpl; [tauto|].
  destruct (p y); simpl; [tauto|]. intros [H|H]; [now left | right; now apply IH].
Qed.

Lemma deleteUser_users (s : Store) (id : ObjectId) :
  users (snd (AdminRoutes.deleteUser id s)) = users s
  \/ exists u, find (User.by_id id) (users s) = Some u
               /\ (UserDoc.role u =? "admin") = false
               /\ users (snd (AdminRoutes.deleteUser id s))
                  = remove_first (User.by_id id) (users s).
Proof.
  destruct (find (User.by_id id) (users s)) as [u|] eqn:Hu.
  - destruct (UserDoc.role u =? "admin") eqn:Hr.
    + left. unfold AdminRoutes.deleteUser, try_catch, bind, User.findById.
      now rewrite Hu, Hr.
    + right. exists u. rewrite (deleteUser_run s id u Hu Hr). auto.
  - left. unfold AdminRoutes.deleteUser, try_catch, bind, User.findById.
    now rewrite Hu.
Qed.

(** Whatever id a delete-user request names and whatever it answers, the
    admins of the store are the same documents, in the same order, before
    and after: no admin is ever removed by this route. *)
Theorem deleteUser_keeps_admins (s : Store) (id : ObjectId) :
  filter (User.by_role "admin") (users (snd (AdminRoutes.deleteUser id s)))
  = filter (User.by_role "admin") (users s).
Proof.
  destruct (deleteUser_users s id) as [E|(u & Hu & Hr & E)]; rewrite E; [reflexivity|].
  now apply (filter_remove_first_found _ _ u).
Qed.

(** An admin-login whose email or password differs from the configured
    pair is answered 400 "Invalid admin credentials" and writes nothing,
    also when the pair given is the valid login of an existing user. *)
Theorem adminLogin_rejected (s : Store) (fresh : ObjectId) (email password : string) :
  email <> ADMIN_EMAIL env \/ password <> ADMIN_PASSWORD env ->
  AuthRoutes.adminLogin env fresh email password s
  = (res_status_json 400 (message "Invalid admin credentials"), s).
Proof.
  intros H. unfold AuthRoutes.adminLogin, try_catch.
  destruct H as [H|H]; apply String.eqb_neq in H; rewrite H; simpl;
    [reflexivity | now rewrite orb_true_r].
Qed.

End Users.

(** User 0x2a does not exist; "42" is not an id; the ghost's record is
    gone, and a one-letter new password is enough to reach the lookup. *)
Lemma user_routes_not_found_witness :
  AdminRoutes.editUser_req (UM := demo_model) (PC := demo_cast)
      "00000000000000000000002a" (Some "X") None (Some "admin") demo_store
    = (res_status_json 404 (message "User not found"), demo_store)
  /\ AdminRoutes.resetPassword_req (UM := demo_model) (PC := demo_cast)
       "00000000000000000000002a" (Some "secret1") demo_store
     = (res_status_json 404 (message "User not found"), demo_store)
  /\ AdminRoutes.deleteUser_req (PC := demo_cast) "42" demo_store
     = (server_error (CastError "_id"), demo_store)
  /\ AuthRoutes.changePassword (UM := demo_model)
       (UserDoc.mk 42 "Ghost" "g@x.com" "h" "user" None None)
       (Some "old") (Some "n") demo_store
     = (res_status_json 404 (message "User not found"), demo_store).
Proof.
  pose proof (user_routes_not_found (UM := demo_model) (PC := demo_cast) demo_store
                "00000000000000000000002a" "secret1"
                (UserDoc.mk 42 "Ghost" "g@x.com" "h" "user" None None)
                (Some "X") None (Some "admin") None None (Some "old") (Some "n"))
    as (Hmissing & _ & Hgone).
  destruct (Hmissing 42%N eq_refl eq_refl) as (H1 & H2 & _).
  pose proof (user_routes_not_found (UM := demo_model) (PC := demo_cast) demo_store
                "42" "secret1" alice None None None None None None None)
    as (_ & Hcast & _).
  destruct (Hcast eq_refl) as (_ & _ & H3).
  destruct (Hgone eq_refl) as (_ & H4).
  split; [exact H1|]. split; [apply H2; simpl; lia|]. split; [exact H3|].
  exact (H4 eq_refl eq_refl).
Defined.

(** Alice's own valid credentials do not pass the admin-login. *)
Lemma adminLogin_rejected_witness :
  AuthRoutes.adminLogin (UM := demo_model) demo_env 7 "a@x.com" "alicepw" demo_store
  = (res_status_json 400 (message "Invalid admin credentials"), demo_store).
Proof.
  apply (adminLogin_rejected (UM := demo_model) demo_env demo_store 7 "a@x.com" "alicepw").
  left. discriminate.
Defined.

(** ** Who can become an admin *)

Lemma createBlog_users (s : Store) (actor : UserDoc.t) (fresh : ObjectId)
    (file title description : option string) :
  users (snd (BlogRoutes.createBlog actor fresh file title description s)) = users s.
Proof.
  unfold BlogRoutes.createBlog, try_catch.
  destruct title as [t|], description as [d|]; try reflexivity.
  destruct (negb (field_truthy (Some t)) || negb (field_truthy (Some d)));
    [reflexivity|].
  unfold bind, Blog.create.
  destruct (negb (BlogDoc.validate _)); [reflexivity|].
  destruct (existsb _ (blogs s)); reflexivity.
Qed.

Section Privilege.
Context {UM : UserModel}.
Variable env : ProcessEnv.

Lemma login_run_store (s : Store) (email password : option string) :
  users (snd (AuthRoutes.login env email password s)) = users s
  /\ blogs (snd (AuthRoutes.login env email password s)) = blogs s.
Proof.
  unfold AuthRoutes.login, try_catch, bind, User.findOne_body_email,
    User.findOne_email, User.comparePassword_call.
  destruct email as [e|]; simpl; [|tauto].
  destruct (find (User.by_email e) (users s)) as [u|]; simpl; [|tauto].
  destruct (comparePassword u password) as [err|[|]]; simpl; tauto.
Qed.

Lemma admins_of_same_users (us us' : list UserDoc.t) (u' : UserDoc.t) :
  us' = us -> In u' us' -> UserDoc.role u' = "admin" ->
  exists u, In u us /\ UserDoc._id u = UserDoc._id u' /\ UserDoc.role u = "admin".
Proof.
  intros -> Hin Hr. exists u'. auto.
Qed.

Lemma admins_of_same_map {B : Type} (f : UserDoc.t -> B) (us us' : list UserDoc.t)
    (u' : UserDoc.t) :
  (forall a b, f a = f b -> UserDoc._id a = UserDoc._id b /\ UserDoc.role a = UserDoc.role b) ->
  map f us' = map f us -> In u' us' -> UserDoc.role u' = "admin" ->
  exists u, In u us /\ UserDoc._id u = UserDoc._id u' /\ UserDoc.role u = "admin".
Proof.
  intros Hf Hm Hin Hr.
  apply (in_map f) in Hin. rewrite Hm in Hin. apply in_map_iff in Hin.
  destruct Hin as (u & Hfu & Hu). destruct (Hf _ _ Hfu) as [Hid Hrole].
  exists u. repeat split; congruence.
Qed.

Lemma handle_makes_no_admin (req : Request) (s : Store) (u' : UserDoc.t) :
  admin_path req = false ->
  In u' (users (snd (handle env req s))) ->
  UserDoc.role u' = "admin" ->
  exists u, In u (users s) /\ UserDoc._id u = UserDoc._id u' /\ UserDoc.role u = "admin".
Proof.
  intros Hpath.
  destruct req; simpl in Hpath; try discriminate; simpl handle.
  - (* signup *)
    destruct (signup_users env s fresh name email password) as (_ & [E|(u & E & _ & Hr)] & _).
    + now apply admins_of_same_users.
    + rewrite E. intros Hin Hadm. apply in_app_iff in Hin.
      destruct Hin as [Hin|[<-|[]]]; [exists u'; auto | congruence].
  - (* login *)
    apply admins_of_same_users.
    now rewrite (proj1 (login_run_store s email password)).
  - (* me *)
    now apply admins_of_same_users.
  - (* profile *)
    apply (admins_of_same_map credentials).
    + unfold credentials. intros a b E. inversion E. auto.
    + apply updateProfile_untouched.
  - (* password *)
    apply (admins_of_same_map without_password).
    + unfold without_password. intros a b E. inversion E. auto.
    + apply (password_routes_untouched s req_user 0 currentPassword newPassword).
  - (* create blog *)
    apply admins_of_same_users. apply createBlog_users.
  - apply admins_of_same_users. apply updateBlog_untouched.
  - apply admins_of_same_users. apply toggleLike_untouched.
  - apply admins_of_same_users.
    apply (comment_routes_untouched s req_user fresh id 0 content).
  - apply admins_of_same_users.
    apply (comment_routes_untouched s req_user 0 blogId commentId None).
  - apply admins_of_same_users.
    apply (updateBlog_untouched s (UserDoc.mk 0 "" "" "" "" None None) id title description).
  - (* reset password *)
    apply (admins_of_same_map without_password).
    + unfold without_password. intros a b E. inversion E. auto.
    + apply (password_routes_untouched s (UserDoc.mk 0 "" "" "" "" None None) id None
               newPassword).
  - (* delete user *)
    destruct (deleteUser_users s id) as [E|(u & _ & _ & E)].
    + now apply admins_of_same_users.
    + rewrite E. intros Hin Hadm. apply in_remove_first in Hin. exists u'. auto.
  - (* stats *)
    now apply admins_of_same_users.
Qed.

(** However many requests are served, as long as none of them is an
    admin-login or an admin edit of a user, every admin of the final
    store was an admin, under the same id, in the initial store: no
    other route creates an admin or promotes a user. *)
Theorem no_privilege_escalation (reqs : list Request) (s : Store) (u' : UserDoc.t) :
  forallb (fun req => negb (admin_path req)) reqs = true ->
  In u' (users (serve env reqs s)) ->
  UserDoc.role u' = "admin" ->
  exists u, In u (users s) /\ UserDoc._id u = UserDoc._id u' /\ UserDoc.role u = "admin".
Proof.
  revert s u'. induction reqs as [|req reqs IH]; intros s u' Hall Hin Hadm.
  - exists u'. auto.
  - simpl in Hall. apply andb_true_iff in Hall. destruct Hall as [Hreq Hall].
    apply negb_true_iff in Hreq.
    unfold serve in Hin. simpl in Hin. fold (serve env reqs) in Hin.
    destruct (IH _ _ Hall Hin Hadm) as (u1 & Hin1 & Hid1 & Hadm1).
    destruct (handle_makes_no_admin req s u1 Hreq Hin1 Hadm1) as (u & Hu & Hid & Hr).
    exists u. repeat split; congruence.
Qed.

End Privilege.

(** The admin at the end of a signup, a profile update and an attempt
    to delete the admin is the admin of the demo store. *)
Lemma no_privilege_escalation_witness :
  exists u, In u (users demo_store)
            /\ UserDoc._id u = UserDoc._id root /\ UserDoc.role u = "admin".
Proof.
  apply (no_privilege_escalation (UM := demo_model) demo_env
           [POST_auth_signup 9 "Eve" "e@x.com" "evepw";
            PUT_auth_me bob (Some "Bobby") None (Some "") None;
            DELETE_admin_users_id 3]
           demo_store root).
  - reflexivity.
  - vm_compute. right. right. left. reflexivity.
  - reflexivity.
Defined.

(** ** The invariant of the store *)

Lemma map_replace_first_key {A K : Type} (k : A -> K) (p : A -> bool) (x : A)
    (l : list A) :
  (forall y, p y = true -> k y = k x) ->
  map k (replace_first p x l) = map k l.
Proof.
  intros Hk. induction l as [|y l IH]; simpl; [reflexivity|].
  destruct (p y) eqn:E; simpl; [now rewrite (Hk y E) | now rewrite IH].
Qed.

Lemma Forall_replace_first {A : Type} (P : A -> Prop) (p : A -> bool) (x : A)
    (l : list A) :
  Forall P l -> P x -> Forall P (replace_first p x l).
Proof.
  intros Hl Hx. induction Hl as [|y l Hy Hl IH]; simpl; [constructor|].
  destruct (p y); constructor; auto.
Qed.

Lemma in_map_replace_first {A B : Type} (f : A -> B) (p : A -> bool) (x : A)
    (l : list A) (e : B) :
  In e (map f (replace_first p x l)) -> In e (map f l) \/ e = f x.
Proof.
  induction l as [|y l IH]; simpl; [tauto|].
  destruct (p y); simpl.
  - intros [H|H]; auto.
  - intros [H|H]; [auto|]. destruct (IH H); auto.
Qed.

Lemma unique_keys_remove_first {K A : Type} (key : A -> K) (hit : A -> bool)
    (docs : list A) (Huniq : NoDup (map key docs)) :
  NoDup (map key (remove_first hit docs)).
Proof.
  induction docs as [|d docs IH]; simpl in *; [constructor|].
  apply NoDup_cons_iff in Huniq. destruct Huniq as [Hd Hrest].
  destruct (hit d); [exact Hrest|]. simpl. apply NoDup_cons_iff. split; [|now apply IH].
  intros Hin. apply Hd. apply in_map_iff in Hin. destruct Hin as (z & Hz & Hin).
  apply in_map_iff. exists z. split; [exact Hz | now apply in_remove_first in Hin].
Qed.

Lemma unique_keys_filter {K A : Type} (key : A -> K) (keep : A -> bool)
    (docs : list A) (Huniq : NoDup (map key docs)) :
  NoDup (map key (filter keep docs)).
Proof.
  induction docs as [|d docs IH]; simpl in *; [constructor|].
  apply NoDup_cons_iff in Huniq. destruct Huniq as [Hd Hrest].
  destruct (keep d); [|now apply IH]. simpl. apply NoDup_cons_iff. split; [|now apply IH].
  intros Hin. apply Hd. apply in_map_iff in Hin. destruct Hin as (z & Hz & Hin).
  apply in_map_iff. exists z. split; [exact Hz|]. now apply filter_In in Hin.
Qed.

Lemma emails_after_replace (l : list UserDoc.t) (i : ObjectId) (e : string)
    (x : UserDoc.t) :
  NoDup (map UserDoc._id l) ->
  NoDup (map UserDoc.email l) ->
  existsb (fun v => User.by_email e v && negb (User.by_id i v)) l = false ->
  UserDoc.email x = e ->
  NoDup (map UserDoc.email (replace_first (User.by_id i) x l)).
Proof.
  intros Hids Hem Hfree Hx.
  induction l as [|y l IH]; simpl in *; [constructor|].
  inversion Hids as [|? ? Hyi Hli]; subst.
  inversion Hem as [|? ? Hye Hle]; subst.
  apply orb_false_iff in Hfree. destruct Hfree as [Hy Hfree].
  unfold User.by_id at 1.
  destruct (N.eqb_spec (UserDoc._id y) i) as [E|E]; simpl.
  - constructor; [|exact Hle].
    intros Hin. apply in_map_iff in Hin. destruct Hin as (v & Hv & Hin).
    assert (Hex : existsb (fun v => User.by_email (UserDoc.email x) v
                                    && negb (User.by_id i v)) l = true).
    { apply existsb_exists. exists v. split; [exact Hin|].
      unfold User.by_email, User.by_id. rewrite Hv, String.eqb_refl. simpl.
      apply negb_true_iff, N.eqb_neq. intros Ev. apply Hyi. rewrite E, <- Ev.
      now apply in_map. }
    congruence.
  - constructor; [|now apply IH].
    intros Hin. apply in_map_replace_first in Hin. destruct Hin as [Hin|Hin]; [tauto|].
    unfold User.by_email, User.by_id in Hy. rewrite Hin, String.eqb_refl in Hy.
    simpl in Hy. apply negb_false_iff, N.eqb_eq in Hy. contradiction.
Qed.

Section Invariant.
Context {UM : UserModel}.
Variable env : ProcessEnv.

Lemma ok_blog_save (doc : BlogDoc.t) (s : Store) :
  store_ok s -> NoDup (BlogDoc.likes doc) -> store_ok (snd (Blog.save doc s)).
Proof.
  intros (Hids & Hem & Hbids & Hb) Hl. unfold Blog.save.
  destruct (BlogDoc.validate doc) eqn:Hv; simpl; [|repeat split; assumption].
  repeat split; try assumption.
  - unfold unique_blog_ids. simpl. rewrite map_replace_first_key; [exact Hbids|].
    intros y Hy. now apply N.eqb_eq.
  - unfold blogs_ok. simpl. apply Forall_replace_first; auto.
Qed.

Lemma ok_blog_create (doc : BlogDoc.t) (s : Store) :
  store_ok s -> NoDup (BlogDoc.likes doc) -> store_ok (snd (Blog.create doc s)).
Proof.
  intros (Hids & Hem & Hbids & Hb) Hl. unfold Blog.create.
  destruct (BlogDoc.validate doc) eqn:Hv; simpl; [|repeat split; assumption].
  destruct (existsb (Blog.by_id (BlogDoc._id doc)) (blogs s)) eqn:Hex; simpl;
    [repeat split; assumption|].
  repeat split; try assumption.
  - unfold unique_blog_ids. simpl. rewrite map_app. simpl.
    apply NoDup_snoc; [exact Hbids|].
    intros Hin. apply in_map_iff in Hin. destruct Hin as (y & Hy & Hin).
    assert (existsb (Blog.by_id (BlogDoc._id doc)) (blogs s) = true); [|congruence].
    apply existsb_exists. exists y. split; [exact Hin | now apply N.eqb_eq].
  - unfold blogs_ok. simpl. apply Forall_app. split; [exact Hb|].
    constructor; [auto | constructor].
Qed.

Lemma ok_user_save (doc : UserDoc.t) (s : Store) :
  store_ok s -> store_ok (snd (User.save doc s)).
Proof.
  intros (Hids & Hem & Hbids & Hb). unfold User.save.
  destruct (negb (validate_user doc)); simpl; [repeat split; assumption|].
  destruct (existsb _ (users s)) eqn:Hex; simpl; [repeat split; assumption|].
  repeat split; try assumption.
  - unfold unique_user_ids. simpl. rewrite map_replace_first_key; [exact Hids|].
    intros y Hy. now apply N.eqb_eq.
  - unfold unique_emails. simpl.
    now apply (emails_after_replace _ _ (UserDoc.email doc)).
Qed.

Lemma ok_user_save_password (doc : UserDoc.t) (s : Store) :
  store_ok s -> store_ok (snd (User.save_password doc s)).
Proof.
  intros (Hids & Hem & Hbids & Hb). unfold User.save_password.
  destruct (negb (validate_user doc)); simpl; [repeat split; assumption|].
  destruct (existsb _ (users s)) eqn:Hex; simpl; [repeat split; assumption|].
  repeat split; try assumption.
  - unfold unique_user_ids. simpl. rewrite map_replace_first_key; [exact Hids|].
    intros y Hy. now apply N.eqb_eq.
  - unfold unique_emails. simpl.
    now apply (emails_after_replace _ _ (UserDoc.email doc)).
Qed.

Lemma ok_user_create (doc : UserDoc.t) (s : Store) :
  store_ok s -> store_ok (snd (User.create doc s)).
Proof.
  intros (Hids & Hem & Hbids & Hb). unfold User.create.
  destruct (negb (validate_user doc)); simpl; [repeat split; assumption|].
  destruct (existsb (User.by_id _) (users s)) eqn:Hi; simpl; [repeat split; assumption|].
  destruct (existsb (User.by_email _) (users s)) eqn:He; simpl;
    [repeat split; assumption|].
  repeat split; try assumption.
  - unfold unique_user_ids. simpl. rewrite map_app. simpl.
    apply NoDup_snoc; [exact Hids|].
    intros Hin. apply in_map_iff in Hin. destruct Hin as (y & Hy & Hin).
    assert (existsb (User.by_id (UserDoc._id doc)) (users s) = true); [|congruence].
    apply existsb_exists. exists y. split; [exact Hin | now apply N.eqb_eq].
  - unfold unique_emails. simpl. rewrite map_app. simpl.
    apply NoDup_snoc; [exact Hem | now apply existsb_false_not_in].
Qed.

Lemma ok_found_likes (s : Store) (id : ObjectId) (b : BlogDoc.t) :
  store_ok s -> find (Blog.by_id id) (blogs s) = Some b -> NoDup (BlogDoc.likes b).
Proof.
  intros (_ & _ & _ & Hb) Hf. apply find_some in Hf. destruct Hf as [Hin _].
  unfold blogs_ok in Hb. rewrite Forall_forall in Hb. now apply Hb.
Qed.

(** A write followed only by reads and the response leaves the store the
    write produced. *)
Lemma snd_write_then {A : Type} (w : M A) (k : A -> M Response) (s : Store) :
  (forall a s', snd (k a s') = s') ->
  snd (try_catch (bind w k) s) = snd (w s).
Proof.
  intros Hk. unfold try_catch, bind.
  destruct (w s) as [[e|a] s1]; simpl; [reflexivity|].
  specialize (Hk a s1). destruct (k a s1) as [[e|r] s2]; simpl in *; exact Hk.
Qed.

Lemma try_catch_blog_findById (id : ObjectId) (k : option BlogDoc.t -> M Response)
    (s : Store) :
  try_catch (bind (Blog.findById id) k) s
  = try_catch (k (find (Blog.by_id id) (blogs s))) s.
Proof. reflexivity. Qed.

Lemma try_catch_user_findById (id : ObjectId) (k : option UserDoc.t -> M Response)
    (s : Store) :
  try_catch (bind (User.findById id) k) s
  = try_catch (k (find (User.by_id id) (users s))) s.
Proof. reflexivity. Qed.

Lemma try_catch_user_findOne (e : string) (k : option UserDoc.t -> M Response)
    (s : Store) :
  try_catch (bind (User.findOne_email e) k) s
  = try_catch (k (find (User.by_email e) (users s))) s.
Proof. reflexivity. Qed.

Lemma store_ok_same (s s' : Store) :
  users s' = users s -> blogs s' = blogs s -> store_ok s -> store_ok s'.
Proof.
  unfold store_ok, unique_user_ids, unique_emails, unique_blog_ids, blogs_ok.
  intros -> ->. tauto.
Qed.

Ltac after_write := rewrite snd_write_then by (intros; reflexivity).

Lemma ok_toggleLike (actor : UserDoc.t) (id : ObjectId) (s : Store) :
  store_ok s -> store_ok (snd (BlogRoutes.toggleLike actor id s)).
Proof.
  intros Hok. unfold BlogRoutes.toggleLike. rewrite try_catch_blog_findById.
  destruct (find (Blog.by_id id) (blogs s)) as [b|] eqn:Hb; [|exact Hok].
  cbv zeta. after_write. apply ok_blog_save; [exact Hok|].
  pose proof (toggle_likes_keeps_NoDup _ (UserDoc._id actor) (ok_found_likes s id b Hok Hb))
    as Hnd.
  unfold toggle_likes in Hnd.
  destruct (BlogRoutes.indexOf (BlogDoc.likes b) (UserDoc._id actor) >? -1)%Z; exact Hnd.
Qed.

Lemma ok_addComment (actor : UserDoc.t) (fresh id : ObjectId) (content : option string)
    (s : Store) :
  store_ok s -> store_ok (snd (BlogRoutes.addComment actor fresh id content s)).
Proof.
  intros Hok. unfold BlogRoutes.addComment.
  destruct content as [text|]; [|exact Hok].
  destruct (negb (field_truthy (Some text))); [exact Hok|].
  rewrite try_catch_blog_findById.
  destruct (find (Blog.by_id id) (blogs s)) as [b|] eqn:Hb; [|exact Hok].
  cbv zeta. after_write. apply ok_blog_save; [exact Hok|].
  exact (ok_found_likes s id b Hok Hb).
Qed.

Lemma ok_deleteComment (actor : UserDoc.t) (blogId commentId : ObjectId) (s : Store) :
  store_ok s -> store_ok (snd (BlogRoutes.deleteComment actor blogId commentId s)).
Proof.
  intros Hok. unfold BlogRoutes.deleteComment. rewrite try_catch_blog_findById.
  destruct (find (Blog.by_id blogId) (blogs s)) as [b|] eqn:Hb; [|exact Hok].
  destruct (Blog.comments_id b commentId) as [c|]; [|exact Hok].
  destruct (negb (CommentDoc.user c =? UserDoc._id actor)%N
            && negb (UserDoc.role actor =? "admin")); [exact Hok|].
  cbv zeta. after_write. apply ok_blog_save; [exact Hok|].
  exact (ok_found_likes s blogId b Hok Hb).
Qed.

Lemma ok_updateBlog (actor : UserDoc.t) (id : ObjectId) (title description : option string)
    (s : Store) :
  store_ok s -> store_ok (snd (BlogRoutes.updateBlog actor id title description s)).
Proof.
  intros Hok. unfold BlogRoutes.updateBlog. rewrite try_catch_blog_findById.
  destruct (find (Blog.by_id id) (blogs s)) as [b|] eqn:Hb; [|exact Hok].
  destruct (negb (BlogDoc.author b =? UserDoc._id actor)%N
            && negb (UserDoc.role actor =? "admin")); [exact Hok|].
  cbv zeta. after_write. apply ok_blog_save; [exact Hok|].
  exact (ok_found_likes s id b Hok Hb).
Qed.

Lemma ok_admin_updateBlog (id : ObjectId) (title description : option string) (s : Store) :
  store_ok s -> store_ok (snd (AdminRoutes.updateBlog id title description s)).
Proof.
  intros Hok. unfold AdminRoutes.updateBlog. rewrite try_catch_blog_findById.
  destruct (find (Blog.by_id id) (blogs s)) as [b|] eqn:Hb; [|exact Hok].
  cbv zeta. after_write. apply ok_blog_save; [exact Hok|].
  exact (ok_found_likes s id b Hok Hb).
Qed.

Lemma ok_createBlog (actor : UserDoc.t) (fresh : ObjectId)
    (file title description : option string) (s : Store) :
  store_ok s -> store_ok (snd (BlogRoutes.createBlog actor fresh file title description s)).
Proof.
  intros Hok. unfold BlogRoutes.createBlog.
  destruct title as [t|], description as [d|]; try exact Hok.
  destruct (negb (field_truthy (Some t)) || negb (field_truthy (Some d))); [exact Hok|].
  cbv zeta. after_write. apply ok_blog_create; [exact Hok | constructor].
Qed.

Lemma ok_signup (fresh : ObjectId) (name email password : string) (s : Store) :
  store_ok s -> store_ok (snd (AuthRoutes.signup env fresh name email password s)).
Proof.
  intros Hok. unfold AuthRoutes.signup. rewrite try_catch_user_findOne.
  destruct (find (User.by_email email) (users s)); [exact Hok|].
  after_write. now apply ok_user_create.
Qed.

Lemma ok_adminLogin (fresh : ObjectId) (email password : string) (s : Store) :
  store_ok s -> store_ok (snd (AuthRoutes.adminLogin env fresh email password s)).
Proof.
  intros Hok. unfold AuthRoutes.adminLogin.
  destruct (negb (email =? ADMIN_EMAIL env) || negb (password =? ADMIN_PASSWORD env));
    [exact Hok|].
  rewrite try_catch_user_findOne. after_write.
  destruct (find (User.by_email (ADMIN_EMAIL env)) (users s)) as [a|].
  - destruct (negb (UserDoc.role a =? "admin")); [now apply ok_user_save | exact Hok].
  - now apply ok_user_create.
Qed.

Lemma ok_updateProfile (actor : UserDoc.t) (name email bio avatar : option string)
    (s : Store) :
  store_ok s -> store_ok (snd (AuthRoutes.updateProfile actor name email bio avatar s)).
Proof.
  intros Hok. unfold AuthRoutes.updateProfile. rewrite try_catch_user_findById.
  destruct (find (User.by_id (UserDoc._id actor)) (users s)); [|exact Hok].
  cbv zeta. after_write. now apply ok_user_save.
Qed.

Lemma try_catch_comparePassword (u : UserDoc.t) (candidate : option string)
    (k : bool -> M Response) (s : Store) :
  try_catch (bind (User.comparePassword_call u candidate) k) s
  = match comparePassword u candidate with
    | inl e => (server_error e, s)
    | inr isMatch => try_catch (k isMatch) s
    end.
Proof.
  unfold try_catch, bind, User.comparePassword_call.
  now destruct (comparePassword u candidate).
Qed.

Lemma ok_changePassword (actor : UserDoc.t) (currentPassword newPassword : option string)
    (s : Store) :
  store_ok s ->
  store_ok (snd (AuthRoutes.changePassword actor currentPassword newPassword s)).
Proof.
  intros Hok. unfold AuthRoutes.changePassword.
  destruct currentPassword as [cur|], newPassword as [new|]; try exact Hok.
  destruct (negb (field_truthy (Some cur)) || negb (field_truthy (Some new)));
    [exact Hok|].
  rewrite try_catch_user_findById.
  destruct (find (User.by_id (UserDoc._id actor)) (users s)) as [u|]; [|exact Hok].
  rewrite try_catch_comparePassword.
  destruct (comparePassword u (Some cur)) as [err|[|]]; try exact Hok.
  cbn [negb]. cbv iota zeta. after_write. now apply ok_user_save_password.
Qed.

Lemma ok_resetPassword (id : ObjectId) (newPassword : option string) (s : Store) :
  store_ok s -> store_ok (snd (AdminRoutes.resetPassword id newPassword s)).
Proof.
  intros Hok. unfold AdminRoutes.resetPassword.
  destruct newPassword as [new|]; [|exact Hok].
  destruct (negb (field_truthy (Some new)) || (String.length new <? 6)%nat); [exact Hok|].
  rewrite try_catch_user_findById.
  destruct (find (User.by_id id) (users s)) as [u|]; [|exact Hok].
  cbv zeta. after_write. now apply ok_user_save_password.
Qed.

Lemma ok_editUser (id : ObjectId) (name email role : option string) (s : Store) :
  store_ok s -> store_ok (snd (AdminRoutes.editUser id name email role s)).
Proof.
  intros Hok. unfold AdminRoutes.editUser. rewrite try_catch_user_findById.
  destruct (find (User.by_id id) (users s)); [|exact Hok].
  cbv zeta. after_write. now apply ok_user_save.
Qed.

Lemma ok_deleteUser (id : ObjectId) (s : Store) :
  store_ok s -> store_ok (snd (AdminRoutes.deleteUser id s)).
Proof.
  intros Hok.
  destruct (find (User.by_id id) (users s)) as [u|] eqn:Hu.
  - destruct (UserDoc.role u =? "admin") eqn:Hr.
    + unfold AdminRoutes.deleteUser. rewrite try_catch_user_findById, Hu, Hr. exact Hok.
    + rewrite (deleteUser_run s id u Hu Hr). simpl.
      destruct Hok as (Hids & Hem & Hbids & Hb).
      repeat split.
      * now apply unique_keys_remove_first.
      * now apply unique_keys_remove_first.
      * now apply unique_keys_filter.
      * unfold blogs_ok in *. simpl. rewrite Forall_forall in *.
        intros b Hin. apply filter_In in Hin. now apply Hb.
  - unfold AdminRoutes.deleteUser. rewrite try_catch_user_findById, Hu. exact Hok.
Qed.

Lemma handle_keeps_store_ok (req : Request) (s : Store) :
  store_ok s -> store_ok (snd (handle env req s)).
Proof.
  intros Hok. destruct req; simpl handle.
  - now apply ok_signup.
  - destruct (login_run_store env s email password) as [Hu Hb].
    now apply (store_ok_same s).
  - now apply ok_adminLogin.
  - exact Hok.
  - now apply ok_updateProfile.
  - now apply ok_changePassword.
  - now apply ok_createBlog.
  - now apply ok_updateBlog.
  - now apply ok_toggleLike.
  - now apply ok_addComment.
  - now apply ok_deleteComment.
  - now apply ok_admin_updateBlog.
  - now apply ok_editUser.
  - now apply ok_resetPassword.
  - now apply ok_deleteUser.
  - exact Hok.
Qed.

(** Serving any sequence of requests keeps the invariant of the store:
    user ids, user emails and blog ids stay unique, and every stored
    blog passes schema validation and has a likes array without
    duplicates.  The empty store has the invariant, so every store the
    handlers can build from it has it too. *)
Theorem serve_keeps_store_ok (reqs : list Request) (s : Store) :
  store_ok s ->
  store_ok (serve env reqs s) /\ store_ok (serve env reqs empty_store).
Proof.
  assert (Hserve : forall rs s0, store_ok s0 -> store_ok (serve env rs s0)).
  { induction rs as [|req rs IH]; intros s0 H0; [exact H0|].
    unfold serve. simpl. fold (serve env rs).
    apply IH. now apply handle_keeps_store_ok. }
  intros Hok. split; [now apply Hserve|].
  apply Hserve. repeat split; constructor.
Qed.

End Invariant.

(** The demo store has the invariant, and keeps it through a signup with
    a taken email, a like, a blank comment and the deletion of a user. *)
Lemma serve_keeps_store_ok_witness :
  store_ok (serve (UM := demo_model) demo_env
              [POST_auth_signup 9 "Mallory" "a@x.com" "pw";
               POST_blogs_id_like alice 11;
               POST_blogs_id_comment bob 200 10 (Some "   ");
               DELETE_admin_users_id 2]
              demo_store)
  /\ store_ok (serve (UM := demo_model) demo_env
                 [POST_auth_signup 9 "Mallory" "a@x.com" "pw";
                  POST_blogs_id_like alice 11;
                  POST_blogs_id_comment bob 200 10 (Some "   ");
                  DELETE_admin_users_id 2]
                 empty_store).
Proof.
  apply (serve_keeps_store_ok (UM := demo_model) demo_env).
  unfold store_ok, unique_user_ids, unique_emails, unique_blog_ids, blogs_ok. simpl.
  repeat split; repeat constructor; simpl; intuition discriminate.
Defined.
